(** * Agent runtime core of openmanus-aligned: a shallow embedding

    The development follows the Python sources under [app/core] and
    [app/agent]:

    - [Py]              the Python list, string and dict primitives the code uses
    - [json]            [json.dumps] on the values the event stream serialises
    - [events]          [app/core/events.py]
    - [planner]         [app/core/planner.py]
    - [datasource]      [app/core/datasource.py]
    - [context]         [app/core/context.py]
    - [manus_aligned]   [app/agent/manus_aligned.py]

    Text ([str]) is a [string]: a sequence of characters with code points
    below 256.  Integers ([int]) are [Z].  A [dict] is an association list in
    insertion order, which is the order Python iterates it in.  Calls that
    leave the process (the LLM, a tool, the clock, [uuid4]) hand their result
    to the model as an argument. *)

From Stdlib Require Import ZArith NArith List String Ascii Bool Lia.
From Stdlib Require Import Permutation Sorted DecimalString.
Import ListNotations.

Local Open Scope string_scope.
Local Open Scope Z_scope.

(* ================================================================== *)
(** * Python primitives *)
(* ================================================================== *)

Module Py.

(** [len(l)] *)
Definition len {A : Type} (l : list A) : Z := Z.of_nat (List.length l).

(** The start or stop of a slice, as an offset from the left: a negative
    value counts from the right end and both directions clamp. *)
Definition slice_offset (n i : Z) : nat :=
  Z.to_nat (if i <? 0 then n + i else i).

(** [l[i:]] *)
Definition slice_from {A : Type} (i : Z) (l : list A) : list A :=
  skipn (slice_offset (len l) i) l.

(** [l[:j]] *)
Definition slice_to {A : Type} (j : Z) (l : list A) : list A :=
  firstn (slice_offset (len l) j) l.

(** [l[i]]; [None] stands for [IndexError]. *)
Definition get {A : Type} (l : list A) (i : Z) : option A :=
  if i <? 0
  then if - len l <=? i then nth_error l (Z.to_nat (len l + i)) else None
  else nth_error l (Z.to_nat i).

Fixpoint update {A : Type} (n : nat) (x : A) (l : list A) : list A :=
  match l, n with
  | [], _ => []
  | _ :: t, O => x :: t
  | y :: t, S k => y :: update k x t
  end.

(** The element [l[i]] is an object mutated in place: [set l i x] is the
    list once the object at [l[i]] has become [x]. *)
Definition set {A : Type} (l : list A) (i : Z) (x : A) : list A :=
  update (Z.to_nat (if i <? 0 then len l + i else i)) x l.

(** [enumerate(l)] *)
Definition enumerate {A : Type} (l : list A) : list (Z * A) :=
  combine (map Z.of_nat (seq 0 (List.length l))) l.

(** ** Text *)

(** [str.lower] on one character: the capitals of ASCII and of Latin-1
    move up by 32, every other code point below 256 stays. *)
Definition lower_char (c : ascii) : ascii :=
  let n := N_of_ascii c in
  if (((65 <=? n) && (n <=? 90))
      || ((192 <=? n) && (n <=? 222) && negb (n =? 215)))%N
  then ascii_of_N (n + 32) else c.

Fixpoint lower (s : string) : string :=
  match s with
  | EmptyString => EmptyString
  | String c t => String (lower_char c) (lower t)
  end.

(** [sub in s] *)
Fixpoint contains (sub s : string) : bool :=
  prefix sub s
  || match s with
     | EmptyString => false
     | String _ t => contains sub t
     end.

(** [s.startswith(p)] *)
Definition startswith (s p : string) : bool := prefix p s.

(** Truth value of a [str]: the empty text is false. *)
Definition truthy (s : string) : bool := negb (s =? "")%string.

(** Truth value of an [Optional[str]]. *)
Definition truthy_opt (o : option string) : bool :=
  match o with
  | Some s => truthy s
  | None => false
  end.

(** [s[:j]] *)
Definition str_slice_to (j : Z) (s : string) : string :=
  string_of_list_ascii (slice_to j (list_ascii_of_string s)).

Definition str_len (s : string) : Z := Z.of_nat (String.length s).

(** [s.replace(old, new)] for a non-empty [old]: the occurrences are taken
    from the left and do not overlap; [skip] counts the characters of an
    occurrence still to pass over. *)
Fixpoint replace_from (old new : string) (skip : nat) (s : string) : string :=
  match s with
  | EmptyString => EmptyString
  | String c t =>
      match skip with
      | S k => replace_from old new k t
      | O =>
          if prefix old s
          then new ++ replace_from old new (String.length old - 1) t
          else String c (replace_from old new O t)
      end
  end.

Definition replace (old new s : string) : string := replace_from old new O s.

(** [c.isspace()] for a code point below 256. *)
Definition isspace (c : ascii) : bool :=
  let n := N_of_ascii c in
  (((9 <=? n) && (n <=? 13)) || ((28 <=? n) && (n <=? 32))
   || (n =? 133) || (n =? 160))%N.

(** [c.isdigit()] for a code point below 256: the ten digits and the
    superscripts one, two and three. *)
Definition isdigit (c : ascii) : bool :=
  let n := N_of_ascii c in
  (((48 <=? n) && (n <=? 57)) || (n =? 178) || (n =? 179) || (n =? 185))%N.

Fixpoint drop_spaces (l : list ascii) : list ascii :=
  match l with
  | [] => []
  | c :: t => if isspace c then drop_spaces t else l
  end.

(** [s.strip()] *)
Definition strip (s : string) : string :=
  string_of_list_ascii
    (rev (drop_spaces (rev (drop_spaces (list_ascii_of_string s))))).

(** [s.split(sep)] for a separator of one character. *)
Fixpoint split (sep : ascii) (s : string) : list string :=
  match s with
  | EmptyString => [EmptyString]
  | String c t =>
      if Ascii.eqb c sep then EmptyString :: split sep t
      else match split sep t with
           | h :: r => String c h :: r
           | [] => [String c EmptyString]
           end
  end.

(** [s.split(sep, 1)[1]] for a separator of one character that occurs in
    [s]: the text after its first occurrence. *)
Fixpoint after_first (sep : ascii) (s : string) : string :=
  match s with
  | EmptyString => EmptyString
  | String c t => if Ascii.eqb c sep then t else after_first sep t
  end.

(** [s[i:]] *)
Definition str_slice_from (i : Z) (s : string) : string :=
  string_of_list_ascii (slice_from i (list_ascii_of_string s)).

(** [sep.join(parts)] *)
Definition join (sep : string) (parts : list string) : string :=
  String.concat sep parts.

(** [any(f(x) for x in l)] *)
Definition any {A : Type} (f : A -> bool) (l : list A) : bool := existsb f l.

(** [str(n)] for an [int]. *)
Definition str_of_int (z : Z) : string := NilZero.string_of_int (Z.to_int z).

(** [sorted(l, key=...)]: a stable sort, [leb a b] telling that [a] may stay
    before [b]. *)
Section Sorted.
Context {A : Type} (leb : A -> A -> bool).

Fixpoint insert_sorted (x : A) (l : list A) : list A :=
  match l with
  | [] => [x]
  | y :: t => if leb x y then x :: y :: t else y :: insert_sorted x t
  end.

Definition sorted (l : list A) : list A := fold_right insert_sorted [] l.
End Sorted.

(** ** Dictionaries with text keys, in insertion order *)

Section Dict.
Context {V : Type}.

Definition dict : Type := list (string * V).

Fixpoint dict_get (k : string) (d : dict) : option V :=
  match d with
  | [] => None
  | (k', v) :: t => if (k' =? k)%string then Some v else dict_get k t
  end.

Definition dict_mem (k : string) (d : dict) : bool :=
  match dict_get k d with Some _ => true | None => false end.

(** [d[k] = v]: an existing key keeps its place, a new one goes last. *)
Fixpoint dict_set (k : string) (v : V) (d : dict) : dict :=
  match d with
  | [] => [(k, v)]
  | (k', v') :: t =>
      if (k' =? k)%string then (k, v) :: t else (k', v') :: dict_set k v t
  end.

(** [d.update(other)] *)
Definition dict_update (d other : dict) : dict :=
  fold_left (fun acc kv => dict_set (fst kv) (snd kv) acc) other d.

(** [del d[k]] for a key of [d] *)
Fixpoint dict_del (k : string) (d : dict) : dict :=
  match d with
  | [] => []
  | (k', v) :: t => if (k' =? k)%string then t else (k', v) :: dict_del k t
  end.

(** [d.values()] *)
Definition dict_values (d : dict) : list V := map snd d.

Definition dict_keys (d : dict) : list string := map fst d.
End Dict.
Arguments dict : clear implicits.

End Py.

(** The text ["\n"]. *)
Definition newline : string := String "010"%char "".

(** A naive [datetime], as [datetime.utcnow()] returns it. *)
Record datetime : Type := mk_datetime {
  year : N; month : N; day : N;
  hour : N; minute : N; second : N; microsecond : N
}.

(* ================================================================== *)
(** * json.dumps *)
(* ================================================================== *)

Module json.

(** The values the event stream serialises: [None], [bool], [int], [str],
    [list] and [dict] with text keys.  ([float] does not occur in any event
    field the agent fills in.) *)
#[local] Unset Elimination Schemes.
Inductive value : Type :=
| Null
| Bool (b : bool)
| Int (z : Z)
| Str (s : string)
| List (l : list value)
| Dict (d : list (string * value)).
#[local] Set Elimination Schemes.

Definition dquote : string := String "034"%char "".

Definition hex_digit (n : N) : ascii :=
  ascii_of_N (if (n <? 10)%N then 48 + n else 87 + n).

(** One character under [ensure_ascii]: the two-character escapes of
    [ESCAPE_DCT], the printable ASCII range as it is, and [\u00xx] for the
    rest. *)
Definition escape_char (c : ascii) : string :=
  let n := N_of_ascii c in
  if (n =? 34)%N then "\" ++ dquote
  else if (n =? 92)%N then "\\"
  else if (n =? 10)%N then "\n"
  else if (n =? 13)%N then "\r"
  else if (n =? 9)%N then "\t"
  else if (n =? 8)%N then "\b"
  else if (n =? 12)%N then "\f"
  else if ((32 <=? n) && (n <=? 126))%N then String c ""
  else "\u00" ++ String (hex_digit (n / 16)) (String (hex_digit (n mod 16)) "").

Fixpoint escape (s : string) : string :=
  match s with
  | EmptyString => ""
  | String c t => escape_char c ++ escape t
  end.

(** [encode_basestring_ascii] *)
Definition encode_str (s : string) : string := dquote ++ escape s ++ dquote.

Section Dumps.

(** [separators=(item_separator, key_separator)] and [sort_keys]. *)
Variables (item_separator key_separator : string) (sort_keys : bool).

(** The items of a dict in the order they are written.  The keys of a dict
    are distinct, so sorting the items sorts them by key; the values are
    rendered already when the order is fixed, which changes nothing in the
    text written. *)
Definition ordered (items : list (string * string)) : list (string * string) :=
  if sort_keys
  then Py.sorted (fun a b => String.leb (fst a) (fst b)) items
  else items.

Definition render_item (kv : string * string) : string :=
  encode_str (fst kv) ++ key_separator ++ snd kv.

Fixpoint dumps (v : value) : string :=
  match v with
  | Null => "null"
  | Bool true => "true"
  | Bool false => "false"
  | Int z => Py.str_of_int z
  | Str s => encode_str s
  | List l => "[" ++ Py.join item_separator (map dumps l) ++ "]"
  | Dict d =>
      "{" ++ Py.join item_separator
               (map render_item
                    (ordered (map (fun kv : string * value =>
                                     let (k, x) := kv in (k, dumps x)) d)))
          ++ "}"
  end.

End Dumps.

End json.

(* ================================================================== *)
(** * app/core/events.py *)
(* ================================================================== *)

(** [n] in decimal, padded with zeros on the left to [width] digits. *)
Definition zero_padded (width : nat) (n : N) : string :=
  let digits := NilZero.string_of_uint (N.to_uint n) in
  string_of_list_ascii (repeat "0"%char (width - String.length digits)) ++ digits.

(** [datetime.isoformat()] of a naive [datetime]. *)
Definition isoformat (t : datetime) : string :=
  zero_padded 4 (year t) ++ "-" ++ zero_padded 2 (month t) ++ "-"
  ++ zero_padded 2 (day t) ++ "T" ++ zero_padded 2 (hour t) ++ ":"
  ++ zero_padded 2 (minute t) ++ ":" ++ zero_padded 2 (second t)
  ++ (if (microsecond t =? 0)%N then ""
      else "." ++ zero_padded 6 (microsecond t)).

Module events.

Inductive EventType : Type :=
| MESSAGE | ACTION | OBSERVATION | PLAN | KNOWLEDGE | DATASOURCE | SYSTEM.

Definition EventType_eqb (a b : EventType) : bool :=
  match a, b with
  | MESSAGE, MESSAGE | ACTION, ACTION | OBSERVATION, OBSERVATION
  | PLAN, PLAN | KNOWLEDGE, KNOWLEDGE | DATASOURCE, DATASOURCE
  | SYSTEM, SYSTEM => true
  | _, _ => false
  end.

(** [EventType.value] *)
Definition EventType_value (t : EventType) : string :=
  match t with
  | MESSAGE => "message"
  | ACTION => "action"
  | OBSERVATION => "observation"
  | PLAN => "plan"
  | KNOWLEDGE => "knowledge"
  | DATASOURCE => "datasource"
  | SYSTEM => "system"
  end.

(** [f"{self.type}"]: the format of a member of an enum with [str] mixed
    in, which since Python 3.11 is the qualified member name. *)
Definition EventType_format (t : EventType) : string :=
  match t with
  | MESSAGE => "EventType.MESSAGE"
  | ACTION => "EventType.ACTION"
  | OBSERVATION => "EventType.OBSERVATION"
  | PLAN => "EventType.PLAN"
  | KNOWLEDGE => "EventType.KNOWLEDGE"
  | DATASOURCE => "EventType.DATASOURCE"
  | SYSTEM => "EventType.SYSTEM"
  end.

(** The fields the seven subclasses of [Event] add. *)
Inductive Payload : Type :=
| MessageEvent (role content : string) (base64_image : option string)
| ActionEvent (tool_name : string) (tool_input : Py.dict json.value)
              (tool_call_id : string)
| ObservationEvent (tool_name tool_call_id output : string)
                   (error base64_image : option string)
| PlanEvent (plan_id title : string) (steps step_statuses : list string)
            (current_step_index : Z) (is_complete : bool)
| KnowledgeEvent (category scope content : string) (conditions : list string)
                 (priority : Z)
| DatasourceEvent (source_id name description endpoint : string)
                  (auth_method : option string)
                  (documentation example_usage : string) (priority : Z)
| SystemEvent (event_name : string) (data : Py.dict json.value).

(** An event: the fields of the base class and those of its subclass.  The
    [type] field is the default of the subclass. *)
Record Event : Type := mk_Event {
  id : string;
  timestamp : datetime;
  metadata : Py.dict json.value;
  payload : Payload
}.

Definition payload_type (p : Payload) : EventType :=
  match p with
  | MessageEvent _ _ _ => MESSAGE
  | ActionEvent _ _ _ => ACTION
  | ObservationEvent _ _ _ _ _ => OBSERVATION
  | PlanEvent _ _ _ _ _ _ => PLAN
  | KnowledgeEvent _ _ _ _ _ => KNOWLEDGE
  | DatasourceEvent _ _ _ _ _ _ _ _ => DATASOURCE
  | SystemEvent _ _ => SYSTEM
  end.

Definition type (e : Event) : EventType := payload_type (payload e).

(** [_content_hash] of each subclass. *)
Definition _content_hash (p : Payload) : string :=
  match p with
  | MessageEvent role content _ => role ++ ":" ++ content
  | ActionEvent tool_name tool_input _ =>
      tool_name ++ ":" ++ json.dumps ", " ": " true (json.Dict tool_input)
  | ObservationEvent tool_name _ output error _ =>
      tool_name ++ ":" ++ output ++ ":"
      ++ (if Py.truthy_opt error
          then match error with Some e => e | None => "" end
          else "")
  | PlanEvent plan_id title steps _ _ _ =>
      plan_id ++ ":" ++ title ++ ":" ++ Py.str_of_int (Py.len steps)
  | KnowledgeEvent category scope content _ _ =>
      category ++ ":" ++ scope ++ ":" ++ Py.str_slice_to 50 content
  | DatasourceEvent source_id name _ _ _ _ _ _ => source_id ++ ":" ++ name
  | SystemEvent event_name data =>
      event_name ++ ":" ++ json.dumps ", " ": " true (json.Dict data)
  end.

Section Digest.

(** [hashlib.sha256(s.encode()).hexdigest()] *)
Variable sha256_hexdigest : string -> string.

(** [Event._generate_id] *)
Definition _generate_id (ts : datetime) (p : Payload) : string :=
  let content :=
    EventType_format (payload_type p) ++ ":" ++ isoformat ts ++ ":"
    ++ _content_hash p in
  Py.str_slice_to 16 (sha256_hexdigest content).

(** [Event.__init__]: an event built without an id gets the generated one.
    [ts] and [md] are the timestamp and metadata given, or their defaults
    ([datetime.utcnow()] and the empty dict). *)
Definition new_Event (given_id : string) (ts : datetime)
           (md : Py.dict json.value) (p : Payload) : Event :=
  if Py.truthy given_id then mk_Event given_id ts md p
  else mk_Event (_generate_id ts p) ts md p.

End Digest.

Definition opt_entry (k : string) (o : option string)
  : Py.dict json.value :=
  match o with
  | Some s => if Py.truthy s then [(k, json.Str s)] else []
  | None => []
  end.

Definition str_list (l : list string) : json.value :=
  json.List (map json.Str l).

(** The entries each subclass adds in [to_dict], in the order it adds
    them. *)
Definition payload_entries (p : Payload) : Py.dict json.value :=
  match p with
  | MessageEvent role content base64_image =>
      Py.dict_update
        [("role", json.Str role); ("content", json.Str content)]
        (opt_entry "base64_image" base64_image)
  | ActionEvent tool_name tool_input tool_call_id =>
      [("tool_name", json.Str tool_name);
       ("tool_input", json.Dict tool_input);
       ("tool_call_id", json.Str tool_call_id)]
  | ObservationEvent tool_name tool_call_id output error base64_image =>
      Py.dict_update
        (Py.dict_update
           [("tool_name", json.Str tool_name);
            ("tool_call_id", json.Str tool_call_id);
            ("output", json.Str output)]
           (opt_entry "error" error))
        (opt_entry "base64_image" base64_image)
  | PlanEvent plan_id title steps step_statuses current_step_index
              is_complete =>
      [("plan_id", json.Str plan_id);
       ("title", json.Str title);
       ("steps", str_list steps);
       ("step_statuses", str_list step_statuses);
       ("current_step_index", json.Int current_step_index);
       ("is_complete", json.Bool is_complete)]
  | KnowledgeEvent category scope content conditions priority =>
      [("category", json.Str category);
       ("scope", json.Str scope);
       ("content", json.Str content);
       ("conditions", str_list conditions);
       ("priority", json.Int priority)]
  | DatasourceEvent source_id name description endpoint auth_method
                    documentation example_usage priority =>
      [("source_id", json.Str source_id);
       ("name", json.Str name);
       ("description", json.Str description);
       ("endpoint", json.Str endpoint);
       ("auth_method",
        match auth_method with Some a => json.Str a | None => json.Null end);
       ("documentation", json.Str documentation);
       ("example_usage", json.Str example_usage);
       ("priority", json.Int priority)]
  | SystemEvent event_name data =>
      [("event_name", json.Str event_name); ("data", json.Dict data)]
  end.

(** [Event.to_dict] with the subclass's override. *)
Definition to_dict (e : Event) : Py.dict json.value :=
  Py.dict_update
    [("id", json.Str (id e));
     ("type", json.Str (EventType_value (type e)));
     ("timestamp", json.Str (isoformat (timestamp e)));
     ("metadata", json.Dict (metadata e))]
    (payload_entries (payload e)).

Record EventStream : Type := mk_EventStream {
  events : list Event;
  max_events : Z
}.

(** [EventStream()] with its field defaults. *)
Definition new_EventStream : EventStream := mk_EventStream [] 1000.

(** [e.type in (EventType.PLAN, EventType.SYSTEM)] *)
Definition is_preserved (e : Event) : bool :=
  EventType_eqb (type e) PLAN || EventType_eqb (type e) SYSTEM.

(** [EventStream.append] *)
Definition append (event : Event) (s : EventStream) : EventStream :=
  let appended := (events s ++ [event])%list in
  if Py.len appended >? max_events s
  then
    let preserved := filter is_preserved appended in
    let other := filter (fun e => negb (is_preserved e)) appended in
    let keep_count := max_events s - Py.len preserved in
    mk_EventStream (preserved ++ Py.slice_from (- keep_count) other)
                   (max_events s)
  else mk_EventStream appended (max_events s).

(** [EventStream.get_by_type] *)
Definition get_by_type (t : EventType) (s : EventStream) : list Event :=
  filter (fun e => EventType_eqb (type e) t) (events s).

(** [EventStream.serialize] *)
Definition serialize (s : EventStream) : string :=
  json.dumps "," ":" true
             (json.List (map (fun e => json.Dict (to_dict e)) (events s))).

(** [EventStream.clear] *)
Definition clear (s : EventStream) : EventStream :=
  mk_EventStream [] (max_events s).

(** [EventStream.get_latest_plan] *)
Definition get_latest_plan (s : EventStream) : option Event :=
  match get_by_type PLAN s with
  | [] => None
  | plans => Py.get plans (-1)
  end.

(** The [priority] attribute of the two kinds that carry one. *)
Definition event_priority (e : Event) : Z :=
  match payload e with
  | KnowledgeEvent _ _ _ _ priority => priority
  | DatasourceEvent _ _ _ _ _ _ _ priority => priority
  | _ => 0
  end.

(** [key=lambda k: k.priority, reverse=True] *)
Definition by_event_priority_desc (a b : Event) : bool :=
  event_priority a >=? event_priority b.

(** [EventStream.get_active_knowledge] *)
Definition get_active_knowledge (s : EventStream) : list Event :=
  Py.sorted by_event_priority_desc (get_by_type KNOWLEDGE s).

(** [EventStream.get_datasources] *)
Definition get_datasources (s : EventStream) : list Event :=
  Py.sorted by_event_priority_desc (get_by_type DATASOURCE s).

(** [o.error] taken as a truth value, for an observation. *)
Definition has_error (e : Event) : bool :=
  match payload e with
  | ObservationEvent _ _ _ error _ => Py.truthy_opt error
  | _ => false
  end.

(** [EventStream.get_recent_errors] *)
Definition get_recent_errors (limit : Z) (s : EventStream) : list Event :=
  let observations := get_by_type OBSERVATION s in
  let errors := filter has_error observations in
  Py.slice_from (- limit) errors.

End events.

(* ================================================================== *)
(** * app/core/planner.py *)
(* ================================================================== *)

Module planner.

Inductive StepStatus : Type :=
| PENDING | IN_PROGRESS | COMPLETED | BLOCKED | SKIPPED.

Definition StepStatus_eqb (a b : StepStatus) : bool :=
  match a, b with
  | PENDING, PENDING | IN_PROGRESS, IN_PROGRESS | COMPLETED, COMPLETED
  | BLOCKED, BLOCKED | SKIPPED, SKIPPED => true
  | _, _ => false
  end.

(** [StepStatus.value] *)
Definition StepStatus_value (s : StepStatus) : string :=
  match s with
  | PENDING => "pending"
  | IN_PROGRESS => "in_progress"
  | COMPLETED => "completed"
  | BLOCKED => "blocked"
  | SKIPPED => "skipped"
  end.

Record PlanStep : Type := mk_PlanStep {
  index : Z;
  description : string;
  status : StepStatus;
  notes : string;
  started_at : option datetime;
  completed_at : option datetime;
  dependencies : list Z
}.

(** [PlanStep.start] *)
Definition start (now : datetime) (s : PlanStep) : PlanStep :=
  mk_PlanStep (index s) (description s) IN_PROGRESS (notes s)
              (Some now) (completed_at s) (dependencies s).

(** [PlanStep.complete] *)
Definition complete (now : datetime) (notes' : string) (s : PlanStep)
  : PlanStep :=
  mk_PlanStep (index s) (description s) COMPLETED
              (if Py.truthy notes' then notes' else notes s)
              (started_at s) (Some now) (dependencies s).


Record Plan : Type := mk_Plan {
  id : string;
  title : string;
  objective : string;
  steps : list PlanStep;
  created_at : datetime;
  updated_at : datetime;
  current_step_index : Z;
  is_complete : bool
}.

Definition with_steps (l : list PlanStep) (p : Plan) : Plan :=
  mk_Plan (id p) (title p) (objective p) l (created_at p) (updated_at p)
          (current_step_index p) (is_complete p).

Definition with_updated_at (t : datetime) (p : Plan) : Plan :=
  mk_Plan (id p) (title p) (objective p) (steps p) (created_at p) t
          (current_step_index p) (is_complete p).

Definition with_current_step_index (i : Z) (p : Plan) : Plan :=
  mk_Plan (id p) (title p) (objective p) (steps p) (created_at p)
          (updated_at p) i (is_complete p).

Definition with_is_complete (b : bool) (p : Plan) : Plan :=
  mk_Plan (id p) (title p) (objective p) (steps p) (created_at p)
          (updated_at p) (current_step_index p) b.

(** [Plan.add_step] *)
Definition add_step (now : datetime) (description : string)
           (dependencies : option (list Z)) (p : Plan) : Plan * PlanStep :=
  let step :=
    mk_PlanStep (Py.len (steps p)) description PENDING "" None None
                (match dependencies with Some l => l | None => [] end) in
  (with_updated_at now (with_steps (steps p ++ [step]) p), step).

(** [Plan.get_current_step]; the outer [None] is [IndexError]. *)
Definition get_current_step (p : Plan) : option (option PlanStep) :=
  if current_step_index p <? Py.len (steps p)
  then match Py.get (steps p) (current_step_index p) with
       | Some s => Some (Some s)
       | None => None
       end
  else Some None.

(** [Plan.advance]: the plan after the call and the value returned.  The
    outer [None] is the [IndexError] of [self.steps[...]], raised before
    anything is written. *)
Definition advance (now : datetime) (p : Plan)
  : option (Plan * option PlanStep) :=
  let marked :=
    if current_step_index p <? Py.len (steps p)
    then match Py.get (steps p) (current_step_index p) with
         | Some current =>
             if negb (StepStatus_eqb (status current) COMPLETED)
             then Some (with_steps
                          (Py.set (steps p) (current_step_index p)
                                  (complete now "" current)) p)
             else Some p
         | None => None
         end
    else Some p in
  match marked with
  | None => None
  | Some p1 =>
      let p2 := with_updated_at now
                  (with_current_step_index (current_step_index p1 + 1) p1) in
      if current_step_index p2 >=? Py.len (steps p2)
      then Some (with_is_complete true p2, None)
      else match Py.get (steps p2) (current_step_index p2) with
           | Some next_step =>
               let started := start now next_step in
               Some (with_steps
                       (Py.set (steps p2) (current_step_index p2) started) p2,
                     Some started)
           | None => None
           end
  end.

(** The planner.  Python keeps the current plan and the entries of
    [plan_history] as references to the same [Plan] objects: every plan that
    becomes current is appended to the history in the same call.  The model
    keeps the objects in [plan_history] and [current_plan] is the position
    of the current one there. *)
Record Planner : Type := mk_Planner {
  current_plan : option nat;
  plan_history : list Plan;
  auto_plan : bool;
  complexity_threshold : Z;
  replan_on_error : bool
}.

(** [Planner()] with its field defaults. *)
Definition new_Planner : Planner := mk_Planner None [] true 3 true.

(** The object [self.current_plan] refers to. *)
Definition the_plan (pl : Planner) : option Plan :=
  match current_plan pl with
  | Some k => nth_error (plan_history pl) k
  | None => None
  end.

Definition with_the_plan (p : Plan) (pl : Planner) : Planner :=
  match current_plan pl with
  | Some k =>
      mk_Planner (current_plan pl) (Py.update k p (plan_history pl))
                 (auto_plan pl) (complexity_threshold pl) (replan_on_error pl)
  | None => pl
  end.

(** [self.current_plan = plan; self.plan_history.append(plan)] *)
Definition install (p : Plan) (pl : Planner) : Planner :=
  mk_Planner (Some (List.length (plan_history pl))) (plan_history pl ++ [p])
             (auto_plan pl) (complexity_threshold pl) (replan_on_error pl).

(** What the loop of [_parse_plan_response] keeps while it reads the lines
    of the LLM's reply: the title, the objective and the step texts. *)
Record Scan : Type := mk_Scan {
  scan_title : string;
  scan_objective : string;
  scan_steps : list string
}.

(** The status markers that can occur in a text of code points below 256;
    the source strips two more, written with an arrow and a check mark. *)
Definition status_markers : list string := [ "[ ]"; "[!]"; "[-]" ].

(** The body of the loop of [_parse_plan_response] for one line. *)
Definition scan_line (sc : Scan) (raw_line : string) : Scan :=
  let line := Py.strip raw_line in
  if Py.startswith line "TITLE:"
  then mk_Scan (Py.strip (Py.str_slice_from 6 line)) (scan_objective sc)
               (scan_steps sc)
  else if Py.startswith line "OBJECTIVE:"
  then mk_Scan (scan_title sc) (Py.strip (Py.str_slice_from 10 line))
               (scan_steps sc)
  else
    match line with
    | String c _ =>
        if Py.isdigit c && Py.contains "." line
        then
          let step_text :=
            fold_left (fun text marker => Py.strip (Py.replace marker "" text))
                      status_markers
                      (Py.strip (Py.after_first "."%char line)) in
          if Py.truthy step_text
          then mk_Scan (scan_title sc) (scan_objective sc)
                       (scan_steps sc ++ [step_text])
          else sc
        else sc
    | EmptyString => sc
    end.

(** The loop of [_parse_plan_response] over the lines of the reply. *)
Definition scan_reply (request response : string) : Scan :=
  let lines := Py.split "010"%char (Py.strip response) in
  let title :=
    if Py.str_len request >? 50
    then Py.str_slice_to 50 request ++ "..."
    else request in
  fold_left scan_line lines (mk_Scan title request []).

Definition default_steps : list string :=
  [ "Analyze the request requirements";
    "Execute the main task";
    "Verify the results" ].

(** [_parse_plan_response] from the scanned reply on: fall back to the
    default steps, build the plan and start its first step.  [plan_id] is
    the [uuid4] prefix the [Plan] constructor draws. *)
Definition plan_of_scan (now : datetime) (plan_id : string) (sc : Scan)
  : Plan :=
  let texts :=
    match scan_steps sc with
    | [] => default_steps
    | _ :: _ => scan_steps sc
    end in
  let plan0 :=
    mk_Plan plan_id (scan_title sc) (scan_objective sc) [] now now 0 false in
  let plan :=
    fold_left (fun p step_desc => fst (add_step now step_desc None p))
              texts plan0 in
  match steps plan with
  | [] => plan
  | s0 :: rest => with_steps (start now s0 :: rest) plan
  end.

(** [Planner._parse_plan_response] *)
Definition _parse_plan_response (now : datetime) (plan_id : string)
           (request response : string) : Plan :=
  plan_of_scan now plan_id (scan_reply request response).

(** What [ask] hands to [create_plan] and [replan].  The [ask] of
    [app.llm.LLM] returns a [str], which is never empty, or raises; the two
    methods read [response.content], which a message object has and a
    [str] has not. *)
Inductive Response : Type :=
| Text (text : string)
| Message (content : string)
| NoResponse
| Raised.

(** [response.content if response else ""], of which [None] is an
    exception: the one [ask] raised, or the [AttributeError] of [content]
    on a [str] that is not empty. *)
Definition response_content (response : Response) : option string :=
  match response with
  | Text text => if Py.truthy text then None else Some ""
  | Message content => Some content
  | NoResponse => Some ""
  | Raised => None
  end.

(** [Planner.create_plan]: the planner after the call and the plan
    returned, [None] when the call raises. *)
Definition create_plan (now : datetime) (plan_id : string)
           (request : string) (response : Response) (pl : Planner)
  : Planner * option Plan :=
  match response_content response with
  | Some reply =>
      let plan := _parse_plan_response now plan_id request reply in
      (install plan pl, Some plan)
  | None => (pl, None)
  end.

(** [Planner.update_step_status] *)
Definition update_step_status (now : datetime) (step_index : Z)
           (st : StepStatus) (notes' : string) (pl : Planner)
  : Planner * bool :=
  match the_plan pl with
  | None => (pl, false)
  | Some p =>
      if (0 <=? step_index) && (step_index <? Py.len (steps p))
      then match Py.get (steps p) step_index with
           | Some step =>
               let step' :=
                 mk_PlanStep
                   (index step) (description step) st
                   (if Py.truthy notes' then notes' else notes step)
                   (if StepStatus_eqb st IN_PROGRESS
                    then Some now else started_at step)
                   (if StepStatus_eqb st IN_PROGRESS then completed_at step
                    else if StepStatus_eqb st COMPLETED then Some now
                         else completed_at step)
                   (dependencies step) in
               (with_the_plan
                  (with_updated_at now
                     (with_steps (Py.set (steps p) step_index step') p)) pl,
                true)
           | None => (pl, false)
           end
      else (pl, false)
  end.

(** [Planner.advance_plan]; the outer [None] is an [IndexError]. *)
Definition advance_plan (now : datetime) (pl : Planner)
  : option (Planner * option PlanStep) :=
  match the_plan pl with
  | None => Some (pl, None)
  | Some p =>
      match advance now p with
      | Some (p', r) => Some (with_the_plan p' pl, r)
      | None => None
      end
  end.

Definition error_indicators : list string :=
  [ "error"; "failed"; "unable"; "cannot"; "blocked" ].

(** [Planner.should_replan] *)
Definition should_replan (observation : string) (pl : Planner) : bool :=
  if negb (replan_on_error pl) then false
  else match the_plan pl with
       | None => false
       | Some _ =>
           Py.any (fun indicator => Py.contains indicator (Py.lower observation))
                  error_indicators
       end.

(** [Planner.replan]: the planner after the call and the plan returned,
    [None] when the call raises, which it does after the current plan has
    been marked complete. *)
Definition replan (now : datetime) (plan_id : string) (reason : string)
           (response : Response) (pl : Planner) : Planner * option Plan :=
  let pl1 :=
    match the_plan pl with
    | Some p => with_the_plan (with_is_complete true p) pl
    | None => pl
    end in
  match response_content response with
  | Some reply =>
      let new_plan := _parse_plan_response now plan_id reason reply in
      (install new_plan pl1, Some new_plan)
  | None => (pl1, None)
  end.

(** [Planner.get_remaining_steps] *)
Definition get_remaining_steps (pl : Planner) : list PlanStep :=
  match the_plan pl with
  | None => []
  | Some p =>
      filter (fun s => negb (StepStatus_eqb (status s) COMPLETED
                             || StepStatus_eqb (status s) SKIPPED))
             (steps p)
  end.

(** [Planner.is_plan_complete] *)
Definition is_plan_complete (pl : Planner) : bool :=
  match the_plan pl with
  | None => true
  | Some p => is_complete p
  end.

End planner.

(* ================================================================== *)
(** * app/core/datasource.py *)
(* ================================================================== *)

Module datasource.

Inductive AuthMethod : Type :=
| NONE | API_KEY | BEARER_TOKEN | BASIC_AUTH | OAUTH2 | CUSTOM.

Inductive HttpMethod : Type := GET | POST | PUT | DELETE | PATCH.

Record ApiEndpoint : Type := mk_ApiEndpoint {
  path : string;
  method : HttpMethod;
  endpoint_description : string;
  parameters : Py.dict json.value;
  request_body_schema : option (Py.dict json.value);
  response_schema : option (Py.dict json.value);
  example_request : string;
  example_response : string;
  rate_limit : option string
}.

Record Datasource : Type := mk_Datasource {
  id : string;
  name : string;
  description : string;
  base_url : string;
  auth_method : AuthMethod;
  auth_config : Py.dict json.value;
  endpoints : list ApiEndpoint;
  documentation_url : option string;
  priority : Z;
  enabled : bool;
  tags : list string;
  usage_count : Z;
  last_used : option datetime
}.

(** [Datasource.matches_query] *)
Definition matches_query (query : string) (src : Datasource) : bool :=
  let query_lower := Py.lower query in
  if Py.contains (Py.lower (name src)) query_lower
     || Py.contains query_lower (Py.lower (name src))
  then true
  else if Py.any (fun tag => Py.contains (Py.lower tag) query_lower)
                 (tags src)
  then true
  else Py.any (fun endpoint =>
                 Py.contains query_lower
                             (Py.lower (endpoint_description endpoint)))
              (endpoints src).

(** [Datasource.mark_used] *)
Definition mark_used (now : datetime) (src : Datasource) : Datasource :=
  mk_Datasource (id src) (name src) (description src) (base_url src)
                (auth_method src) (auth_config src) (endpoints src)
                (documentation_url src) (priority src) (enabled src)
                (tags src) (usage_count src + 1) (Some now).

Record DatasourceModule : Type := mk_DatasourceModule {
  sources : Py.dict Datasource;
  default_timeout : Z;
  max_retries : Z
}.

(** [DatasourceModule.register] *)
Definition register (src : Datasource) (m : DatasourceModule)
  : DatasourceModule :=
  mk_DatasourceModule (Py.dict_set (id src) src (sources m))
                      (default_timeout m) (max_retries m).

(** [DatasourceModule.unregister]: the module after the call and the
    answer. *)
Definition unregister (source_id : string) (m : DatasourceModule)
  : DatasourceModule * bool :=
  if Py.dict_mem source_id (sources m)
  then (mk_DatasourceModule (Py.dict_del source_id (sources m))
                            (default_timeout m) (max_retries m),
        true)
  else (m, false).

(** [DatasourceModule.get] *)
Definition get (source_id : string) (m : DatasourceModule)
  : option Datasource :=
  Py.dict_get source_id (sources m).

(** [key=lambda s: s.priority, reverse=True]: a source may stay before
    another one whose priority is not higher. *)
Definition by_priority_desc (a b : Datasource) : bool :=
  priority a >=? priority b.

(** [DatasourceModule.find_relevant] *)
Definition find_relevant (query : string) (limit : Z) (m : DatasourceModule)
  : list Datasource :=
  let relevant :=
    filter (fun source => enabled source && matches_query query source)
           (Py.dict_values (sources m)) in
  Py.slice_to limit (Py.sorted by_priority_desc relevant).

End datasource.

(* ================================================================== *)
(** * app/core/context.py *)
(* ================================================================== *)

Module context.

Inductive ToolState : Type := AVAILABLE | MASKED | HIDDEN.

Definition ToolState_eqb (a b : ToolState) : bool :=
  match a, b with
  | AVAILABLE, AVAILABLE | MASKED, MASKED | HIDDEN, HIDDEN => true
  | _, _ => false
  end.

Record ToolMask : Type := mk_ToolMask {
  tool_name : string;
  state : ToolState;
  mask_reason : string;
  conditions : list string;
  mask_priority : Z
}.

(** An entry of [items] or [completed_items]: a dict with these keys. *)
Record TodoItem : Type := mk_TodoItem {
  description : string;
  item_priority : option Z;
  status : string;
  added_at : option string;
  completed_at : option string
}.

Record TodoRecitation : Type := mk_TodoRecitation {
  title : string;
  items : list TodoItem;
  completed_items : list TodoItem;
  notes : list string;
  last_updated : datetime;
  update_frequency : Z
}.

(** [TodoRecitation(title=...)] with the other fields at their defaults. *)
Definition new_TodoRecitation (now : datetime) (title : string)
  : TodoRecitation :=
  mk_TodoRecitation title [] [] [] now 3.

(** [TodoRecitation.add_item] *)
Definition add_item (now : datetime) (description : string) (priority : Z)
           (t : TodoRecitation) : TodoRecitation :=
  mk_TodoRecitation
    (title t)
    (items t ++ [mk_TodoItem description (Some priority) "pending"
                             (Some (isoformat now)) None])
    (completed_items t) (notes t) now (update_frequency t).

(** The heading of the recitation block. *)
Definition progress_heading : string := "[CURRENT PROGRESS]".

Section Recitation.

(** [f"{pct:.0f}"] for [pct = done / total * 100], a [float]: the digits
    written for [done] and [total]. *)
Variable percent_digits : Z -> Z -> string.

(** [TodoRecitation.to_recitation_string] *)
Definition to_recitation_string (t : TodoRecitation) : string :=
  let active :=
    match items t with
    | [] => []
    | _ :: _ =>
        ("Active: " ++ Py.str_of_int (Py.len (items t)) ++ " tasks remaining")
        :: map (fun ix : Z * TodoItem =>
                  "  " ++ Py.str_of_int (fst ix + 1) ++ ". "
                  ++ description (snd ix))
               (Py.enumerate (Py.slice_to 3 (items t)))
    end in
  let total := Py.len (items t) + Py.len (completed_items t) in
  let progress :=
    if total >? 0
    then ["Progress: " ++ Py.str_of_int (Py.len (completed_items t)) ++ "/"
          ++ Py.str_of_int total ++ " ("
          ++ percent_digits (Py.len (completed_items t)) total
          ++ "%)"]
    else [] in
  Py.join newline ([progress_heading] ++ active ++ progress).
End Recitation.

(** An entry of [ErrorRetention.errors]. *)
Record ErrorRecord : Type := mk_ErrorRecord {
  err_tool_name : string;
  error_message : string;
  input_args : Py.dict json.value;
  err_context : string;
  err_timestamp : string
}.

Record ErrorRetention : Type := mk_ErrorRetention {
  errors : list ErrorRecord;
  max_retained : Z;
  summary_threshold : Z
}.

(** [ErrorRetention.record_error] *)
Definition retain_error (now : datetime) (tool_name error_message : string)
           (input_args : option (Py.dict json.value)) (context : string)
           (r : ErrorRetention) : ErrorRetention :=
  let appended :=
    (errors r ++ [mk_ErrorRecord
                    tool_name error_message
                    (match input_args with Some a => a | None => [] end)
                    context (isoformat now)])%list in
  mk_ErrorRetention
    (if Py.len appended >? max_retained r
     then Py.slice_from (- max_retained r) appended
     else appended)
    (max_retained r) (summary_threshold r).

(** [ErrorRetention.get_relevant_errors] *)
Definition get_relevant_errors (tool_name : option string) (limit : Z)
           (r : ErrorRetention) : list ErrorRecord :=
  if Py.truthy_opt tool_name
  then
    let filtered :=
      filter (fun e =>
                (err_tool_name e
                 =? match tool_name with Some t => t | None => "" end)%string)
             (errors r) in
    Py.slice_from (- limit) filtered
  else Py.slice_from (- limit) (errors r).

(** [ErrorRetention.to_context_string] *)
Definition to_context_string (r : ErrorRetention) : string :=
  match errors r with
  | [] => ""
  | _ :: _ =>
      Py.join newline
        ("[PREVIOUS ERRORS - Avoid repeating these mistakes:]"
         :: map (fun e => "- " ++ err_tool_name e ++ ": " ++ error_message e)
                (Py.slice_from (- summary_threshold r) (errors r)))
  end.

Record SerializationVariation : Type := mk_SerializationVariation {
  templates : list string;
  current_template_index : Z;
  variation_seed : Z
}.

(** [SerializationVariation.add_variation]: the text and the object after
    the call. *)
Definition add_variation (text : string) (v : SerializationVariation)
  : string * SerializationVariation :=
  let k := variation_seed v mod 3 in
  let text' :=
    if k =? 0 then text
    else if k =? 1 then Py.replace ":" " -" text
    else Py.replace (newline ++ newline) newline text in
  (text', mk_SerializationVariation (templates v) (current_template_index v)
                                    (variation_seed v + 1)).

Record ContextEngine : Type := mk_ContextEngine {
  system_prefix : string;
  prefix_hash : string;
  tool_masks : Py.dict ToolMask;
  tool_prefixes : Py.dict string;
  todo : TodoRecitation;
  recitation_enabled : bool;
  error_retention : ErrorRetention;
  retain_errors : bool;
  serialization : SerializationVariation;
  vary_serialization : bool;
  context_version : Z;
  step_count : Z
}.

Definition with_tool_masks (m : Py.dict ToolMask) (e : ContextEngine)
  : ContextEngine :=
  mk_ContextEngine (system_prefix e) (prefix_hash e) m (tool_prefixes e)
                   (todo e) (recitation_enabled e) (error_retention e)
                   (retain_errors e) (serialization e) (vary_serialization e)
                   (context_version e) (step_count e).

Definition with_todo (t : TodoRecitation) (e : ContextEngine)
  : ContextEngine :=
  mk_ContextEngine (system_prefix e) (prefix_hash e) (tool_masks e)
                   (tool_prefixes e) t (recitation_enabled e)
                   (error_retention e) (retain_errors e) (serialization e)
                   (vary_serialization e) (context_version e) (step_count e).

Definition with_error_retention (r : ErrorRetention) (e : ContextEngine)
  : ContextEngine :=
  mk_ContextEngine (system_prefix e) (prefix_hash e) (tool_masks e)
                   (tool_prefixes e) (todo e) (recitation_enabled e) r
                   (retain_errors e) (serialization e) (vary_serialization e)
                   (context_version e) (step_count e).

Definition with_serialization (v : SerializationVariation)
           (e : ContextEngine) : ContextEngine :=
  mk_ContextEngine (system_prefix e) (prefix_hash e) (tool_masks e)
                   (tool_prefixes e) (todo e) (recitation_enabled e)
                   (error_retention e) (retain_errors e) v
                   (vary_serialization e) (context_version e) (step_count e).

Definition with_counters (version count : Z) (e : ContextEngine)
  : ContextEngine :=
  mk_ContextEngine (system_prefix e) (prefix_hash e) (tool_masks e)
                   (tool_prefixes e) (todo e) (recitation_enabled e)
                   (error_retention e) (retain_errors e) (serialization e)
                   (vary_serialization e) version count.

Definition default_tool_prefixes : Py.dict string :=
  [("browser", "browser_"); ("file", "file_"); ("shell", "shell_");
   ("python", "python_"); ("search", "search_"); ("api", "api_")].

Definition default_templates : list string :=
  [ "Action: {action}" ++ newline ++ "Input: {input}" ++ newline
    ++ "Result: {result}";
    "Executing {action} with parameters:" ++ newline ++ "{input}" ++ newline
    ++ newline ++ "Output received:" ++ newline ++ "{result}";
    "[{action}] {input} -> {result}";
    "The {action} was invoked. Parameters provided: {input}. "
    ++ "Response: {result}" ].

(** [ContextEngine()] with its field defaults; [seed] is the number
    [random.randint] draws. *)
Definition new_ContextEngine (now : datetime) (seed : Z) : ContextEngine :=
  mk_ContextEngine
    "" "" [] default_tool_prefixes
    (new_TodoRecitation now "Task Progress") true
    (mk_ErrorRetention [] 10 5) true
    (mk_SerializationVariation default_templates 0 seed) true 0 0.

Section Prefix.
Variable sha256_hexdigest : string -> string.

(** [ContextEngine.set_stable_prefix] *)
Definition set_stable_prefix (prefix : string) (e : ContextEngine)
  : ContextEngine :=
  mk_ContextEngine prefix (Py.str_slice_to 16 (sha256_hexdigest prefix))
                   (tool_masks e) (tool_prefixes e) (todo e)
                   (recitation_enabled e) (error_retention e)
                   (retain_errors e) (serialization e)
                   (vary_serialization e) (context_version e) (step_count e).

(** [ContextEngine.check_prefix_stability] *)
Definition check_prefix_stability (new_prefix : string) (e : ContextEngine)
  : bool :=
  (Py.str_slice_to 16 (sha256_hexdigest new_prefix) =? prefix_hash e)%string.
End Prefix.

(** [ContextEngine.mask_tool] *)
Definition mask_tool (tool_name reason : string)
           (conditions : option (list string)) (e : ContextEngine)
  : ContextEngine :=
  with_tool_masks
    (Py.dict_set tool_name
       (mk_ToolMask tool_name MASKED reason
                    (match conditions with Some c => c | None => [] end) 1)
       (tool_masks e))
    e.

(** [ContextEngine.unmask_tool] *)
Definition unmask_tool (tool_name : string) (e : ContextEngine)
  : ContextEngine :=
  match Py.dict_get tool_name (tool_masks e) with
  | Some m =>
      with_tool_masks
        (Py.dict_set tool_name
           (mk_ToolMask (context.tool_name m) AVAILABLE (mask_reason m)
                        (conditions m) (mask_priority m))
           (tool_masks e))
        e
  | None => e
  end.

(** [ContextEngine.get_available_tools] *)
Definition get_available_tools (all_tools : list string) (e : ContextEngine)
  : list string :=
  filter (fun tool =>
            match Py.dict_get tool (tool_masks e) with
            | None => true
            | Some m => ToolState_eqb (state m) AVAILABLE
            end)
         all_tools.

(** [ContextEngine.get_tool_with_prefix] *)
Definition get_tool_with_prefix (category tool_name : string)
           (e : ContextEngine) : string :=
  let prefix :=
    match Py.dict_get category (tool_prefixes e) with
    | Some p => p
    | None => ""
    end in
  if negb (Py.startswith tool_name prefix)
  then prefix ++ tool_name
  else tool_name.

(** [ContextEngine.get_deterministic_context] *)
Definition get_deterministic_context (events : list (Py.dict json.value))
  : string :=
  json.dumps "," ":" true (json.List (map json.Dict events)).

Definition masked_heading : string :=
  "[UNAVAILABLE TOOLS - Do not attempt to use:]".

(** The line of one masked tool. *)
Definition masked_line (m : ToolMask) : string :=
  "- " ++ tool_name m
  ++ (if Py.truthy (mask_reason m) then " (" ++ mask_reason m ++ ")" else "").

(** [ContextEngine.get_masked_tools_context] *)
Definition get_masked_tools_context (e : ContextEngine) : string :=
  let masked :=
    filter (fun m => ToolState_eqb (state m) MASKED)
           (Py.dict_values (tool_masks e)) in
  match masked with
  | [] => ""
  | _ :: _ => Py.join newline (masked_heading :: map masked_line masked)
  end.

(** [i in completed_steps] *)
Definition mem_Z (i : Z) (l : list Z) : bool := existsb (Z.eqb i) l.

(** [ContextEngine.update_todo], for completed indices that are not below
    [-len(plan_steps)], where the code raises [IndexError]. *)
Definition update_todo (now : datetime) (plan_steps : list string)
           (current_step : Z) (completed_steps : list Z) (e : ContextEngine)
  : ContextEngine :=
  let t0 := new_TodoRecitation now "Task Progress" in
  let t1 :=
    fold_left
      (fun t (ix : Z * string) =>
         if negb (mem_Z (fst ix) completed_steps)
         then add_item now (snd ix) (if fst ix =? current_step then 1 else 2) t
         else t)
      (Py.enumerate plan_steps) t0 in
  let t2 :=
    fold_left
      (fun t i =>
         if i <? Py.len plan_steps
         then match Py.get plan_steps i with
              | Some d =>
                  mk_TodoRecitation
                    (title t) (items t)
                    (completed_items t
                     ++ [mk_TodoItem d None "completed" None
                                     (Some (isoformat now))])
                    (notes t) (last_updated t) (update_frequency t)
              | None => t
              end
         else t)
      completed_steps t1 in
  with_todo t2 e.

Section Build.
Variable percent_digits : Z -> Z -> string.

(** [ContextEngine.get_recitation_context] *)
Definition get_recitation_context (e : ContextEngine) : string :=
  if negb (recitation_enabled e) then ""
  else to_recitation_string percent_digits (todo e).

(** [ContextEngine.should_recite]; [None] is [ZeroDivisionError]. *)
Definition should_recite (e : ContextEngine) : option bool :=
  if update_frequency (todo e) =? 0 then None
  else Some (step_count e mod update_frequency (todo e) =? 0).

(** [ContextEngine.record_error] *)
Definition record_error (now : datetime) (tool_name error_message : string)
           (input_args : option (Py.dict json.value)) (e : ContextEngine)
  : ContextEngine :=
  if negb (retain_errors e) then e
  else with_error_retention
         (retain_error now tool_name error_message input_args ""
                       (error_retention e))
         e.

(** [ContextEngine.get_error_context] *)
Definition get_error_context (e : ContextEngine) : string :=
  if negb (retain_errors e) then ""
  else to_context_string (error_retention e).

(** [ContextEngine.increment_step] *)
Definition increment_step (e : ContextEngine) : ContextEngine :=
  with_counters (context_version e + 1) (step_count e + 1) e.

(** The prefix [build_context] assembles: the stable prefix and, when asked
    for and not empty, the masked-tools block. *)
Definition build_prefix (include_tool_masks : bool) (e : ContextEngine)
  : string :=
  let prefix_parts :=
    ([system_prefix e]
     ++ (if include_tool_masks
         then let masks_ctx := get_masked_tools_context e in
              if Py.truthy masks_ctx then [masks_ctx] else []
         else []))%list in
  Py.join (newline ++ newline) (filter Py.truthy prefix_parts).

(** The loop of [build_context] over the events: the output of an
    observation goes through [add_variation].  The output is read as a
    text, which it is in every dict [to_dict] gives; for another value the
    code keeps the value or raises in [add_variation]. *)
Fixpoint process_events (vary : bool) (base_events : list (Py.dict json.value))
         (v : SerializationVariation)
  : list (Py.dict json.value) * SerializationVariation :=
  match base_events with
  | [] => ([], v)
  | event :: rest =>
      let is_observation :=
        match Py.dict_get "type" event with
        | Some (json.Str "observation") => true
        | _ => false
        end in
      if vary && is_observation
      then
        let output :=
          match Py.dict_get "output" event with
          | Some (json.Str s) => s
          | _ => ""
          end in
        let (varied, v') := add_variation output v in
        let (done, v'') := process_events vary rest v' in
        (Py.dict_set "output" (json.Str varied) event :: done, v'')
      else
        let (done, v') := process_events vary rest v in
        (event :: done, v')
  end.

(** The list [dynamic_parts] that [build_context] fills: the recitation on
    the steps [should_recite] selects, then the retained errors.  [None] is
    the [ZeroDivisionError] of [should_recite]. *)
Definition dynamic_parts (include_todo include_errors : bool)
           (e : ContextEngine) : option (list string) :=
  let recite :=
    if include_todo then should_recite e else Some false in
  match recite with
  | None => None
  | Some reciting =>
      Some ((if reciting
             then let recitation := get_recitation_context e in
                  if Py.truthy recitation then [recitation] else []
             else [])
            ++ (if include_errors
                then let errors := get_error_context e in
                     if Py.truthy errors then [errors] else []
                else []))%list
  end.

(** [ContextEngine.build_context]: the engine after the call and the pair
    returned; [None] is an exception.  [dynamic_parts] is filled and is not
    part of what the function returns. *)
Definition build_context (base_events : list (Py.dict json.value))
           (include_todo include_errors include_tool_masks : bool)
           (e : ContextEngine)
  : option (ContextEngine * (string * list (Py.dict json.value))) :=
  let e1 := with_counters (context_version e) (step_count e + 1) e in
  let prefix := build_prefix include_tool_masks e1 in
  match dynamic_parts include_todo include_errors e1 with
  | None => None
  | Some _ =>
      let (processed_events, v') :=
        process_events (vary_serialization e1) base_events
                       (serialization e1) in
      Some (with_serialization v' e1, (prefix, processed_events))
  end.

End Build.

End context.

(* ================================================================== *)
(** * app/core/knowledge.py *)
(* ================================================================== *)

Module knowledge.

Inductive KnowledgeScope : Type :=
| BROWSER | CODING | DATA_ANALYSIS | FILE_OPERATIONS | WEB_SEARCH
| API_INTERACTION | SHELL | GENERAL.

Definition KnowledgeScope_eqb (a b : KnowledgeScope) : bool :=
  match a, b with
  | BROWSER, BROWSER | CODING, CODING | DATA_ANALYSIS, DATA_ANALYSIS
  | FILE_OPERATIONS, FILE_OPERATIONS | WEB_SEARCH, WEB_SEARCH
  | API_INTERACTION, API_INTERACTION | SHELL, SHELL | GENERAL, GENERAL =>
      true
  | _, _ => false
  end.

(** [set(KnowledgeScope)] *)
Definition all_scopes : list KnowledgeScope :=
  [ BROWSER; CODING; DATA_ANALYSIS; FILE_OPERATIONS; WEB_SEARCH;
    API_INTERACTION; SHELL; GENERAL ].

Inductive KnowledgeCategory : Type :=
| BEST_PRACTICE | WARNING | REFERENCE | TIP | CONSTRAINT.

Record KnowledgeItem : Type := mk_KnowledgeItem {
  id : string;
  scope : KnowledgeScope;
  category : KnowledgeCategory;
  content : string;
  conditions : list string;
  triggers : list string;
  priority : Z;
  enabled : bool;
  usage_count : Z;
  last_used : option datetime
}.

(** A Python set is the list of its members: the code asks only whether a
    set is empty, whether a value is in it, and whether two sets share a
    member. *)
Definition mem_str (x : string) (s : list string) : bool :=
  existsb (String.eqb x) s.

Definition mem_scope (x : KnowledgeScope) (s : list KnowledgeScope) : bool :=
  existsb (KnowledgeScope_eqb x) s.

(** [scope_tools.get(self.scope, set())] of [KnowledgeItem.matches] *)
Definition scope_tools (scope : KnowledgeScope) : list string :=
  match scope with
  | BROWSER => ["browser"; "browser_use"; "web"]
  | CODING => ["python"; "code"; "execute"]
  | DATA_ANALYSIS => ["pandas"; "data"; "analyze"]
  | FILE_OPERATIONS => ["file"; "read"; "write"; "edit"]
  | WEB_SEARCH => ["search"; "google"; "bing"]
  | API_INTERACTION => ["api"; "http"; "request"]
  | SHELL => ["bash"; "shell"; "terminal"]
  | GENERAL => []
  end.

(** [KnowledgeItem.matches] *)
Definition matches (context : string) (active_tools : option (list string))
           (item : KnowledgeItem) : bool :=
  if negb (enabled item) then false
  else
    let context_lower := Py.lower context in
    if Py.any (fun trigger => Py.contains (Py.lower trigger) context_lower)
              (triggers item)
    then true
    else
      match active_tools with
      | Some ((_ :: _) as tools) =>
          let relevant_tools := scope_tools (scope item) in
          if existsb (fun tool => mem_str tool relevant_tools) tools
          then true
          else false
      | _ => false
      end.

(** [KnowledgeItem.mark_used] *)
Definition mark_used (now : datetime) (item : KnowledgeItem)
  : KnowledgeItem :=
  mk_KnowledgeItem (id item) (scope item) (category item) (content item)
                   (conditions item) (triggers item) (priority item)
                   (enabled item) (usage_count item + 1) (Some now).

Record KnowledgeModule : Type := mk_KnowledgeModule {
  knowledge_base : list KnowledgeItem;
  active_scopes : list KnowledgeScope;
  max_injections : Z
}.

(** [KnowledgeModule.add_knowledge] *)
Definition add_knowledge (item : KnowledgeItem) (m : KnowledgeModule)
  : KnowledgeModule :=
  mk_KnowledgeModule (knowledge_base m ++ [item]) (active_scopes m)
                     (max_injections m).

(** The loop of [remove_knowledge]: the base without the first item of
    that id, [None] when no item has it. *)
Fixpoint pop_first (item_id : string) (base : list KnowledgeItem)
  : option (list KnowledgeItem) :=
  match base with
  | [] => None
  | item :: rest =>
      if (id item =? item_id)%string then Some rest
      else match pop_first item_id rest with
           | Some rest' => Some (item :: rest')
           | None => None
           end
  end.

(** [KnowledgeModule.remove_knowledge]: the module after the call and the
    answer. *)
Definition remove_knowledge (item_id : string) (m : KnowledgeModule)
  : KnowledgeModule * bool :=
  match pop_first item_id (knowledge_base m) with
  | Some base =>
      (mk_KnowledgeModule base (active_scopes m) (max_injections m), true)
  | None => (m, false)
  end.

(** [KnowledgeModule.activate_scope] *)
Definition activate_scope (scope : KnowledgeScope) (m : KnowledgeModule)
  : KnowledgeModule :=
  mk_KnowledgeModule
    (knowledge_base m)
    (if mem_scope scope (active_scopes m) then active_scopes m
     else active_scopes m ++ [scope])
    (max_injections m).

(** [KnowledgeModule.deactivate_scope] *)
Definition deactivate_scope (scope : KnowledgeScope) (m : KnowledgeModule)
  : KnowledgeModule :=
  mk_KnowledgeModule
    (knowledge_base m)
    (filter (fun s => negb (KnowledgeScope_eqb s scope)) (active_scopes m))
    (max_injections m).

(** [key=lambda x: x.priority, reverse=True] *)
Definition by_priority_desc (a b : KnowledgeItem) : bool :=
  priority a >=? priority b.

(** [KnowledgeModule.get_relevant_knowledge] *)
Definition get_relevant_knowledge
           (context : string) (active_tools : option (list string))
           (scopes : option (list KnowledgeScope)) (m : KnowledgeModule)
  : list KnowledgeItem :=
  let target_scopes :=
    match scopes with
    | Some ((_ :: _) as given) => given
    | _ =>
        match active_scopes m with
        | (_ :: _) as active => active
        | [] => all_scopes
        end
    end in
  let relevant :=
    filter (fun item =>
              if negb (enabled item) then false
              else if negb (mem_scope (scope item) target_scopes)
                      && negb (KnowledgeScope_eqb (scope item) GENERAL)
              then false
              else matches context active_tools item)
           (knowledge_base m) in
  Py.slice_to (max_injections m) (Py.sorted by_priority_desc relevant).

(** [tool_scope_map] of [detect_scope_from_tools] *)
Definition tool_scope_map : Py.dict KnowledgeScope :=
  [ ("browser", BROWSER); ("browser_use", BROWSER);
    ("python", CODING); ("python_execute", CODING); ("code", CODING);
    ("pandas", DATA_ANALYSIS); ("data", DATA_ANALYSIS);
    ("file", FILE_OPERATIONS); ("read", FILE_OPERATIONS);
    ("write", FILE_OPERATIONS);
    ("search", WEB_SEARCH); ("web_search", WEB_SEARCH);
    ("api", API_INTERACTION); ("http", API_INTERACTION);
    ("bash", SHELL); ("shell", SHELL) ].

(** [detected.add(scope)] *)
Definition add_scope (scope : KnowledgeScope) (detected : list KnowledgeScope)
  : list KnowledgeScope :=
  if mem_scope scope detected then detected else detected ++ [scope].

(** [KnowledgeModule.detect_scope_from_tools] *)
Definition detect_scope_from_tools (tools : list string)
  : list KnowledgeScope :=
  fold_left
    (fun detected tool =>
       let tool_lower := Py.lower tool in
       fold_left
         (fun detected (entry : string * KnowledgeScope) =>
            if Py.contains (fst entry) tool_lower
            then add_scope (snd entry) detected
            else detected)
         tool_scope_map detected)
    tools [].

End knowledge.

(* ================================================================== *)
(** * app/agent/manus_aligned.py *)
(* ================================================================== *)

Module manus_aligned.

(** The fields of the agent the event-driven methods read and write. *)
Record ManusAligned : Type := mk_ManusAligned {
  next_step_prompt : string;
  max_observe : Z;
  max_steps : Z;
  event_stream : events.EventStream;
  the_planner : planner.Planner;
  context_engine : context.ContextEngine
}.

Definition with_event_stream (s : events.EventStream) (a : ManusAligned)
  : ManusAligned :=
  mk_ManusAligned (next_step_prompt a) (max_observe a) (max_steps a) s
                  (the_planner a) (context_engine a).

Definition with_planner (p : planner.Planner) (a : ManusAligned)
  : ManusAligned :=
  mk_ManusAligned (next_step_prompt a) (max_observe a) (max_steps a)
                  (event_stream a) p (context_engine a).

Definition with_context_engine (c : context.ContextEngine) (a : ManusAligned)
  : ManusAligned :=
  mk_ManusAligned (next_step_prompt a) (max_observe a) (max_steps a)
                  (event_stream a) (the_planner a) c.

Section Agent.
Variable sha256_hexdigest : string -> string.
Variable percent_digits : Z -> Z -> string.

(** [json.loads] on the values the model holds; [None] is its
    [JSONDecodeError]. *)
Variable json_loads : string -> option json.value.

(** The [ObservationEvent] that [_add_observation_event] builds. *)
Definition observation_event (now : datetime)
           (tool_name tool_call_id output : string)
           (error base64_image : option string) : events.Event :=
  events.new_Event sha256_hexdigest "" now []
    (events.ObservationEvent tool_name tool_call_id output error
                             base64_image).

(** [ManusAligned._add_action_event] *)
Definition _add_action_event (now : datetime) (tool_name : string)
           (tool_input : Py.dict json.value) (tool_call_id : string)
           (a : ManusAligned) : ManusAligned :=
  with_event_stream
    (events.append
       (events.new_Event sha256_hexdigest "" now []
          (events.ActionEvent tool_name tool_input tool_call_id))
       (event_stream a))
    a.

(** [ManusAligned._add_observation_event] *)
Definition _add_observation_event (now : datetime)
           (tool_name tool_call_id output : string)
           (error base64_image : option string) (a : ManusAligned)
  : ManusAligned :=
  let a1 :=
    with_event_stream
      (events.append
         (observation_event now tool_name tool_call_id output error
                            base64_image)
         (event_stream a))
      a in
  if Py.truthy_opt error
  then with_context_engine
         (context.record_error now tool_name
            (match error with Some e => e | None => "" end) None
            (context_engine a1))
         a1
  else a1.

(** [ManusAligned._inject_plan_event] *)
Definition _inject_plan_event (now : datetime) (a : ManusAligned)
  : ManusAligned :=
  match planner.the_plan (the_planner a) with
  | None => a
  | Some plan =>
      with_event_stream
        (events.append
           (events.new_Event sha256_hexdigest "" now []
              (events.PlanEvent
                 (planner.id plan) (planner.title plan)
                 (map planner.description (planner.steps plan))
                 (map (fun s => planner.StepStatus_value (planner.status s))
                      (planner.steps plan))
                 (planner.current_step_index plan)
                 (planner.is_complete plan)))
           (event_stream a))
        a
  end.

Definition success_indicators : list string :=
  [ "success"; "completed"; "done"; "created"; "updated" ].

(** [ManusAligned._step_appears_complete]; [None] is an [IndexError] of
    [get_current_step]. *)
Definition _step_appears_complete (tool_name result : string)
           (a : ManusAligned) : option bool :=
  match planner.the_plan (the_planner a) with
  | None => Some false
  | Some plan =>
      match planner.get_current_step plan with
      | None => None
      | Some None => Some false
      | Some (Some _) =>
          Some (Py.any (fun ind => Py.contains ind (Py.lower result))
                       success_indicators)
      end
  end.

(** One tool call of the LLM's reply with everything the loop body of [act]
    receives from outside while it handles the call: the text
    [execute_tool] returns, the clock, and what the planner's LLM answers
    in case of a replan. *)
Record ToolCall : Type := mk_ToolCall {
  call_id : string;
  function_name : string;
  arguments : string;
  executed : string;
  at_time : datetime;
  replan_id : string;
  replan_response : planner.Response
}.

(** [json.loads(command.function.arguments or "{}")] as
    [_add_action_event] takes it: [None] when [json.loads] raises or gives
    a value that is not a dict, which [ActionEvent] refuses. *)
Definition tool_input_of (command : ToolCall)
  : option (Py.dict json.value) :=
  match json_loads (if Py.truthy (arguments command)
                    then arguments command else "{}") with
  | Some (json.Dict tool_input) => Some tool_input
  | _ => None
  end.

(** Whether [act] reads the text a tool returned as an error. *)
Definition is_error (result : string) : bool :=
  if Py.truthy result then Py.startswith result "Error:" else false.

(** The [output] and the [error] that [act] hands to
    [_add_observation_event] for a tool call. *)
Definition observed (command : ToolCall) : string * option string :=
  let result := executed command in
  (if negb (is_error result) then result else "",
   if is_error result then Some result else None).

(** The text [act] appends to [results] for a tool call. *)
Definition reported (max_observe : Z) (command : ToolCall) : string :=
  let result := executed command in
  if max_observe =? 0 then result else Py.str_slice_to max_observe result.

(** The loop body of [act] up to the observation: the Action event, then
    the Observation event of the executed call. *)
Definition record_call (tool_input : Py.dict json.value)
           (command : ToolCall) (a : ManusAligned) : ManusAligned :=
  let now := at_time command in
  let tool_name := function_name command in
  let a1 := _add_action_event now tool_name tool_input (call_id command) a in
  _add_observation_event now tool_name (call_id command)
                         (fst (observed command)) (snd (observed command))
                         None a1.

(** The part of the loop body that replans after an error: the agent after
    it, and whether it went through; it does not when [replan] raises. *)
Definition replan_on (command : ToolCall) (a : ManusAligned)
  : ManusAligned * bool :=
  let now := at_time command in
  let tool_name := function_name command in
  let result := executed command in
  if is_error result && planner.replan_on_error (the_planner a)
  then
    if planner.should_replan result (the_planner a)
    then
      match planner.replan now (replan_id command)
                           ("Error in " ++ tool_name ++ ": " ++ result)
                           (replan_response command) (the_planner a) with
      | (pl, Some _) => (_inject_plan_event now (with_planner pl a), true)
      | (pl, None) => (with_planner pl a, false)
      end
    else (a, true)
  else (a, true).

(** The part of the loop body that moves the plan on after a success: the
    agent after it, and whether it went through; it does not when
    [get_current_step] or [advance] raises. *)
Definition advance_on (command : ToolCall) (a : ManusAligned)
  : ManusAligned * bool :=
  let now := at_time command in
  let tool_name := function_name command in
  let result := executed command in
  if negb (is_error result)
  then match planner.the_plan (the_planner a) with
       | None => (a, true)
       | Some plan =>
           match planner.get_current_step plan with
           | None => (a, false)
           | Some None => (a, true)
           | Some (Some _) =>
               match _step_appears_complete tool_name result a with
               | None => (a, false)
               | Some false => (a, true)
               | Some true =>
                   match planner.advance_plan now (the_planner a) with
                   | None => (a, false)
                   | Some (pl, _) =>
                       (_inject_plan_event now (with_planner pl a), true)
                   end
               end
           end
       end
  else (a, true).

(** The body of the loop of [act] for one tool call: the agent after it and
    the text appended to [results], [None] when the body raises.  What was
    written before the exception stays written. *)
Definition act_on (command : ToolCall) (a : ManusAligned)
  : ManusAligned * option string :=
  match tool_input_of command with
  | None => (a, None)
  | Some tool_input =>
      let a2 := record_call tool_input command a in
      let (a3, replanned) := replan_on command a2 in
      if replanned
      then
        let (a4, advanced) := advance_on command a3 in
        if advanced
        then (a4, Some (reported (max_observe a4) command))
        else (a4, None)
      else (a3, None)
  end.

(** The loop of [act] over the tool calls: the agent after it and the
    texts gathered, [None] when a call raises, which ends the loop. *)
Fixpoint act_loop (tool_calls : list ToolCall) (a : ManusAligned)
  : ManusAligned * option (list string) :=
  match tool_calls with
  | [] => (a, Some [])
  | command :: rest =>
      match act_on command a with
      | (a', None) => (a', None)
      | (a', Some result) =>
          match act_loop rest a' with
          | (a'', None) => (a'', None)
          | (a'', Some results) => (a'', Some (result :: results))
          end
      end
  end.

(** [ManusAligned.act] on a reply with tool calls, [command] the first of
    them; without tool calls [act] is the parent's. *)
Definition act (command : ToolCall) (rest : list ToolCall)
           (a : ManusAligned) : ManusAligned * option string :=
  match act_loop (command :: rest) a with
  | (a', None) => (a', None)
  | (a', Some results) => (a', Some (Py.join (newline ++ newline) results))
  end.

(** The first part of [ManusAligned.think]: the step is counted, and on the
    steps [should_recite] selects the todo is rebuilt from the current
    plan.  [None] is the [ZeroDivisionError] of [should_recite]. *)
Definition refreshed_engine (now : datetime) (a : ManusAligned)
  : option context.ContextEngine :=
  let ce1 := context.increment_step (context_engine a) in
  match context.should_recite ce1 with
  | None => None
  | Some reciting =>
      Some
        (if reciting
         then match planner.the_plan (the_planner a) with
              | Some plan =>
                  let completed :=
                    map fst
                        (filter (fun ix : Z * planner.PlanStep =>
                                   planner.StepStatus_eqb
                                     (planner.status (snd ix))
                                     planner.COMPLETED)
                                (Py.enumerate (planner.steps plan))) in
                  context.update_todo
                    now (map planner.description (planner.steps plan))
                    (planner.current_step_index plan) completed ce1
              | None => ce1
              end
         else ce1)
  end.

(** [ManusAligned.think] up to the call of the parent's [think]: the agent
    at that point and the [next_step_prompt] the parent sends to the LLM.
    [browser_prompt] is the prompt of the browser helper when the browser
    is in use.  [None] is an exception. *)
Definition think_prompt (now : datetime) (browser_prompt : option string)
           (a : ManusAligned) : option (ManusAligned * string) :=
  match refreshed_engine now a with
  | None => None
  | Some ce2 =>
      match context.build_context
              percent_digits
              (map events.to_dict (events.events (event_stream a)))
              true true true ce2 with
      | None => None
      | Some (ce3, _) =>
          let original_prompt := next_step_prompt a in
          let recitation :=
            context.get_recitation_context percent_digits ce3 in
          let prompt1 :=
            if Py.truthy recitation
            then recitation ++ newline ++ newline ++ original_prompt
            else original_prompt in
          let masked_context := context.get_masked_tools_context ce3 in
          let prompt2 :=
            if Py.truthy masked_context
            then masked_context ++ newline ++ newline ++ prompt1
            else prompt1 in
          let prompt3 :=
            match browser_prompt with
            | Some p => p
            | None => prompt2
            end in
          Some (with_context_engine ce3 a, prompt3)
      end
  end.

End Agent.

(** What [get_event_stream_summary] answers: a dict of these four keys,
    [by_type] a dict from the value of each event type to a count. *)
Record StreamSummary : Type := mk_StreamSummary {
  total_events : Z;
  by_type : Py.dict Z;
  latest_plan : option events.Event;
  recent_errors : Z
}.

(** [for event_type in EventType] *)
Definition all_event_types : list events.EventType :=
  [ events.MESSAGE; events.ACTION; events.OBSERVATION; events.PLAN;
    events.KNOWLEDGE; events.DATASOURCE; events.SYSTEM ].

(** [ManusAligned.get_event_stream_summary] *)
Definition get_event_stream_summary (a : ManusAligned) : StreamSummary :=
  mk_StreamSummary
    (Py.len (events.events (event_stream a)))
    (map (fun event_type =>
            (events.EventType_value event_type,
             Py.len (events.get_by_type event_type (event_stream a))))
         all_event_types)
    (events.get_latest_plan (event_stream a))
    (Py.len (events.get_recent_errors 5 (event_stream a))).

End manus_aligned.

(* ================================================================== *)
(** * Properties stated by the specification *)
(* ================================================================== *)

(** A clock reading used in the examples. *)
Definition t0 : datetime := mk_datetime 2025 1 1 0 0 0 0.

(** [lex] occurs in [text] when case is ignored: some segment of [text]
    lower-cases to the lower-cased [lex]. *)
Definition occurs_nocase (lex text : string) : Prop :=
  exists pre mid post,
    text = pre ++ mid ++ post /\ Py.lower mid = Py.lower lex.

Module planner_spec.
Import planner.

(** Completed and Skipped are the terminal statuses. *)
Definition terminal (st : StepStatus) : bool :=
  StepStatus_eqb st COMPLETED || StepStatus_eqb st SKIPPED.

(** [advance] leaves a current step that is already terminal as it is. *)
Definition advance_keeps_terminal (now : datetime) (p : Plan) : Prop :=
  forall cur p' r,
    Py.get (steps p) (current_step_index p) = Some cur ->
    terminal (status cur) = true ->
    advance now p = Some (p', r) ->
    Py.get (steps p') (current_step_index p) = Some cur.

(** The failure lexemes decide [should_replan] together with the flag. *)
Definition replan_iff_flag_and_lexeme (text : string) (pl : Planner) : Prop :=
  should_replan text pl = true <->
  (replan_on_error pl = true /\
   exists lex, In lex error_indicators /\ occurs_nocase lex text).

Definition is_in_progress (s : PlanStep) : bool :=
  StepStatus_eqb (status s) IN_PROGRESS.

(** Number of steps of a plan that are InProgress. *)
Definition in_progress_count (p : Plan) : nat :=
  List.length (filter is_in_progress (steps p)).

(** The operations of the planner after [create_plan]. *)
Inductive op : Type :=
| Advance (now : datetime)
| UpdateStatus (now : datetime) (step_index : Z) (st : StepStatus)
               (notes : string)
| Replan (now : datetime) (plan_id : string) (reason : string)
         (response : Response).

(** One call and the planner after it.  An [advance_plan] that raises
    leaves the planner as it was; a [replan] that raises has marked the
    current plan complete. *)
Definition run_op (o : op) (pl : Planner) : Planner :=
  match o with
  | Advance now =>
      match advance_plan now pl with
      | Some (pl', _) => pl'
      | None => pl
      end
  | UpdateStatus now i st n => fst (update_step_status now i st n pl)
  | Replan now pid reason response =>
      fst (replan now pid reason response pl)
  end.

(** A planner that has not planned yet. *)
Definition fresh (pl : Planner) : Prop :=
  current_plan pl = None /\ plan_history pl = [].

Inductive reachable : Planner -> Prop :=
| reach_create now pid request response pl0 :
    fresh pl0 -> reachable (fst (create_plan now pid request response pl0))
| reach_op o pl :
    reachable pl -> reachable (run_op o pl).

(** An [update_step_status] call that sets InProgress does so on the
    current step of the current plan; every other call is unrestricted. *)
Definition keeps_single (o : op) (pl : Planner) : Prop :=
  match o with
  | UpdateStatus _ i IN_PROGRESS _ =>
      forall p, the_plan pl = Some p -> i = current_step_index p
  | _ => True
  end.

Inductive reachable_single : Planner -> Prop :=
| reachs_create now pid request response pl0 :
    fresh pl0 ->
    reachable_single (fst (create_plan now pid request response pl0))
| reachs_op o pl :
    reachable_single pl -> keeps_single o pl ->
    reachable_single (run_op o pl).

(** A reply of the planning LLM. *)
Definition demo_reply : string :=
  "TITLE: Count files" ++ newline
  ++ "OBJECTIVE: List the files and count them" ++ newline
  ++ "STEPS:" ++ newline
  ++ "1. [ ] List files in /tmp" ++ newline
  ++ "2. Print their count" ++ newline
  ++ "3. Terminate".

(** A plan of three steps, the first one started. *)
Definition demo_plan : Plan :=
  _parse_plan_response t0 "plan0001" "Count the files in /tmp" demo_reply.

(** A plan whose only step was skipped. *)
Definition skipped_plan : Plan :=
  mk_Plan "plan0002" "demo" "objective"
          [mk_PlanStep 0 "only step" SKIPPED "" None None []]
          t0 t0 0 false.

(** Every step in progress sits at the current index. *)
Definition single_at (p : Plan) : Prop :=
  0 <= current_step_index p /\
  forall j s,
    nth_error (steps p) j = Some s -> is_in_progress s = true ->
    j = Z.to_nat (current_step_index p).

Definition add_steps (now : datetime) (texts : list string) (p : Plan)
  : Plan :=
  fold_left (fun p d => fst (add_step now d None p)) texts p.

(** The invariant of the planner: every plan it holds is [single_at]. *)
Definition all_single (pl : Planner) : Prop :=
  Forall single_at (plan_history pl).

(** A run: plan, advance, block the current step, replan, advance. *)
Definition demo_planner : Planner :=
  run_op (Advance t0)
    (run_op (Replan t0 "plan0003" "no network" (Message demo_reply))
       (run_op (UpdateStatus t0 1 BLOCKED "no network")
          (run_op (Advance t0)
             (fst (create_plan t0 "plan0001" "Count the files in /tmp"
                               (Text "") new_Planner))))).

(** The step texts a scanned reply yields once the fallback is applied. *)
Definition effective_steps (sc : Scan) : list string :=
  match scan_steps sc with
  | [] => default_steps
  | _ :: _ => scan_steps sc
  end.

(** The steps [add_step] creates for a list of texts, the first of them at
    position [n]. *)
Fixpoint pending_from (n : nat) (texts : list string) : list PlanStep :=
  match texts with
  | [] => []
  | d :: t =>
      mk_PlanStep (Z.of_nat n) d PENDING "" None None [] :: pending_from (S n) t
  end.

(** [advance] called [k] times in a row; [None] when a call raises. *)
Fixpoint advances (now : datetime) (k : nat) (p : Plan) : option Plan :=
  match k with
  | O => Some p
  | S k' =>
      match advance now p with
      | Some (p', _) => advances now k' p'
      | None => None
      end
  end.

(** The status of the step at position [i] of a plan that was advanced [k]
    times from its start. *)
Definition status_after (k i : nat) : StepStatus :=
  if (i <? k)%nat then COMPLETED
  else if (i =? k)%nat then IN_PROGRESS else PENDING.

(** A line of a reply that the scan passes over: once stripped it begins
    with neither of the two labels nor with a digit. *)
Definition passed_over (raw_line : string) : Prop :=
  let line := Py.strip raw_line in
  Py.startswith line "TITLE:" = false /\
  Py.startswith line "OBJECTIVE:" = false /\
  match line with
  | String c _ => Py.isdigit c = false
  | EmptyString => True
  end.

(** A plan of [n] steps that was advanced [k] times from its start. *)
Definition advanced_to (n k : nat) (q : Plan) : Prop :=
  current_step_index q = Z.of_nat k /\
  List.length (steps q) = n /\
  (forall i s, nth_error (steps q) i = Some s -> status s = status_after k i).

(** [advance_plan] called [k] times in a row; [None] when a call raises. *)
Fixpoint advance_plans (now : datetime) (k : nat) (pl : Planner)
  : option Planner :=
  match k with
  | O => Some pl
  | S k' =>
      match advance_plan now pl with
      | Some (pl', _) => advance_plans now k' pl'
      | None => None
      end
  end.

End planner_spec.

Module events_spec.
Import events.

(** An event of a kind other than Plan and System. *)
Definition is_other (e : Event) : bool := negb (is_preserved e).

(** The log without its oldest event of a kind other than Plan and System,
    everything else in place. *)
Fixpoint evict_oldest (l : list Event) : list Event :=
  match l with
  | [] => []
  | e :: t => if is_preserved e then e :: evict_oldest t else t
  end.

(** On a log at its cap, the append evicts the oldest event that is neither
    Plan nor System, keeps the others in their order and ends at the cap. *)
Definition append_evicts_oldest_in_order (event : Event) (s : EventStream)
  : Prop :=
  Py.len (events s) = max_events s ->
  events (append event s) = evict_oldest (events s ++ [event]) /\
  Py.len (events (append event s)) = max_events s.

(** The log after a history of appends. *)
Definition run (cap : Z) (history : list Event) : EventStream :=
  fold_left (fun s e => append e s) history (mk_EventStream [] cap).

Definition message (ident text : string) : Event :=
  mk_Event ident t0 [] (MessageEvent "user" text None).

Definition plan_event (ident : string) (statuses : list string) : Event :=
  mk_Event ident t0 [] (PlanEvent "p1" "demo" ["a"; "b"] statuses 0 false).

(** A log of three events under a cap of three; a fourth event arrives. *)
Definition full_log : EventStream :=
  mk_EventStream [message "a" "one"; message "b" "two";
                  plan_event "p" ["in_progress"; "pending"]] 3.

(** A log of one Plan event under a cap of one. *)
Definition plans_only : EventStream :=
  mk_EventStream [plan_event "p" ["in_progress"; "pending"]] 1.

(** Every character of the text is printable ASCII, from the blank to the
    tilde. *)
Fixpoint all_printable (s : string) : bool :=
  match s with
  | EmptyString => true
  | String c t =>
      ((32 <=? N_of_ascii c) && (N_of_ascii c <=? 126))%N && all_printable t
  end.

(** The observations of the log that carry an error, oldest first. *)
Definition error_observations (s : EventStream) : list Event :=
  filter has_error (get_by_type OBSERVATION s).

Definition has_event_priority (p : Z) (e : Event) : bool :=
  event_priority e =? p.

(** A knowledge event of a given priority. *)
Definition knowledge (ident : string) (prio : Z) : Event :=
  mk_Event ident t0 [] (KnowledgeEvent "tip" "coding" "text" [] prio).

End events_spec.

Module json_spec.
Import json.

(** Every dict inside the value has distinct keys, as every Python dict
    has. *)
Fixpoint wf (v : value) : Prop :=
  match v with
  | List l =>
      (fix all (l : list value) : Prop :=
         match l with
         | [] => True
         | x :: t => wf x /\ all t
         end) l
  | Dict d =>
      NoDup (map fst d) /\
      (fix all (d : list (string * value)) : Prop :=
         match d with
         | [] => True
         | kv :: t => wf (snd kv) /\ all t
         end) d
  | _ => True
  end.

(** The same value up to the order in which the keys of its dicts were
    inserted. *)
#[local] Unset Elimination Schemes.
Inductive eqv : value -> value -> Prop :=
| eqv_Null : eqv Null Null
| eqv_Bool b : eqv (Bool b) (Bool b)
| eqv_Int z : eqv (Int z) (Int z)
| eqv_Str s : eqv (Str s) (Str s)
| eqv_List l1 l2 : Forall2 eqv l1 l2 -> eqv (List l1) (List l2)
| eqv_Dict d1 d d2 :
    Permutation d1 d ->
    Forall2 (fun a b => fst a = fst b /\ eqv (snd a) (snd b)) d d2 ->
    eqv (Dict d1) (Dict d2).
#[local] Set Elimination Schemes.

(** The same entries, key by key, in the same order. *)
Definition same_entries (d1 d2 : list (string * value)) : Prop :=
  Forall2 (fun a b => fst a = fst b /\ eqv (snd a) (snd b)) d1 d2.

Definition key_leb {V : Type} (a b : string * V) : bool :=
  String.leb (fst a) (fst b).

End json_spec.

Module serialize_spec.
Import events json json_spec.

(** The dicts an event carries have distinct keys. *)
Definition wf_payload (p : Payload) : Prop :=
  match p with
  | ActionEvent _ tool_input _ => wf (Dict tool_input)
  | SystemEvent _ data => wf (Dict data)
  | _ => True
  end.

Definition wf_event (e : Event) : Prop :=
  wf (Dict (metadata e)) /\ wf_payload (payload e).

(** The same payload, up to the order in which the keys of its dicts were
    inserted. *)
Definition same_payload (p1 p2 : Payload) : Prop :=
  match p1, p2 with
  | ActionEvent n1 i1 c1, ActionEvent n2 i2 c2 =>
      n1 = n2 /\ eqv (Dict i1) (Dict i2) /\ c1 = c2
  | SystemEvent n1 d1, SystemEvent n2 d2 =>
      n1 = n2 /\ eqv (Dict d1) (Dict d2)
  | _, _ => p1 = p2
  end.

(** The same event: id, timestamp and payload, the dicts compared up to
    the order of their keys. *)
Definition same_event (e1 e2 : Event) : Prop :=
  id e1 = id e2 /\ timestamp e1 = timestamp e2 /\
  eqv (Dict (metadata e1)) (Dict (metadata e2)) /\
  same_payload (payload e1) (payload e2).

(** Two histories that differ in the order the keys of [metadata] and
    [tool_input] were inserted. *)
Definition history_1 : list events.Event :=
  [ events.mk_Event "e1" t0 [("step", json.Int 1); ("agent", json.Str "m")]
      (events.ActionEvent "search" [("q", json.Str "x"); ("n", json.Int 3)]
                          "call_1");
    events.mk_Event "e2" t0 []
      (events.ObservationEvent "search" "call_1" "" (Some "Error: none")
                               None) ].

Definition history_2 : list events.Event :=
  [ events.mk_Event "e1" t0 [("agent", json.Str "m"); ("step", json.Int 1)]
      (events.ActionEvent "search" [("n", json.Int 3); ("q", json.Str "x")]
                          "call_1");
    events.mk_Event "e2" t0 []
      (events.ObservationEvent "search" "call_1" "" (Some "Error: none")
                               None) ].

End serialize_spec.

Module datasource_spec.
Import datasource.

(** The order the specification gives: priority descending, then usage
    count descending, then id ascending. *)
Definition claimed_before (a b : Datasource) : Prop :=
  priority a > priority b \/
  (priority a = priority b /\
   (usage_count a > usage_count b \/
    (usage_count a = usage_count b /\ String.leb (id a) (id b) = true))).

(** [find_relevant] returns exactly the enabled sources that match, in the
    order [claimed_before]. *)
Definition ranked_as_claimed (query : string) (limit : Z)
           (m : DatasourceModule) : Prop :=
  StronglySorted claimed_before (find_relevant query limit m) /\
  forall src,
    In src (find_relevant query limit m) <->
    (In src (Py.dict_values (sources m)) /\ enabled src = true /\
     matches_query query src = true).

(** The enabled sources of the registry that match, in registry order. *)
Definition candidates (query : string) (m : DatasourceModule)
  : list Datasource :=
  filter (fun source => enabled source && matches_query query source)
         (Py.dict_values (sources m)).

Definition has_priority (p : Z) (src : Datasource) : bool :=
  priority src =? p.

Definition source (ident title : string) (prio usage : Z) : Datasource :=
  mk_Datasource ident title "" "https://example.org" NONE [] [] None
                prio true ["data"] usage None.

(** A registry of two sources of the same priority; the second one has been
    used more often. *)
Definition two_sources : DatasourceModule :=
  register (source "b_src" "Data Two" 5 7)
    (register (source "a_src" "Data One" 5 0)
       (mk_DatasourceModule [] 30 3)).

End datasource_spec.

Module knowledge_spec.
Import knowledge.

(** The scopes [get_relevant_knowledge] looks in: the ones given, else the
    active ones, else all of them; an empty set counts as not given. *)
Definition target_scopes (scopes : option (list KnowledgeScope))
           (m : KnowledgeModule) : list KnowledgeScope :=
  match scopes with
  | Some ((_ :: _) as given) => given
  | _ =>
      match active_scopes m with
      | (_ :: _) as active => active
      | [] => all_scopes
      end
  end.

(** The items of the base that are eligible, in base order. *)
Definition eligible (context : string) (active_tools : option (list string))
           (scopes : option (list KnowledgeScope)) (m : KnowledgeModule)
  : list KnowledgeItem :=
  filter (fun item =>
            enabled item
            && (mem_scope (scope item) (target_scopes scopes m)
                || KnowledgeScope_eqb (scope item) GENERAL)
            && matches context active_tools item)
         (knowledge_base m).

Definition has_priority (p : Z) (item : KnowledgeItem) : bool :=
  priority item =? p.

Definition tip (ident : string) (where_ : KnowledgeScope) (prio : Z)
           (words : list string) : KnowledgeItem :=
  mk_KnowledgeItem ident where_ TIP "Check the result." [] words prio true
                   0 None.

(** A base in which the id "wait" occurs twice. *)
Definition demo_knowledge : KnowledgeModule :=
  mk_KnowledgeModule
    [ tip "check" CODING 5 ["verify"];
      tip "wait" BROWSER 8 ["click"];
      tip "wait" GENERAL 3 ["later"] ]
    [] 5.

End knowledge_spec.

Module context_spec.
Import context.

(** The prefix component of what [build_context] returns. *)
Definition returned_prefix
           (r : option (ContextEngine * (string * list (Py.dict json.value))))
  : option string :=
  option_map (fun x => fst (snd x)) r.


(** The digits of a percentage, rounded down. *)
Definition whole_percent (done total : Z) : string :=
  Py.str_of_int (done * 100 / total).

(** An engine as the agent sets it up: defaults and a stable prefix. *)
Definition demo_engine : ContextEngine :=
  set_stable_prefix (fun s => s) "You are Manus." (new_ContextEngine t0 0).

(** Whether [tool] is in the answer of [get_available_tools] when it is
    among the tools asked about. *)
Definition available (tool : string) (e : ContextEngine) : bool :=
  match get_available_tools [tool] e with
  | [] => false
  | _ :: _ => true
  end.

(** The prefix of a category: its entry in [tool_prefixes], or the empty
    text. *)
Definition prefix_of (category : string) (e : ContextEngine) : string :=
  match Py.dict_get category (tool_prefixes e) with
  | Some p => p
  | None => ""
  end.

(** The entry [record_error] writes. *)
Definition new_error (now : datetime) (tool_name error_message : string)
           (input_args : option (Py.dict json.value)) (context : string)
  : ErrorRecord :=
  mk_ErrorRecord tool_name error_message
                 (match input_args with Some a => a | None => [] end)
                 context (isoformat now).

(** An event dict whose type is "observation". *)
Definition is_observation (event : Py.dict json.value) : bool :=
  match Py.dict_get "type" event with
  | Some (json.Str "observation") => true
  | _ => false
  end.

(** The number of observations among the events. *)
Definition observations (events : list (Py.dict json.value)) : Z :=
  Py.len (filter is_observation events).

(** An event whose "output", if it is an observation and has one, is a
    text, as it is in every dict that [to_dict] gives.  On another value
    [add_variation] keeps the value or raises, which [process_events] does
    not follow. *)
Definition text_output (event : Py.dict json.value) : Prop :=
  is_observation event = true ->
  match Py.dict_get "output" event with
  | None => True
  | Some (json.Str _) => True
  | Some _ => False
  end.

(** What [build_context] may do to one event: only an observation, and
    only when [vary] is set, is rewritten, and then only under the key
    "output". *)
Definition passed_through (vary : bool) (given returned : Py.dict json.value)
  : Prop :=
  (vary && is_observation given = false -> returned = given) /\
  (forall k, k <> "output" ->
             Py.dict_get k returned = Py.dict_get k given).

(** Two event dicts of a context, and the same two with their keys
    inserted in another order. *)
Definition demo_events : list (Py.dict json.value) :=
  [ [("type", json.Str "action"); ("tool_name", json.Str "python_execute")];
    [("type", json.Str "observation"); ("output", json.Str "a: b")] ].

Definition shuffled_events : list (Py.dict json.value) :=
  [ [("tool_name", json.Str "python_execute"); ("type", json.Str "action")];
    [("output", json.Str "a: b"); ("type", json.Str "observation")] ].

(** The steps of a plan that are not among the completed ones, each with
    its index. *)
Definition open_steps (plan_steps : list string) (completed_steps : list Z)
  : list (Z * string) :=
  filter (fun ix => negb (mem_Z (fst ix) completed_steps))
         (Py.enumerate plan_steps).

(** The descriptions of the completed steps, in the order of
    [completed_steps]; an index past the end of the plan gives none. *)
Definition closed_steps (plan_steps : list string) (completed_steps : list Z)
  : list string :=
  flat_map (fun i => match Py.get plan_steps i with
                     | Some d => if i <? Py.len plan_steps then [d] else []
                     | None => []
                     end)
           completed_steps.

End context_spec.

Module agent_spec.
Import manus_aligned.




(** An agent before its first step: the defaults, the todo of a plan of
    three steps, and a stable prefix. *)
Definition fresh_agent : ManusAligned :=
  mk_ManusAligned
    "What should I do next?" 10000 30 events.new_EventStream
    (fst (planner.create_plan t0 "plan0001" "Count the files in /tmp"
                              (planner.Text "") planner.new_Planner))
    (context.update_todo
       t0 planner.default_steps 0 [] context_spec.demo_engine).



(** The prompt of the [k]-th step, counted from one, of an agent whose
    browser is not in use. *)
Fixpoint prompt_at (percent_digits : Z -> Z -> string) (k : nat)
         (a : ManusAligned) : option string :=
  match k with
  | O => None
  | S O => option_map snd (think_prompt percent_digits t0 None a)
  | S k' =>
      match think_prompt percent_digits t0 None a with
      | Some (a', _) => prompt_at percent_digits k' a'
      | None => None
      end
  end.

(** The [dynamic_parts] that [build_context] fills in the [k]-th step. *)
Fixpoint dynamic_parts_at (percent_digits : Z -> Z -> string) (k : nat)
         (a : ManusAligned) : option (list string) :=
  match k with
  | O => None
  | S O =>
      match refreshed_engine t0 a with
      | Some ce =>
          context.dynamic_parts
            percent_digits true true
            (context.with_counters (context.context_version ce)
                                   (context.step_count ce + 1) ce)
      | None => None
      end
  | S k' =>
      match think_prompt percent_digits t0 None a with
      | Some (a', _) => dynamic_parts_at percent_digits k' a'
      | None => None
      end
  end.

(** The recitation block is in the prompt of the steps whose number is a
    multiple of three and of no other step. *)
Definition recites_every_third_step (percent_digits : Z -> Z -> string)
           (a : ManusAligned) : Prop :=
  forall k p,
    prompt_at percent_digits k a = Some p ->
    (Py.contains context.progress_heading p = true <-> (k mod 3 = 0)%nat).

(** The sum of the counts of a [by_type] dict. *)
Definition counted (by_type : Py.dict Z) : Z :=
  fold_right Z.add 0 (Py.dict_values by_type).

End agent_spec.

(* ================================================================== *)
(** * Lemmas on the Python primitives *)
(* ================================================================== *)

Section StringFacts.

Lemma append_nil_r (s : string) : s ++ "" = s.
Proof. induction s as [|c s IH]; simpl; [reflexivity | now rewrite IH]. Qed.

Lemma append_assoc (a b c : string) : (a ++ b) ++ c = a ++ b ++ c.
Proof. induction a as [|x a IH]; simpl; [reflexivity | now rewrite IH]. Qed.

Lemma prefix_iff (p s : string) :
  prefix p s = true <-> exists post, s = p ++ post.
Proof.
  revert s; induction p as [|c p IH]; intros s.
  - destruct s; simpl; split; intros; eauto.
  - destruct s as [|d s]; simpl.
    + split; [discriminate | intros [post H]; discriminate].
    + destruct (ascii_dec c d) as [->|Hne].
      * rewrite IH. split; intros [post H]; exists post.
        -- now rewrite H.
        -- now inversion H.
      * split; [discriminate | intros [post H]; inversion H; congruence].
Qed.

Lemma contains_iff (sub s : string) :
  Py.contains sub s = true <-> exists pre post, s = pre ++ sub ++ post.
Proof.
  induction s as [|c s IH].
  - change (Py.contains sub "") with (prefix sub "" || false).
    rewrite orb_false_r, prefix_iff. split.
    + intros [post H]. now exists "", post.
    + intros [pre [post H]]. destruct pre; simpl in H; [now exists post|discriminate].
  - change (Py.contains sub (String c s))
      with (prefix sub (String c s) || Py.contains sub s).
    rewrite orb_true_iff, prefix_iff, IH. split.
    + intros [[post H] | [pre [post H]]].
      * now exists "", post.
      * exists (String c pre), post. simpl. now rewrite H.
    + intros [pre [post H]]. destruct pre as [|d pre]; simpl in H.
      * left. now exists post.
      * right. inversion H. now exists pre, post.
Qed.

Lemma lower_app (a b : string) : Py.lower (a ++ b) = Py.lower a ++ Py.lower b.
Proof. induction a as [|c a IH]; simpl; [reflexivity | now rewrite IH]. Qed.

Lemma lower_split (s a b : string) :
  Py.lower s = a ++ b ->
  exists s1 s2, s = s1 ++ s2 /\ Py.lower s1 = a /\ Py.lower s2 = b.
Proof.
  revert s; induction a as [|c a IH]; intros s H; simpl in H.
  - now exists "", s.
  - destruct s as [|d s]; simpl in H; [discriminate|].
    inversion H as [[Hc Ht]].
    destruct (IH s Ht) as [s1 [s2 [-> [H1 H2]]]].
    exists (String d s1), s2. simpl. now rewrite H1.
Qed.

(** [lex in text.lower()] for a lexeme written in lower case. *)
Lemma contains_lower_iff (lex text : string) :
  Py.lower lex = lex ->
  Py.contains lex (Py.lower text) = true <-> occurs_nocase lex text.
Proof.
  intros Hlex. rewrite contains_iff. unfold occurs_nocase. split.
  - intros [pre [post H]].
    apply lower_split in H. destruct H as [s1 [s2 [-> [_ H2]]]].
    apply lower_split in H2. destruct H2 as [m [s3 [-> [Hm _]]]].
    exists s1, m, s3. split; [reflexivity | congruence].
  - intros [pre [mid [post [-> Hm]]]].
    exists (Py.lower pre), (Py.lower post).
    rewrite !lower_app. congruence.
Qed.

End StringFacts.

(* ================================================================== *)
(** * The planner *)
(* ================================================================== *)

Section PlannerReplan.
Import planner planner_spec.

Lemma error_indicators_lower :
  Forall (fun lex => Py.lower lex = lex) error_indicators.
Proof. repeat constructor. Qed.

Lemma any_indicator_iff (text : string) :
  Py.any (fun indicator => Py.contains indicator (Py.lower text))
         error_indicators = true <->
  exists lex, In lex error_indicators /\ occurs_nocase lex text.
Proof.
  unfold Py.any. rewrite existsb_exists.
  pose proof error_indicators_lower as Hl. rewrite Forall_forall in Hl.
  split; intros [lex [Hin H]]; exists lex; split; auto;
    now apply (contains_lower_iff lex text (Hl lex Hin)).
Qed.

(** C7, as the code has it: [should_replan] holds exactly when the flag is
    set, a current plan exists and the text contains one of the five
    failure lexemes, case ignored. *)
Theorem should_replan_iff (text : string) (pl : Planner) :
  should_replan text pl = true <->
  (replan_on_error pl = true /\
   the_plan pl <> None /\
   exists lex, In lex error_indicators /\ occurs_nocase lex text).
Proof.
  unfold should_replan.
  destruct (replan_on_error pl); cbn [negb].
  - destruct (the_plan pl) as [p|].
    + rewrite any_indicator_iff. split.
      * intros H. repeat split; [discriminate | exact H].
      * intros [_ [_ H]]. exact H.
    + split; [discriminate | intros [_ [H _]]; now elim H].
  - split; [discriminate | intros [H _]; discriminate].
Qed.

(** C7 as stated fails: with the flag set and the text "error", a planner
    without a current plan answers no. *)
Lemma should_replan_needs_plan :
  ~ replan_iff_flag_and_lexeme "error" new_Planner.
Proof.
  unfold replan_iff_flag_and_lexeme. intros [_ H].
  assert (Hf : should_replan "error" new_Planner = false) by reflexivity.
  rewrite H in Hf; [discriminate|].
  split; [reflexivity|].
  exists "error". split; [simpl; auto|].
  exists "", "error", "". split; reflexivity.
Qed.

End PlannerReplan.

Section ListFacts.
Context {A : Type}.

Lemma update_length (n : nat) (x : A) (l : list A) :
  List.length (Py.update n x l) = List.length l.
Proof.
  revert n; induction l as [|a l IH]; intros [|n]; simpl; auto.
Qed.

Lemma nth_error_update_eq (n : nat) (x : A) (l : list A) :
  (n < List.length l)%nat -> nth_error (Py.update n x l) n = Some x.
Proof.
  revert n; induction l as [|a l IH]; intros [|n] H; simpl in *;
    try lia; auto.
  apply IH. lia.
Qed.

Lemma nth_error_update_neq (n m : nat) (x : A) (l : list A) :
  n <> m -> nth_error (Py.update n x l) m = nth_error l m.
Proof.
  revert n m; induction l as [|a l IH]; intros [|n] [|m] H; simpl;
    try reflexivity; try congruence.
  apply IH. congruence.
Qed.

Lemma get_nonneg (l : list A) (i : Z) :
  0 <= i -> Py.get l i = nth_error l (Z.to_nat i).
Proof.
  intros H. unfold Py.get.
  destruct (Z.ltb_spec i 0); [lia | reflexivity].
Qed.

Lemma set_nonneg (l : list A) (i : Z) (x : A) :
  0 <= i -> Py.set l i x = Py.update (Z.to_nat i) x l.
Proof.
  intros H. unfold Py.set.
  destruct (Z.ltb_spec i 0); [lia | reflexivity].
Qed.

Lemma get_set_eq (l : list A) (i : Z) (x : A) :
  0 <= i < Py.len l -> Py.get (Py.set l i x) i = Some x.
Proof.
  intros H. unfold Py.len in H.
  rewrite get_nonneg, set_nonneg by lia.
  apply nth_error_update_eq. lia.
Qed.

Lemma get_set_neq (l : list A) (i j : Z) (x : A) :
  0 <= i -> 0 <= j -> i <> j -> Py.get (Py.set l i x) j = Py.get l j.
Proof.
  intros Hi Hj Hne.
  rewrite !get_nonneg, set_nonneg by lia.
  apply nth_error_update_neq. lia.
Qed.

Lemma len_set (l : list A) (i : Z) (x : A) :
  Py.len (Py.set l i x) = Py.len l.
Proof. unfold Py.len, Py.set. now rewrite update_length. Qed.

Lemma get_in_range (l : list A) (i : Z) :
  0 <= i < Py.len l -> exists x, Py.get l i = Some x.
Proof.
  intros H. unfold Py.len in H. rewrite get_nonneg by lia.
  destruct (nth_error l (Z.to_nat i)) as [x|] eqn:E; [now exists x|].
  apply nth_error_None in E. lia.
Qed.

Lemma get_out_of_range (l : list A) (i : Z) :
  Py.len l <= i -> Py.get l i = None.
Proof.
  intros H. unfold Py.len in H.
  assert (0 <= i) by lia.
  rewrite get_nonneg by lia. apply nth_error_None. lia.
Qed.

(** At most one position satisfies [f] when every such position is [k]. *)
Lemma filter_single (f : A -> bool) (l : list A) (k : nat) :
  (forall j x, nth_error l j = Some x -> f x = true -> j = k) ->
  (List.length (filter f l) <= 1)%nat.
Proof.
  revert k; induction l as [|a l IH]; intros k H; simpl; [lia|].
  destruct (f a) eqn:Fa.
  - assert (k = 0%nat) as -> by (symmetry; apply (H 0%nat a); auto).
    assert (filter f l = []) as ->; [|simpl; lia].
    destruct (filter f l) as [|y t] eqn:E; [reflexivity|].
    assert (Hy : In y (filter f l)) by (rewrite E; now left).
    apply filter_In in Hy. destruct Hy as [Hy Fy].
    apply In_nth_error in Hy. destruct Hy as [j Hj].
    specialize (H (S j) y Hj Fy). discriminate.
  - apply (IH (Nat.pred k)). intros j x Hj Fx.
    specialize (H (S j) x Hj Fx). lia.
Qed.

End ListFacts.

Section PlannerAdvance.
Import planner planner_spec.

(** What [advance] does on a plan whose index is not negative. *)
Lemma advance_nonneg (now : datetime) (p : Plan) :
  0 <= current_step_index p ->
  exists p' r,
    advance now p = Some (p', r) /\
    current_step_index p' = current_step_index p + 1 /\
    Py.len (steps p') = Py.len (steps p) /\
    (forall cur,
        Py.get (steps p) (current_step_index p) = Some cur ->
        Py.get (steps p') (current_step_index p) =
          Some (if StepStatus_eqb (status cur) COMPLETED
                then cur else complete now "" cur)) /\
    (current_step_index p + 1 < Py.len (steps p) ->
     exists nxt,
       Py.get (steps p) (current_step_index p + 1) = Some nxt /\
       r = Some (start now nxt) /\
       Py.get (steps p') (current_step_index p + 1) = Some (start now nxt) /\
       is_complete p' = is_complete p) /\
    (Py.len (steps p) <= current_step_index p + 1 ->
     r = None /\ is_complete p' = true) /\
    (forall j,
        0 <= j -> j <> current_step_index p ->
        j <> current_step_index p + 1 ->
        Py.get (steps p') j = Py.get (steps p) j).
Proof.
  intros Hi. destruct p as [pid ttl obj L ca ua i ic]. simpl in Hi.
  unfold advance. cbn [current_step_index steps].
  (* the list once the current step is marked *)
  assert (Hmark : exists L1,
    (if i <? Py.len L
     then match Py.get L i with
          | Some current =>
              if negb (StepStatus_eqb (status current) COMPLETED)
              then Some (with_steps (Py.set L i (complete now "" current))
                           (mk_Plan pid ttl obj L ca ua i ic))
              else Some (mk_Plan pid ttl obj L ca ua i ic)
          | None => None
          end
     else Some (mk_Plan pid ttl obj L ca ua i ic))
    = Some (mk_Plan pid ttl obj L1 ca ua i ic) /\
    Py.len L1 = Py.len L /\
    (forall cur, Py.get L i = Some cur ->
       Py.get L1 i = Some (if StepStatus_eqb (status cur) COMPLETED
                           then cur else complete now "" cur)) /\
    (forall j, 0 <= j -> j <> i -> Py.get L1 j = Py.get L j)).
  { destruct (Z.ltb_spec i (Py.len L)) as [Hlt|Hge].
    - destruct (get_in_range L i (conj Hi Hlt)) as [cur Hcur].
      rewrite Hcur.
      destruct (StepStatus_eqb (status cur) COMPLETED) eqn:Ec; cbn [negb].
      + exists L. repeat split; auto.
        intros c Hc. inversion Hc; subst. now rewrite Ec.
      + exists (Py.set L i (complete now "" cur)). repeat split.
        * apply len_set.
        * intros c Hc. inversion Hc; subst.
          rewrite Ec. now apply get_set_eq.
        * intros j Hj Hne. apply get_set_neq; auto.
    - exists L. repeat split; auto.
      intros c Hc. rewrite get_out_of_range in Hc by lia. discriminate. }
  destruct Hmark as [L1 [-> [Hlen [Hcur Hoth]]]].
  cbn [current_step_index steps with_updated_at with_current_step_index
       id title objective created_at updated_at is_complete].
  destruct (Z.geb_spec (i + 1) (Py.len L1)) as [Hge|Hlt].
  - eexists _, _. split; [reflexivity|]. cbn.
    repeat split; auto; try lia.
  - assert (Hr : 0 <= i + 1 < Py.len L1) by lia.
    destruct (get_in_range L1 (i + 1) Hr) as [nxt Hnxt].
    rewrite Hnxt.
    eexists _, _. split; [reflexivity|]. cbn.
    repeat split.
    + rewrite len_set. exact Hlen.
    + intros c Hc. rewrite get_set_neq by lia. now apply Hcur.
    + intros _. exists nxt. repeat split.
      * rewrite <- Hoth by lia. exact Hnxt.
      * apply get_set_eq. lia.
    + lia.
    + lia.
    + intros j Hj H1 H2. rewrite get_set_neq by lia. now apply Hoth.
Qed.

End PlannerAdvance.

Section PlannerClaims.
Import planner planner_spec.

(** C4, as the code has it.  On a plan whose index is not negative,
    [advance] returns; it marks the current step Completed unless that step
    is Completed already (a Skipped step is marked too), adds one to the
    index, and either starts the next step and returns it, or returns
    nothing and sets the complete flag when no step is left; a plan without
    steps is such a plan. *)
Theorem advance_marks_unless_completed (now : datetime) (p : Plan) :
  0 <= current_step_index p ->
  exists p' r,
    advance now p = Some (p', r) /\
    current_step_index p' = current_step_index p + 1 /\
    Py.len (steps p') = Py.len (steps p) /\
    (forall cur,
        Py.get (steps p) (current_step_index p) = Some cur ->
        Py.get (steps p') (current_step_index p) =
          Some (if StepStatus_eqb (status cur) COMPLETED
                then cur else complete now "" cur)) /\
    (current_step_index p + 1 < Py.len (steps p) ->
     exists nxt,
       Py.get (steps p) (current_step_index p + 1) = Some nxt /\
       r = Some (start now nxt) /\
       Py.get (steps p') (current_step_index p + 1) = Some (start now nxt) /\
       is_complete p' = is_complete p) /\
    (Py.len (steps p) <= current_step_index p + 1 ->
     r = None /\ is_complete p' = true) /\
    (forall j,
        0 <= j -> j <> current_step_index p ->
        j <> current_step_index p + 1 ->
        Py.get (steps p') j = Py.get (steps p) j) /\
    (steps p = [] -> r = None /\ is_complete p' = true).
Proof.
  intros Hi.
  destruct (advance_nonneg now p Hi)
    as [p' [r [H1 [H2 [H3 [H4 [H5 [H6 H7]]]]]]]].
  exists p', r.
  split; [exact H1|]. split; [exact H2|]. split; [exact H3|].
  split; [exact H4|]. split; [exact H5|]. split; [exact H6|].
  split; [exact H7|].
  intros E. apply H6. rewrite E. cbn. lia.
Qed.

Example demo_plan_steps :
  map (fun s => (description s, status s)) (steps demo_plan)
  = [("List files in /tmp", IN_PROGRESS); ("Print their count", PENDING);
     ("Terminate", PENDING)]
  /\ title demo_plan = "Count files".
Proof. split; reflexivity. Qed.

Lemma advance_marks_unless_completed_witness :
  exists p' r,
    advance t0 demo_plan = Some (p', r) /\
    current_step_index p' = 1 /\
    option_map status r = Some IN_PROGRESS.
Proof.
  destruct (advance_marks_unless_completed t0 demo_plan)
    as [p' [r [H1 [H2 [_ [_ [H5 _]]]]]]]; [cbn; lia|].
  exists p', r. repeat split; [exact H1 | exact H2 |].
  destruct H5 as [nxt [_ [-> _]]]; [cbn; lia | reflexivity].
Defined.

(** C4 as stated fails: [advance] marks a Skipped current step Completed. *)
Lemma advance_overwrites_skipped :
  ~ advance_keeps_terminal t0 skipped_plan.
Proof.
  intros H.
  specialize (H _ _ _ eq_refl eq_refl eq_refl).
  discriminate H.
Qed.

(** An index below [-len(steps)] makes [advance] raise. *)
Remark advance_raises_below :
  advance t0 (with_current_step_index (-2) skipped_plan) = None.
Proof. reflexivity. Qed.

(** ** Single step in progress *)

Lemma single_at_count (p : Plan) :
  single_at p -> (in_progress_count p <= 1)%nat.
Proof.
  intros [_ H]. unfold in_progress_count.
  now apply (filter_single _ _ (Z.to_nat (current_step_index p))).
Qed.

Lemma add_steps_pending (now : datetime) (texts : list string) (p : Plan) :
  current_step_index (add_steps now texts p) = current_step_index p /\
  exists fresh_steps,
    steps (add_steps now texts p) = (steps p ++ fresh_steps)%list /\
    Forall (fun s => status s = PENDING) fresh_steps.
Proof.
  revert p; induction texts as [|d texts IH]; intros p.
  - split; [reflexivity|]. exists []. cbn. now rewrite app_nil_r.
  - destruct (IH (fst (add_step now d None p))) as [Hi [fs [Hs Hf]]].
    unfold add_steps in *. cbn [fold_left].
    split; [exact Hi|].
    exists (snd (add_step now d None p) :: fs). split.
    + rewrite Hs. cbn. rewrite <- app_assoc. reflexivity.
    + constructor; [reflexivity | exact Hf].
Qed.

Lemma parse_single (now : datetime) (pid : string) (sc : Scan) :
  single_at (plan_of_scan now pid sc).
Proof.
  unfold plan_of_scan.
  set (texts := match scan_steps sc with
                | [] => default_steps
                | _ :: _ => scan_steps sc
                end).
  set (plan0 := mk_Plan pid (scan_title sc) (scan_objective sc) []
                        now now 0 false).
  fold (add_steps now texts plan0).
  destruct (add_steps_pending now texts plan0) as [Hi [fs [Hs Hf]]].
  cbn in Hi, Hs. rewrite Hs.
  assert (Hpend : forall j s, nth_error fs j = Some s ->
                              is_in_progress s = false).
  { intros j s Hj. apply nth_error_In in Hj.
    rewrite Forall_forall in Hf. unfold is_in_progress.
    now rewrite (Hf s Hj). }
  destruct fs as [|s0 rest].
  - split; [rewrite Hi; lia|].
    rewrite Hs. intros [|j] s Hj; discriminate.
  - split; [cbn; rewrite Hi; lia|].
    cbn [steps with_steps current_step_index]. rewrite Hi. cbn.
    intros [|j] s Hj Hp; [reflexivity|].
    cbn in Hj. rewrite (Hpend (S j) s Hj) in Hp. discriminate.
Qed.

Lemma parse_response_single (now : datetime) (pid request reply : string) :
  single_at (_parse_plan_response now pid request reply).
Proof. apply parse_single. Qed.

Lemma advance_single (now : datetime) (p p' : Plan) (r : option PlanStep) :
  single_at p -> advance now p = Some (p', r) -> single_at p'.
Proof.
  intros [Hi Hs] Ha.
  destruct (advance_nonneg now p Hi)
    as [q [r' [H1 [H2 [H3 [H4 [H5 [H6 H7]]]]]]]].
  rewrite Ha in H1. inversion H1; subst q r'; clear H1.
  split; [lia|].
  intros j s Hj Hp. rewrite H2.
  assert (Hjz : Py.get (steps p') (Z.of_nat j) = Some s)
    by (rewrite get_nonneg by lia; now rewrite Nat2Z.id).
  destruct (Z.eq_dec (Z.of_nat j) (current_step_index p + 1)) as [E|NE1];
    [lia|].
  exfalso.
  destruct (Z.eq_dec (Z.of_nat j) (current_step_index p)) as [E|NE].
  - rewrite E in Hjz.
    destruct (Py.get (steps p) (current_step_index p)) as [cur|] eqn:Hc.
    + rewrite (H4 cur eq_refl) in Hjz. inversion Hjz; subst s.
      unfold is_in_progress in Hp.
      destruct (StepStatus_eqb (status cur) COMPLETED) eqn:Ec.
      * destruct (status cur); discriminate.
      * discriminate.
    + (* the index is past the end: nothing is stored there *)
      assert (Hlen : Py.len (steps p) <= current_step_index p).
      { destruct (Z.lt_ge_cases (current_step_index p) (Py.len (steps p)))
          as [Hlt|Hge]; [|exact Hge].
        destruct (get_in_range (steps p) _ (conj Hi Hlt)) as [x Hx].
        congruence. }
      rewrite get_out_of_range in Hjz by lia. discriminate.
  - rewrite H7 in Hjz by lia.
    rewrite get_nonneg, Nat2Z.id in Hjz by lia.
    specialize (Hs j s Hjz Hp). lia.
Qed.

Lemma with_is_complete_single (b : bool) (p : Plan) :
  single_at p -> single_at (with_is_complete b p).
Proof. intros H. exact H. Qed.

Lemma Forall_update {A : Type} (P : A -> Prop) (n : nat) (x : A) (l : list A) :
  Forall P l -> P x -> Forall P (Py.update n x l).
Proof.
  intros Hl Hx. revert n; induction Hl as [|a l Ha Hl IH]; intros [|n]; cbn;
    constructor; auto.
Qed.

Lemma the_plan_in (pl : Planner) (p : Plan) :
  the_plan pl = Some p -> In p (plan_history pl).
Proof.
  unfold the_plan. destruct (current_plan pl) as [k|]; [|discriminate].
  apply nth_error_In.
Qed.

Lemma the_plan_single (pl : Planner) (p : Plan) :
  all_single pl -> the_plan pl = Some p -> single_at p.
Proof.
  intros H Hp. apply the_plan_in in Hp.
  unfold all_single in H. rewrite Forall_forall in H. auto.
Qed.

Lemma with_the_plan_single (p : Plan) (pl : Planner) :
  all_single pl -> single_at p -> all_single (with_the_plan p pl).
Proof.
  intros H Hp. unfold with_the_plan, all_single.
  destruct (current_plan pl); [|exact H].
  cbn. now apply Forall_update.
Qed.

Lemma install_single (p : Plan) (pl : Planner) :
  all_single pl -> single_at p -> all_single (install p pl).
Proof.
  intros H Hp. unfold install, all_single. cbn.
  apply Forall_app. split; [exact H | now constructor].
Qed.

Lemma update_status_single (now : datetime) (i : Z) (st : StepStatus)
      (n : string) (pl : Planner) :
  all_single pl -> keeps_single (UpdateStatus now i st n) pl ->
  all_single (fst (update_step_status now i st n pl)).
Proof.
  intros H Hk. unfold update_step_status.
  destruct (the_plan pl) as [p|] eqn:Hp; [|exact H].
  destruct ((0 <=? i) && (i <? Py.len (steps p))) eqn:Hr; [|exact H].
  destruct (Py.get (steps p) i) as [step|] eqn:Hg; [|exact H].
  cbn [fst]. apply with_the_plan_single; [exact H|].
  destruct (the_plan_single pl p H Hp) as [Hi Hs].
  apply andb_true_iff in Hr. destruct Hr as [H0 H1].
  apply Z.leb_le in H0. apply Z.ltb_lt in H1.
  split; [exact Hi|]. cbn [steps with_updated_at with_steps current_step_index].
  intros j s Hj Hprog.
  destruct (Nat.eq_dec j (Z.to_nat i)) as [->|NE].
  - rewrite set_nonneg, nth_error_update_eq in Hj
      by (unfold Py.len in H1; lia).
    inversion Hj; subst s. unfold is_in_progress in Hprog. cbn in Hprog.
    destruct st; try discriminate.
    cbn in Hk. now rewrite <- (Hk p Hp).
  - rewrite set_nonneg, nth_error_update_neq in Hj by (auto; lia).
    now apply (Hs j s).
Qed.

Lemma run_op_single (o : op) (pl : Planner) :
  all_single pl -> keeps_single o pl -> all_single (run_op o pl).
Proof.
  intros H Hk.
  destruct o as [now | now i st n | now pid reason response]; cbn [run_op].
  - unfold advance_plan.
    destruct (the_plan pl) as [p|] eqn:Hp; [|exact H].
    destruct (advance now p) as [[p' r]|] eqn:Ha; [|exact H].
    apply with_the_plan_single; [exact H|].
    apply (advance_single now p p' r); [|exact Ha].
    now apply (the_plan_single pl).
  - now apply update_status_single.
  - assert (H1 : all_single
                   match the_plan pl with
                   | Some p => with_the_plan (with_is_complete true p) pl
                   | None => pl
                   end).
    { destruct (the_plan pl) as [p|] eqn:Hp; [|exact H].
      apply with_the_plan_single; [exact H|].
      apply with_is_complete_single. now apply (the_plan_single pl). }
    unfold replan. destruct (response_content response); cbn [fst];
      [|exact H1].
    apply install_single; [exact H1 | apply parse_response_single].
Qed.

Lemma reachable_single_inv (pl : Planner) :
  reachable_single pl -> all_single pl.
Proof.
  induction 1 as [now pid request response pl0 [_ Hh] | o pl Hr IH Hk].
  - assert (H0 : all_single pl0)
      by (unfold all_single; rewrite Hh; constructor).
    unfold create_plan. destruct (response_content response); cbn [fst];
      [|exact H0].
    apply install_single; [exact H0 | apply parse_response_single].
  - now apply run_op_single.
Qed.

(** C8, as the code has it: along [advance_plan], [replan] and those
    [update_step_status] calls that set InProgress on no step but the
    current one, every plan the planner holds, the current one and the
    archived ones, has at most one step in progress. *)
Theorem single_in_progress (pl : Planner) :
  reachable_single pl ->
  (forall p, the_plan pl = Some p -> (in_progress_count p <= 1)%nat) /\
  (forall p, In p (plan_history pl) -> (in_progress_count p <= 1)%nat).
Proof.
  intros Hr. apply reachable_single_inv in Hr.
  assert (Hall : forall p, In p (plan_history pl) ->
                           (in_progress_count p <= 1)%nat).
  { intros p Hin. apply single_at_count.
    unfold all_single in Hr. rewrite Forall_forall in Hr. auto. }
  split; [|exact Hall].
  intros p Hp. apply Hall. now apply the_plan_in.
Qed.

Lemma demo_planner_reachable : reachable_single demo_planner.
Proof.
  unfold demo_planner.
  repeat (apply reachs_op; [|exact I]).
  apply reachs_create. split; reflexivity.
Qed.

Lemma single_in_progress_witness :
  reachable_single demo_planner /\
  (forall p, In p (plan_history demo_planner) ->
             (in_progress_count p <= 1)%nat).
Proof.
  split; [exact demo_planner_reachable|].
  exact (proj2 (single_in_progress demo_planner demo_planner_reachable)).
Defined.

(** C8 as stated fails: [update_step_status] sets a second step InProgress
    next to the one [create_plan] started. *)
Lemma two_steps_in_progress :
  ~ (forall pl, reachable pl ->
     forall p, the_plan pl = Some p -> (in_progress_count p <= 1)%nat).
Proof.
  intros H.
  pose (pl := run_op (UpdateStatus t0 1 IN_PROGRESS "")
                (fst (create_plan t0 "plan0001" "Count the files in /tmp"
                                  (Text "") new_Planner))).
  assert (Hr : reachable pl).
  { apply reach_op. apply reach_create. split; reflexivity. }
  destruct (the_plan pl) as [p|] eqn:Hp; [|discriminate Hp].
  specialize (H pl Hr p Hp).
  vm_compute in Hp. inversion Hp; subst p.
  vm_compute in H. lia.
Qed.

End PlannerClaims.

(* ================================================================== *)
(** * The event log *)
(* ================================================================== *)

Section EventLogCap.
Import events events_spec.

Lemma filter_partition_perm {A : Type} (f : A -> bool) (l : list A) :
  Permutation (filter f l ++ filter (fun x => negb (f x)) l) l.
Proof.
  induction l as [|a l IH]; cbn; [constructor|].
  destruct (f a); cbn.
  - now constructor.
  - apply Permutation_sym. apply Permutation_cons_app.
    now apply Permutation_sym.
Qed.

Lemma evict_oldest_perm (l : list Event) :
  Permutation (filter is_preserved l ++ tl (filter is_other l))
              (evict_oldest l).
Proof.
  induction l as [|e l IH]; cbn; [constructor|].
  unfold is_other at 1. destruct (is_preserved e); cbn.
  - now constructor.
  - apply filter_partition_perm.
Qed.

Lemma filter_other_Forall (l : list Event) :
  Forall (fun e => is_preserved e = false) (filter is_other l).
Proof.
  apply Forall_forall. intros e He. apply filter_In in He.
  destruct He as [_ He]. unfold is_other in He.
  now destruct (is_preserved e).
Qed.

Lemma others_filter (r : list Event) :
  Forall (fun e => is_preserved e = false) r ->
  filter is_preserved r = [] /\ filter is_other r = r.
Proof.
  induction 1 as [|e r He Hr [IH1 IH2]]; cbn; [now split|].
  unfold is_other at 1. rewrite He. cbn. split; [exact IH1 | now rewrite IH2].
Qed.

Lemma filter_preserved_other (l : list Event) :
  filter is_other (filter is_preserved l) = [].
Proof.
  induction l as [|e l IH]; cbn; [reflexivity|].
  destruct (is_preserved e) eqn:E; cbn; [|exact IH].
  unfold is_other at 1. now rewrite E.
Qed.

Lemma filter_idem {A : Type} (f : A -> bool) (l : list A) :
  filter f (filter f l) = filter f l.
Proof.
  induction l as [|a l IH]; cbn; [reflexivity|].
  destruct (f a) eqn:E; cbn; [now rewrite E, IH | exact IH].
Qed.

Lemma no_other_all_preserved (l : list Event) :
  filter is_other l = [] -> filter is_preserved l = l.
Proof.
  induction l as [|e l IH]; cbn; [reflexivity|].
  unfold is_other at 1. destruct (is_preserved e); cbn; [|discriminate].
  intros H. now rewrite IH.
Qed.

(** What [append] stores on a log at its cap. *)
Lemma append_at_cap_events (event : Event) (s : EventStream) :
  Py.len (events s) = max_events s ->
  events (append event s)
  = (filter is_preserved (events s ++ [event])
     ++ match filter is_other (events s ++ [event]) with
        | [] => []
        | [only] => [only]
        | _ :: rest => rest
        end)%list.
Proof.
  intros Hcap.
  set (all := (events s ++ [event])%list) in *.
  assert (Hall : Py.len all = max_events s + 1).
  { unfold all, Py.len in *. rewrite length_app. cbn. lia. }
  pose proof (filter_length is_preserved all) as Hsplit.
  change (fun x => negb (is_preserved x)) with is_other in Hsplit.
  unfold append. fold all.
  destruct (Z.gtb_spec (Py.len all) (max_events s)) as [_|Hle]; [|lia].
  cbn [events]. f_equal.
  change (fun e => negb (is_preserved e)) with is_other.
  unfold Py.slice_from, Py.slice_offset, Py.len in *.
  set (k := max_events s - Z.of_nat (List.length (filter is_preserved all))).
  assert (Hk : k = Z.of_nat (List.length (filter is_other all)) - 1)
    by (unfold k; lia).
  clearbody k. subst k.
  destruct (filter is_other all) as [|oldest [|second rest]].
  - now rewrite skipn_nil.
  - reflexivity.
  - cbn [List.length].
    destruct (Z.ltb_spec (- (Z.of_nat (S (S (List.length rest))) - 1)) 0)
      as [_|Hge]; [|lia].
    replace (Z.to_nat (Z.of_nat (S (S (List.length rest)))
                       + - (Z.of_nat (S (S (List.length rest))) - 1)))
      with 1%nat by lia.
    reflexivity.
Qed.

(** C2, as the code has it.  On a log holding exactly [max_events] events:
    when at least two events, the appended one counted, are neither Plan nor
    System, the append evicts exactly one event, the oldest of those, the
    length afterwards is [max_events], and the Plan and System events on one
    side and the other events on the other side stay in their order of
    arrival; when every event, the appended one counted, is Plan or System,
    nothing is evicted and the log holds one event more than its cap. *)
Theorem append_at_cap (event : Event) (s : EventStream) :
  Py.len (events s) = max_events s ->
  ((2 <= List.length (filter is_other (events s ++ [event])))%nat ->
   exists oldest rest,
     filter is_other (events s ++ [event]) = oldest :: rest /\
     Permutation (events (append event s))
                 (evict_oldest (events s ++ [event])) /\
     filter is_preserved (events (append event s))
     = filter is_preserved (events s ++ [event]) /\
     filter is_other (events (append event s)) = rest /\
     Py.len (events (append event s)) = max_events s) /\
  (filter is_other (events s ++ [event]) = [] ->
   events (append event s) = (events s ++ [event])%list /\
   Py.len (events (append event s)) = max_events s + 1).
Proof.
  intros Hcap.
  pose proof (append_at_cap_events event s Hcap) as Hres.
  set (all := (events s ++ [event])%list) in *.
  assert (Hall : Py.len all = max_events s + 1).
  { unfold all, Py.len in *. rewrite length_app. cbn. lia. }
  pose proof (filter_length is_preserved all) as Hsplit.
  change (fun x => negb (is_preserved x)) with is_other in Hsplit.
  pose proof (evict_oldest_perm all) as Hperm.
  pose proof (filter_other_Forall all) as Hoth.
  split.
  - intros Htwo.
    destruct (filter is_other all) as [|oldest [|second rest]] eqn:Hother;
      cbn in Htwo; try lia.
    exists oldest, (second :: rest). rewrite Hres.
    inversion Hoth as [|? ? _ Htail]; subst.
    destruct (others_filter _ Htail) as [Hp Ho].
    split; [reflexivity|]. split; [exact Hperm|].
    rewrite !filter_app, filter_idem, filter_preserved_other, Hp, Ho.
    split; [now rewrite app_nil_r|]. split; [reflexivity|].
    unfold Py.len in *. rewrite length_app.
    cbn [List.length] in *. lia.
  - intros Hnone. rewrite Hres, Hnone, app_nil_r.
    rewrite (no_other_all_preserved all Hnone). split; [reflexivity|exact Hall].
Qed.

Lemma append_at_cap_witness :
  exists oldest rest,
    filter is_other (events full_log ++ [message "c" "three"])
    = oldest :: rest /\
    filter is_other (events (append (message "c" "three") full_log)) = rest.
Proof.
  destruct (append_at_cap (message "c" "three") full_log eq_refl)
    as [Htwo _].
  destruct Htwo as [oldest [rest [H1 [_ [_ [H2 _]]]]]]; [cbn; lia|].
  exists oldest, rest. split; [exact H1 | exact H2].
Defined.

(** C2 as stated fails: on a log of Plan events nothing is evicted, and the
    log ends above its cap. *)
Lemma append_keeps_every_plan :
  Py.len (events plans_only) = max_events plans_only /\
  ~ append_evicts_oldest_in_order
      (plan_event "q" ["completed"; "in_progress"]) plans_only.
Proof.
  split; [reflexivity|].
  intros H. destruct (H eq_refl) as [_ Hlen].
  vm_compute in Hlen. discriminate Hlen.
Qed.

(** The Plan event that arrived third is first after the append, ahead of
    the message that arrived second. *)
Remark append_moves_plan_first :
  map id (events (append (message "c" "three") full_log)) = ["p"; "b"; "c"].
Proof. reflexivity. Qed.

(** With a single event that is neither Plan nor System the slice
    [other[-0:]] keeps it, and the log ends above its cap. *)
Remark append_keeps_lone_other :
  Py.len (events (append (message "a" "one")
                         (mk_EventStream [plan_event "p" []] 1))) = 2.
Proof. reflexivity. Qed.

End EventLogCap.

Section EventIds.
Import events events_spec.

Variable sha256_hexdigest : string -> string.

(** C10.  The generated id of a Plan event is the same whatever its step
    statuses, current index and complete flag are, and whatever the step
    texts are as long as their number is the same; so two Plan events with
    the same timestamp, plan id, title and number of steps and with
    different step statuses exist that carry the same id. *)
Theorem plan_id_ignores_progress :
  (forall ts plan_id title steps1 steps2 st1 st2 i1 i2 c1 c2,
      List.length steps1 = List.length steps2 ->
      _generate_id sha256_hexdigest ts
                   (PlanEvent plan_id title steps1 st1 i1 c1)
      = _generate_id sha256_hexdigest ts
                     (PlanEvent plan_id title steps2 st2 i2 c2)) /\
  (exists ts plan_id title steps st1 st2 i1 i2 c1 c2,
      let e1 := new_Event sha256_hexdigest "" ts []
                          (PlanEvent plan_id title steps st1 i1 c1) in
      let e2 := new_Event sha256_hexdigest "" ts []
                          (PlanEvent plan_id title steps st2 i2 c2) in
      st1 <> st2 /\ i1 <> i2 /\ c1 <> c2 /\ e1 <> e2 /\ id e1 = id e2).
Proof.
  split.
  - intros ts plan_id title steps1 steps2 st1 st2 i1 i2 c1 c2 Hlen.
    unfold _generate_id, _content_hash, Py.len. cbn [payload_type].
    now rewrite Hlen.
  - exists t0, "p1", "demo", ["a"; "b"],
      ["in_progress"; "pending"], ["completed"; "in_progress"], 0, 1,
      false, true.
    cbn zeta.
    split; [discriminate|]. split; [discriminate|]. split; [discriminate|].
    split; [|reflexivity].
    intros H. apply (f_equal payload) in H. cbn in H. discriminate H.
Qed.

End EventIds.

Lemma plan_id_ignores_progress_witness :
  events._generate_id (fun s => s) t0
    (events.PlanEvent "p1" "demo" ["a"; "b"]
                      ["in_progress"; "pending"] 0 false)
  = events._generate_id (fun s => s) t0
      (events.PlanEvent "p1" "demo" ["x"; "y"]
                        ["completed"; "completed"] 2 true).
Proof.
  apply (proj1 (plan_id_ignores_progress (fun s => s))). reflexivity.
Defined.

(* ================================================================== *)
(** * Sorting and serialisation *)
(* ================================================================== *)

Section SortFacts.
Context {A : Type} (leb : A -> A -> bool).

Let le (a b : A) : Prop := leb a b = true.

Lemma insert_sorted_perm (x : A) (l : list A) :
  Permutation (Py.insert_sorted leb x l) (x :: l).
Proof.
  induction l as [|y t IH]; cbn; [constructor; constructor|].
  destruct (leb x y); [apply Permutation_refl|].
  eapply Permutation_trans; [apply perm_skip, IH | apply perm_swap].
Qed.

Lemma sorted_perm (l : list A) : Permutation (Py.sorted leb l) l.
Proof.
  induction l as [|x t IH]; cbn; [constructor|].
  eapply Permutation_trans; [apply insert_sorted_perm|].
  now constructor.
Qed.

Hypothesis leb_total : forall a b, leb a b = true \/ leb b a = true.
Hypothesis leb_trans :
  forall a b c, leb a b = true -> leb b c = true -> leb a c = true.

Lemma insert_sorted_sorted (x : A) (l : list A) :
  StronglySorted le l -> StronglySorted le (Py.insert_sorted leb x l).
Proof.
  induction 1 as [|y t Ht IH Hy]; cbn.
  - constructor; constructor.
  - destruct (leb x y) eqn:E.
    + constructor; [now constructor|].
      constructor; [exact E|].
      eapply Forall_impl; [|exact Hy].
      intros z Hz. exact (leb_trans x y z E Hz).
    + constructor; [exact IH|].
      apply (Permutation_Forall (Permutation_sym (insert_sorted_perm x t))).
      constructor; [|exact Hy].
      destruct (leb_total x y) as [H|H]; [congruence | exact H].
Qed.

Lemma sorted_sorted (l : list A) : StronglySorted le (Py.sorted leb l).
Proof.
  induction l as [|x t IH]; cbn; [constructor|].
  now apply insert_sorted_sorted.
Qed.

(** Two sorted arrangements of the same elements coincide when no two
    distinct elements tie. *)
Lemma sorted_unique (l1 l2 : list A) :
  StronglySorted le l1 -> StronglySorted le l2 -> Permutation l1 l2 ->
  (forall a b, In a l1 -> In b l1 -> le a b -> le b a -> a = b) ->
  l1 = l2.
Proof.
  intros H1; revert l2; induction H1 as [|a t1 Ht1 IH Ha];
    intros l2 H2 Hp Hanti.
  - apply Permutation_nil in Hp. now subst.
  - destruct l2 as [|b t2].
    + apply Permutation_sym, Permutation_nil in Hp. discriminate.
    + inversion H2 as [|b' t2' Ht2 Hb]; subst.
      assert (Hab : a = b).
      { assert (Hin_a : In a (b :: t2))
          by (apply (Permutation_in _ Hp); now left).
        assert (Hin_b : In b (a :: t1))
          by (apply (Permutation_in _ (Permutation_sym Hp)); now left).
        destruct Hin_a as [E|Hin_a]; [now subst|].
        destruct Hin_b as [E|Hin_b]; [now subst|].
        rewrite Forall_forall in Ha, Hb.
        apply Hanti; [now left | now right | now apply Ha | now apply Hb]. }
      subst b. f_equal.
      apply IH; [exact Ht2 | now apply Permutation_cons_inv in Hp |].
      intros x y Hx Hy. apply Hanti; now right.
Qed.

Lemma sorted_perm_eq (l1 l2 : list A) :
  Permutation l1 l2 ->
  (forall a b, In a l1 -> In b l1 -> le a b -> le b a -> a = b) ->
  Py.sorted leb l1 = Py.sorted leb l2.
Proof.
  intros Hp Hanti.
  apply sorted_unique; try apply sorted_sorted.
  - eapply Permutation_trans; [apply sorted_perm|].
    eapply Permutation_trans; [exact Hp|].
    apply Permutation_sym, sorted_perm.
  - intros a b Ha Hb.
    apply Hanti; eapply Permutation_in; try apply sorted_perm; assumption.
Qed.

End SortFacts.

Section KeyOrder.
Import json_spec.

Lemma string_leb_trans (a b c : string) :
  String.leb a b = true -> String.leb b c = true -> String.leb a c = true.
Proof.
  unfold String.leb.
  revert b c; induction a as [|x a IH]; intros [|y b] [|z c]; cbn;
    try easy.
  unfold Ascii.compare.
  destruct (N.compare_spec (N_of_ascii x) (N_of_ascii y)) as [E1|L1|G1];
    destruct (N.compare_spec (N_of_ascii y) (N_of_ascii z)) as [E2|L2|G2];
    destruct (N.compare_spec (N_of_ascii x) (N_of_ascii z)) as [E3|L3|G3];
    try easy; try lia.
  apply IH.
Qed.

Lemma key_leb_total {V : Type} (a b : string * V) :
  key_leb a b = true \/ key_leb b a = true.
Proof. apply String.leb_total. Qed.

Lemma key_leb_trans {V : Type} (a b c : string * V) :
  key_leb a b = true -> key_leb b c = true -> key_leb a c = true.
Proof. apply string_leb_trans. Qed.

Lemma nodup_keys_inj {V : Type} (l : list (string * V)) (a b : string * V) :
  NoDup (map fst l) -> In a l -> In b l -> fst a = fst b -> a = b.
Proof.
  induction l as [|x l IH]; intros Hnd Ha Hb Hk; [contradiction|].
  cbn in Hnd. inversion Hnd as [|k ks Hnin Hnd']; subst.
  destruct Ha as [->|Ha], Hb as [->|Hb]; auto.
  - elim Hnin. rewrite Hk. now apply in_map.
  - elim Hnin. rewrite <- Hk. now apply in_map.
Qed.

(** Sorting by key does not depend on the order the items came in. *)
Lemma sorted_items_perm {V : Type} (l1 l2 : list (string * V)) :
  NoDup (map fst l1) -> Permutation l1 l2 ->
  Py.sorted key_leb l1 = Py.sorted key_leb l2.
Proof.
  intros Hnd Hp.
  apply (sorted_perm_eq key_leb key_leb_total key_leb_trans); [exact Hp|].
  intros a b Ha Hb H1 H2.
  apply (nodup_keys_inj l1); auto.
  now apply String.leb_antisym.
Qed.

End KeyOrder.

Section JsonFacts.
Import json json_spec.

Lemma value_induction (P : value -> Prop) :
  P Null -> (forall b, P (Bool b)) -> (forall z, P (Int z)) ->
  (forall s, P (Str s)) ->
  (forall l, Forall P l -> P (List l)) ->
  (forall d, Forall (fun kv => P (snd kv)) d -> P (Dict d)) ->
  forall v, P v.
Proof.
  intros HN HB HI HS HL HD.
  fix IH 1. intros [ | b | z | s | l | d ].
  - exact HN.
  - apply HB.
  - apply HI.
  - apply HS.
  - apply HL. induction l as [|x t IHt]; constructor; [apply IH | exact IHt].
  - apply HD. induction d as [|[k x] t IHt]; constructor;
      [apply IH | exact IHt].
Qed.

Lemma wf_List (l : list value) : wf (List l) <-> Forall wf l.
Proof.
  induction l as [|x t IH]; cbn.
  - split; [constructor | trivial].
  - cbn in IH. rewrite IH. split.
    + intros [H1 H2]. now constructor.
    + intros H. inversion H; subst. now split.
Qed.

Lemma wf_Dict (d : list (string * value)) :
  wf (Dict d) <-> NoDup (map fst d) /\ Forall (fun kv => wf (snd kv)) d.
Proof.
  cbn. apply and_iff_compat_l.
  induction d as [|kv t IH]; cbn.
  - split; [constructor | trivial].
  - rewrite IH. split.
    + intros [H1 H2]. now constructor.
    + intros H. inversion H; subst. now split.
Qed.

Lemma eqv_refl (v : value) : eqv v v.
Proof.
  induction v as [ | b | z | s | l IH | d IH ] using value_induction;
    try constructor.
  - induction IH; constructor; auto.
  - apply (eqv_Dict d d d); [apply Permutation_refl|].
    induction IH; constructor; auto.
Qed.

Lemma same_entries_refl (d : list (string * value)) : same_entries d d.
Proof.
  induction d as [|kv t IH]; constructor; [|exact IH].
  split; [reflexivity | apply eqv_refl].
Qed.

Section Stable.
Variables (item_separator key_separator : string).

Let rend (kv : string * value) : string * string :=
  let (k, x) := kv in (k, dumps item_separator key_separator true x).

Lemma rend_fst (l : list (string * value)) :
  map fst (map rend l) = map fst l.
Proof.
  induction l as [|[k x] t IH]; cbn; [reflexivity | now rewrite IH].
Qed.

(** With [sort_keys] the text written does not depend on the order in which
    the keys of any dict were inserted. *)
Lemma dumps_eqv (v1 : value) :
  wf v1 -> forall v2, eqv v1 v2 ->
  dumps item_separator key_separator true v1
  = dumps item_separator key_separator true v2.
Proof.
  induction v1 as [ | b | z | s | l IH | d IH ] using value_induction;
    intros Hwf v2 He; inversion He; subst; try reflexivity.
  - (* list *)
    cbn [dumps]. do 3 f_equal.
    apply wf_List in Hwf.
    match goal with H : Forall2 eqv l _ |- _ => rename H into H2 end.
    clear He.
    induction H2 as [|x y t t' Hxy Ht IHt]; cbn; [reflexivity|].
    inversion IH; subst. inversion Hwf; subst.
    f_equal; auto.
  - (* dict *)
    match goal with H : Permutation d _ |- _ => rename H into Hp end.
    match goal with H : Forall2 _ _ _ |- _ => rename H into H2 end.
    apply wf_Dict in Hwf. destruct Hwf as [Hnd Hwf].
    cbn [dumps]. do 4 f_equal. unfold ordered.
    fold rend.
    transitivity (Py.sorted (@key_leb string) (map rend d0)).
    + apply sorted_items_perm; [now rewrite rend_fst|].
      now apply Permutation_map.
    + f_equal.
      assert (IH' : Forall (fun kv =>
                wf (snd kv) /\
                (wf (snd kv) -> forall v2, eqv (snd kv) v2 ->
                 dumps item_separator key_separator true (snd kv)
                 = dumps item_separator key_separator true v2)) d0).
      { apply (Permutation_Forall Hp).
        rewrite Forall_forall in *. intros kv Hin. split; auto. }
      clear - H2 IH'.
      induction H2 as [|[k x] [k' y] t t' [Hk Hxy] Ht IHt]; cbn;
        [reflexivity|].
      inversion IH' as [|? ? [Hw Hx] Hrest]; subst. cbn in *. subst k'.
      f_equal; [|now apply IHt].
      f_equal. now apply Hx.
Qed.

End Stable.

End JsonFacts.

Section DictFacts.
Context {V : Type}.

Lemma dict_set_keys (k : string) (v : V) (d : Py.dict V) :
  NoDup (map fst d) -> NoDup (map fst (Py.dict_set k v d)).
Proof.
  induction d as [|[k' v'] t IH]; cbn; intros Hnd.
  - constructor; [intros [] | constructor].
  - inversion Hnd as [|? ? Hnin Hnd']; subst.
    destruct (String.eqb_spec k' k) as [->|Hne]; cbn; [exact Hnd|].
    constructor; [|now apply IH].
    intros Hin. apply Hnin. clear - Hin Hne.
    induction t as [|[k2 v2] t IHt]; cbn in *.
    + destruct Hin as [E|[]]. congruence.
    + destruct (String.eqb_spec k2 k) as [->|Hne2]; cbn in *.
      * destruct Hin as [E|Hin]; [congruence | now right].
      * destruct Hin as [E|Hin]; [now left | right; now apply IHt].
Qed.

Lemma dict_set_Forall (P : string * V -> Prop) (k : string) (v : V)
      (d : Py.dict V) :
  Forall P d -> P (k, v) -> Forall P (Py.dict_set k v d).
Proof.
  intros Hd Hkv. induction Hd as [|[k' v'] t Hx Ht IH]; cbn.
  - now constructor.
  - destruct (k' =? k)%string; constructor; auto.
Qed.

Lemma dict_update_keys (d other : Py.dict V) :
  NoDup (map fst d) -> NoDup (map fst (Py.dict_update d other)).
Proof.
  unfold Py.dict_update. revert d.
  induction other as [|[k v] t IH]; cbn; intros d Hnd; [exact Hnd|].
  apply IH. now apply dict_set_keys.
Qed.

Lemma dict_update_Forall (P : string * V -> Prop) (d other : Py.dict V) :
  Forall P d -> Forall P other -> Forall P (Py.dict_update d other).
Proof.
  unfold Py.dict_update. intros Hd Ho. revert d Hd.
  induction Ho as [|[k v] t Hkv Ht IH]; cbn; intros d Hd; [exact Hd|].
  apply IH. now apply dict_set_Forall.
Qed.

Variable R : string * V -> string * V -> Prop.
Hypothesis R_keys : forall a b, R a b -> fst a = fst b.

Lemma dict_set_Forall2 (k : string) (v1 v2 : V) (d1 d2 : Py.dict V) :
  Forall2 R d1 d2 -> R (k, v1) (k, v2) ->
  Forall2 R (Py.dict_set k v1 d1) (Py.dict_set k v2 d2).
Proof.
  intros Hd Hkv. induction Hd as [|[k1 x1] [k2 x2] t1 t2 Hx Ht IH]; cbn.
  - now constructor.
  - pose proof (R_keys _ _ Hx) as E. cbn in E. subst k2.
    destruct (k1 =? k)%string; constructor; auto.
Qed.

Lemma dict_update_Forall2 (d1 d2 o1 o2 : Py.dict V) :
  Forall2 R d1 d2 -> Forall2 R o1 o2 ->
  Forall2 R (Py.dict_update d1 o1) (Py.dict_update d2 o2).
Proof.
  unfold Py.dict_update. intros Hd Ho. revert d1 d2 Hd.
  induction Ho as [|[k1 x1] [k2 x2] t1 t2 Hx Ht IH]; cbn; intros d1 d2 Hd;
    [exact Hd|].
  pose proof (R_keys _ _ Hx) as E. cbn in E. subst k2.
  apply IH. now apply dict_set_Forall2.
Qed.

End DictFacts.

Section Forall2Facts.
Context {A B : Type} (R : A -> B -> Prop).

Lemma Forall2_filter (f : A -> bool) (g : B -> bool) (l1 : list A)
      (l2 : list B) :
  (forall a b, R a b -> f a = g b) ->
  Forall2 R l1 l2 -> Forall2 R (filter f l1) (filter g l2).
Proof.
  intros Hfg H. induction H as [|a b t1 t2 Hab Ht IH]; cbn; [constructor|].
  rewrite <- (Hfg a b Hab). destruct (f a); [constructor|]; auto.
Qed.

Lemma Forall2_skipn (n : nat) (l1 : list A) (l2 : list B) :
  Forall2 R l1 l2 -> Forall2 R (skipn n l1) (skipn n l2).
Proof.
  intros H. revert n. induction H as [|a b t1 t2 Hab Ht IH]; intros [|n]; cbn;
    try constructor; auto.
Qed.

End Forall2Facts.

Section SerializeStable.
Import events events_spec json json_spec serialize_spec.

Let entry_rel (a b : string * value) : Prop :=
  fst a = fst b /\ eqv (snd a) (snd b).

Let entry_wf (kv : string * value) : Prop := wf (snd kv).

Lemma entry_rel_keys (a b : string * value) : entry_rel a b -> fst a = fst b.
Proof. now intros [H _]. Qed.

Lemma str_list_wf (l : list string) : wf (str_list l).
Proof.
  unfold str_list. apply wf_List.
  induction l; constructor; [exact I | assumption].
Qed.

Lemma opt_entry_wf (k : string) (o : option string) :
  Forall entry_wf (opt_entry k o).
Proof.
  destruct o as [s|]; cbn; [|constructor].
  destruct (Py.truthy s); repeat constructor.
Qed.

Lemma payload_entries_wf (p : Payload) :
  wf_payload p -> Forall entry_wf (payload_entries p).
Proof.
  destruct p; cbn [payload_entries wf_payload]; intros Hwf;
    repeat (apply dict_update_Forall); try apply opt_entry_wf;
    repeat (constructor; try exact I; try apply str_list_wf; try exact Hwf).
  destruct auth_method; exact I.
Qed.

Lemma to_dict_wf (e : Event) : wf_event e -> wf (Dict (to_dict e)).
Proof.
  intros [Hmd Hp]. apply wf_Dict. unfold to_dict. split.
  - apply dict_update_keys. cbn.
    repeat constructor; cbn; intuition discriminate.
  - apply dict_update_Forall; [|now apply payload_entries_wf].
    constructor; [exact I|]. constructor; [exact I|].
    constructor; [exact I|]. constructor; [exact Hmd | constructor].
Qed.

Lemma same_payload_type (p1 p2 : Payload) :
  same_payload p1 p2 -> payload_type p1 = payload_type p2.
Proof.
  destruct p1, p2; cbn; intros H; try discriminate H; reflexivity.
Qed.

Lemma payload_entries_related (p1 p2 : Payload) :
  same_payload p1 p2 ->
  same_entries (payload_entries p1) (payload_entries p2).
Proof.
  destruct p1, p2; cbn [same_payload]; intros H; try discriminate H;
    try (inversion H; subst; apply same_entries_refl).
  - destruct H as [-> [Hi ->]]. cbn.
    repeat (constructor; [split; [reflexivity | try apply eqv_refl]|]);
      try exact Hi. constructor.
  - destruct H as [-> Hd]. cbn.
    repeat (constructor; [split; [reflexivity | try apply eqv_refl]|]);
      try exact Hd. constructor.
Qed.

Lemma to_dict_related (e1 e2 : Event) :
  same_event e1 e2 -> eqv (Dict (to_dict e1)) (Dict (to_dict e2)).
Proof.
  intros [Hid [Hts [Hmd Hp]]].
  apply (eqv_Dict _ (to_dict e1)); [apply Permutation_refl|].
  unfold to_dict, type.
  rewrite Hid, Hts, (same_payload_type _ _ Hp).
  apply (dict_update_Forall2 entry_rel entry_rel_keys).
  - repeat (constructor; [split; [reflexivity | try apply eqv_refl]|]);
      try exact Hmd. constructor.
  - now apply payload_entries_related.
Qed.

(** Two events that serialise alike and of which the first is well
    formed. *)
Let alike (a b : Event) : Prop := wf_event a /\ same_event a b.

Lemma alike_preserved (a b : Event) :
  alike a b -> is_preserved a = is_preserved b.
Proof.
  intros [_ [_ [_ [_ Hp]]]]. unfold is_preserved, type.
  now rewrite (same_payload_type _ _ Hp).
Qed.

Lemma append_alike (e1 e2 : Event) (s1 s2 : EventStream) :
  max_events s1 = max_events s2 ->
  Forall2 alike (events s1) (events s2) -> alike e1 e2 ->
  max_events (append e1 s1) = max_events (append e2 s2) /\
  Forall2 alike (events (append e1 s1)) (events (append e2 s2)).
Proof.
  intros Hm Hs He.
  assert (Hall : Forall2 alike (events s1 ++ [e1]) (events s2 ++ [e2]))
    by (apply Forall2_app; [exact Hs | now constructor]).
  assert (Hlen : Py.len (events s1 ++ [e1]) = Py.len (events s2 ++ [e2]))
    by (unfold Py.len; now rewrite (Forall2_length Hall)).
  assert (Hpres : Forall2 alike (filter is_preserved (events s1 ++ [e1]))
                          (filter is_preserved (events s2 ++ [e2])))
    by (apply Forall2_filter; [exact alike_preserved | exact Hall]).
  assert (Hoth : Forall2 alike
                   (filter (fun e => negb (is_preserved e)) (events s1 ++ [e1]))
                   (filter (fun e => negb (is_preserved e)) (events s2 ++ [e2]))).
  { apply Forall2_filter; [|exact Hall].
    intros a b Hab. now rewrite (alike_preserved a b Hab). }
  unfold append. rewrite Hlen, Hm.
  destruct (_ >? _); cbn [events max_events]; split; auto.
  apply Forall2_app; [exact Hpres|].
  unfold Py.slice_from, Py.len.
  rewrite (Forall2_length Hpres), (Forall2_length Hoth).
  now apply Forall2_skipn.
Qed.

Lemma run_alike (cap : Z) (h1 h2 : list Event) :
  Forall2 alike h1 h2 ->
  Forall2 alike (events (run cap h1)) (events (run cap h2)).
Proof.
  unfold run.
  assert (Hgen : forall s1 s2,
             max_events s1 = max_events s2 ->
             Forall2 alike (events s1) (events s2) ->
             Forall2 alike h1 h2 ->
             Forall2 alike
               (events (fold_left (fun s e => append e s) h1 s1))
               (events (fold_left (fun s e => append e s) h2 s2))).
  { intros s1 s2 Hm Hs Hh. revert s1 s2 Hm Hs.
    induction Hh as [|e1 e2 t1 t2 He Ht IH]; intros s1 s2 Hm Hs; cbn;
      [exact Hs|].
    destruct (append_alike e1 e2 s1 s2 Hm Hs He) as [Hm' Hs'].
    now apply IH. }
  intros Hh. apply Hgen; [reflexivity | constructor | exact Hh].
Qed.

Lemma serialize_alike (s1 s2 : EventStream) :
  Forall2 alike (events s1) (events s2) -> serialize s1 = serialize s2.
Proof.
  intros H. unfold serialize. apply dumps_eqv.
  - apply wf_List. induction H as [|a b t1 t2 [Hw _] Ht IH]; cbn;
      constructor; [now apply to_dict_wf | exact IH].
  - constructor. induction H as [|a b t1 t2 [_ Hs] Ht IH]; cbn;
      constructor; [now apply to_dict_related | exact IH].
Qed.

(** C9.  Two logs built by the same history of appends under the same cap
    serialise to the same text.  Because the keys are written in sorted
    order, this holds as well when the dicts inside the events of the two
    histories ([metadata], [tool_input], [data]) had their keys inserted in
    different orders.  The text is [json.dumps] with [sort_keys] and the
    separators [","] and [":"]. *)
Theorem serialize_stable :
  (forall cap history s1 s2,
      s1 = run cap history -> s2 = run cap history ->
      serialize s1 = serialize s2) /\
  (forall cap h1 h2,
      Forall wf_event h1 -> Forall2 same_event h1 h2 ->
      serialize (run cap h1) = serialize (run cap h2)) /\
  (forall s,
      serialize s
      = json.dumps "," ":" true
          (json.List (map (fun e => json.Dict (to_dict e)) (events s)))).
Proof.
  split; [|split].
  - intros cap history s1 s2 -> ->. reflexivity.
  - intros cap h1 h2 Hwf Hsame.
    apply serialize_alike, run_alike.
    induction Hsame as [|a b t1 t2 Hab Ht IH]; [constructor|].
    inversion Hwf; subst. constructor; [now split | now apply IH].
  - reflexivity.
Qed.

End SerializeStable.

Lemma serialize_stable_witness :
  events.serialize (events_spec.run 1000 serialize_spec.history_1)
  = events.serialize (events_spec.run 1000 serialize_spec.history_2).
Proof.
  apply (proj1 (proj2 serialize_stable)).
  - repeat constructor; cbn; intuition discriminate.
  - repeat constructor.
    + apply (json_spec.eqv_Dict _ [("agent", json.Str "m");
                                   ("step", json.Int 1)]);
        [apply perm_swap | repeat constructor].
    + apply (json_spec.eqv_Dict _ [("n", json.Int 3); ("q", json.Str "x")]);
        [apply perm_swap | repeat constructor].
    + apply eqv_refl.
Defined.

(** The text written for [history_1]: keys in sorted order, no blanks
    around the separators. *)
Example serialize_history_1 :
  events.serialize (events_spec.run 1000 serialize_spec.history_1)
  = ("[{" ++ json.dquote ++ "id" ++ json.dquote ++ ":" ++ json.dquote ++ "e1"
     ++ json.dquote ++ "," ++ json.dquote ++ "metadata" ++ json.dquote
     ++ ":{" ++ json.dquote ++ "agent" ++ json.dquote ++ ":" ++ json.dquote
     ++ "m" ++ json.dquote ++ "," ++ json.dquote ++ "step" ++ json.dquote
     ++ ":1}," ++ json.dquote ++ "timestamp" ++ json.dquote ++ ":"
     ++ json.dquote ++ "2025-01-01T00:00:00" ++ json.dquote ++ ","
     ++ json.dquote ++ "tool_call_id" ++ json.dquote ++ ":" ++ json.dquote
     ++ "call_1" ++ json.dquote ++ "," ++ json.dquote ++ "tool_input"
     ++ json.dquote ++ ":{" ++ json.dquote ++ "n" ++ json.dquote ++ ":3,"
     ++ json.dquote ++ "q" ++ json.dquote ++ ":" ++ json.dquote ++ "x"
     ++ json.dquote ++ "}," ++ json.dquote ++ "tool_name" ++ json.dquote
     ++ ":" ++ json.dquote ++ "search" ++ json.dquote ++ "," ++ json.dquote
     ++ "type" ++ json.dquote ++ ":" ++ json.dquote ++ "action"
     ++ json.dquote ++ "},{" ++ json.dquote ++ "error" ++ json.dquote ++ ":"
     ++ json.dquote ++ "Error: none" ++ json.dquote ++ "," ++ json.dquote
     ++ "id" ++ json.dquote ++ ":" ++ json.dquote ++ "e2" ++ json.dquote
     ++ "," ++ json.dquote ++ "metadata" ++ json.dquote ++ ":{},"
     ++ json.dquote ++ "output" ++ json.dquote ++ ":" ++ json.dquote
     ++ json.dquote ++ "," ++ json.dquote ++ "timestamp" ++ json.dquote
     ++ ":" ++ json.dquote ++ "2025-01-01T00:00:00" ++ json.dquote ++ ","
     ++ json.dquote ++ "tool_call_id" ++ json.dquote ++ ":" ++ json.dquote
     ++ "call_1" ++ json.dquote ++ "," ++ json.dquote ++ "tool_name"
     ++ json.dquote ++ ":" ++ json.dquote ++ "search" ++ json.dquote ++ ","
     ++ json.dquote ++ "type" ++ json.dquote ++ ":" ++ json.dquote
     ++ "observation" ++ json.dquote ++ "}]").
Proof. vm_compute. reflexivity. Qed.

(* ================================================================== *)
(** * The datasource registry *)
(* ================================================================== *)

Section SortStable.
Context {A : Type} (leb : A -> A -> bool) (c : A -> bool).

(** The elements of the class [c] tie with one another. *)
Hypothesis ties : forall x y, c x = true -> c y = true -> leb x y = true.

Lemma insert_sorted_filter (x : A) (l : list A) :
  filter c (Py.insert_sorted leb x l) = filter c (x :: l).
Proof.
  induction l as [|y t IH]; [reflexivity|].
  cbn [Py.insert_sorted]. destruct (leb x y) eqn:E; [reflexivity|].
  cbn [filter] in *. rewrite IH.
  destruct (c x) eqn:Cx, (c y) eqn:Cy; try reflexivity.
  rewrite (ties x y Cx Cy) in E. discriminate.
Qed.

(** A stable sort: the elements of a class stay in their order. *)
Lemma sorted_filter (l : list A) :
  filter c (Py.sorted leb l) = filter c l.
Proof.
  induction l as [|x t IH]; [reflexivity|].
  cbn [Py.sorted fold_right]. fold (Py.sorted leb t).
  rewrite insert_sorted_filter. cbn [filter]. now rewrite IH.
Qed.

End SortStable.

Section DatasourceRanking.
Import datasource datasource_spec.

Lemma contains_lower_both (lex text : string) :
  Py.contains (Py.lower lex) (Py.lower text) = true <-> occurs_nocase lex text.
Proof.
  rewrite contains_iff. unfold occurs_nocase. split.
  - intros [pre [post H]].
    apply lower_split in H. destruct H as [s1 [s2 [-> [_ H2]]]].
    apply lower_split in H2. destruct H2 as [m [s3 [-> [Hm _]]]].
    now exists s1, m, s3.
  - intros [pre [mid [post [-> Hm]]]].
    exists (Py.lower pre), (Py.lower post).
    rewrite !lower_app. now rewrite Hm.
Qed.

Lemma matches_query_iff (query : string) (src : Datasource) :
  matches_query query src = true <->
  (occurs_nocase (name src) query \/
   occurs_nocase query (name src) \/
   Exists (fun tag => occurs_nocase tag query) (tags src) \/
   Exists (fun ep => occurs_nocase query (endpoint_description ep))
          (endpoints src)).
Proof.
  unfold matches_query, Py.any.
  rewrite <- !contains_lower_both, !Exists_exists.
  destruct (Py.contains (Py.lower (name src)) (Py.lower query)) eqn:E1;
    cbn [orb]; [tauto|].
  destruct (Py.contains (Py.lower query) (Py.lower (name src))) eqn:E2;
    [tauto|].
  destruct (existsb _ (tags src)) eqn:E3.
  - apply existsb_exists in E3. destruct E3 as [tag [Hin Ht]].
    split; [|reflexivity]. intros _. right. right. left.
    exists tag. split; [exact Hin|]. now apply contains_lower_both.
  - rewrite existsb_exists. split.
    + intros [ep [Hin He]]. right. right. right.
      exists ep. split; [exact Hin|]. now apply contains_lower_both.
    + intros [H|[H|[[tag [Hin Ht]]|[ep [Hin He]]]]]; try discriminate.
      * apply contains_lower_both in Ht.
        assert (Hex : existsb (fun tag => Py.contains (Py.lower tag)
                                            (Py.lower query)) (tags src) = true)
          by (apply existsb_exists; now exists tag).
        congruence.
      * exists ep. split; [exact Hin|]. now apply contains_lower_both.
Qed.

Lemma StronglySorted_weaken {A : Type} (R S : A -> A -> Prop) (l : list A) :
  (forall a b, R a b -> S a b) -> StronglySorted R l -> StronglySorted S l.
Proof.
  intros HRS. induction 1 as [|a l Hl IH Ha]; constructor; [exact IH|].
  eapply Forall_impl; [|exact Ha]. intros b. apply HRS.
Qed.

Lemma by_priority_total (a b : Datasource) :
  by_priority_desc a b = true \/ by_priority_desc b a = true.
Proof. unfold by_priority_desc. lia. Qed.

Lemma by_priority_trans (a b c : Datasource) :
  by_priority_desc a b = true -> by_priority_desc b c = true ->
  by_priority_desc a c = true.
Proof. unfold by_priority_desc. lia. Qed.

(** C5, as the code has it.  [find_relevant] returns the first [limit]
    entries of the ranking of the candidates, the enabled sources that
    match; the ranking holds every candidate once, in descending priority,
    sources of equal priority in registry order; a source matches when,
    case ignored, its name occurs in the query or the query in its name, or
    one of its tags occurs in the query, or the query occurs in the
    description of one of its endpoints. *)
Theorem find_relevant_ranked (query : string) (limit : Z)
        (m : DatasourceModule) :
  let ranking := Py.sorted by_priority_desc (candidates query m) in
  find_relevant query limit m = Py.slice_to limit ranking /\
  (0 <= limit -> find_relevant query limit m = firstn (Z.to_nat limit) ranking) /\
  Permutation ranking (candidates query m) /\
  StronglySorted (fun a b => priority a >= priority b) ranking /\
  (forall p, filter (has_priority p) ranking
             = filter (has_priority p) (candidates query m)) /\
  (forall src,
      In src (candidates query m) <->
      (In src (Py.dict_values (sources m)) /\ enabled src = true /\
       (occurs_nocase (name src) query \/
        occurs_nocase query (name src) \/
        Exists (fun tag => occurs_nocase tag query) (tags src) \/
        Exists (fun ep => occurs_nocase query (endpoint_description ep))
               (endpoints src)))).
Proof.
  cbn zeta. split; [reflexivity|]. split; [|split; [|split; [|split]]].
  - intros Hl. unfold find_relevant, Py.slice_to, Py.slice_offset.
    fold (candidates query m).
    destruct (Z.ltb_spec limit 0); [lia | reflexivity].
  - apply sorted_perm.
  - eapply StronglySorted_weaken;
      [|apply (sorted_sorted by_priority_desc by_priority_total
                             by_priority_trans)].
    intros a b H. unfold by_priority_desc in H. cbn in H. lia.
  - intros p. apply sorted_filter.
    intros x y Hx Hy. unfold has_priority, by_priority_desc in *. lia.
  - intros src. unfold candidates. rewrite filter_In, andb_true_iff.
    now rewrite matches_query_iff.
Qed.

(** C5 as stated fails: of two sources of equal priority the one registered
    first comes first, though the other has the higher usage count. *)
Lemma find_relevant_ignores_usage :
  ~ ranked_as_claimed "data" 3 two_sources.
Proof.
  intros [Hs _].
  assert (E : find_relevant "data" 3 two_sources
              = [source "a_src" "Data One" 5 0; source "b_src" "Data Two" 5 7])
    by reflexivity.
  rewrite E in Hs. inversion Hs as [|? ? _ Hall]; subst.
  inversion Hall as [|? ? Hab _]; subst.
  unfold claimed_before in Hab. cbn in Hab. lia.
Qed.

(** With a limit below the number of candidates, candidates are left out. *)
Remark find_relevant_truncates :
  map id (find_relevant "data" 1 two_sources) = ["a_src"].
Proof. reflexivity. Qed.

End DatasourceRanking.

(* ================================================================== *)
(** * The context assembler *)
(* ================================================================== *)

Section MaskingPrefix.
Import context context_spec.

Variable percent_digits : Z -> Z -> string.

Lemma concat_In_contains (sep x : string) (l : list string) :
  In x l -> Py.contains x (Py.join sep l) = true.
Proof.
  unfold Py.join. induction l as [|y t IH]; [intros []|].
  intros Hin. apply contains_iff.
  destruct t as [|z t'].
  - destruct Hin as [->|[]]. exists "", "". cbn. now rewrite append_nil_r.
  - change (String.concat sep (y :: z :: t'))
      with (y ++ sep ++ String.concat sep (z :: t')).
    destruct Hin as [->|Hin].
    + now exists "", (sep ++ String.concat sep (z :: t')).
    + apply IH, contains_iff in Hin. destruct Hin as [pre [post ->]].
      exists (y ++ sep ++ pre), post. now rewrite !append_assoc.
Qed.


Lemma build_prefix_counters (im : bool) (version count : Z)
      (e : ContextEngine) :
  build_prefix im (with_counters version count e) = build_prefix im e.
Proof. reflexivity. Qed.


Lemma build_context_prefix (evs : list (Py.dict json.value))
      (it ie im : bool) (e : ContextEngine) :
  returned_prefix (build_context percent_digits evs it ie im e)
  = match build_context percent_digits evs it ie im e with
    | Some _ => Some (build_prefix im e)
    | None => None
    end.
Proof.
  unfold build_context. rewrite build_prefix_counters.
  destruct (dynamic_parts _ _ _ _); [|reflexivity].
  destruct (process_events _ evs _) as [done v']. reflexivity.
Qed.



End MaskingPrefix.



(** The prefix returned after the masking of [browser_use]. *)
Example returned_prefix_after_masking :
  context_spec.returned_prefix
    (context.build_context context_spec.whole_percent [] true true true
       (context.mask_tool "browser_use" "no GUI" None
                          context_spec.demo_engine))
  = Some ("You are Manus." ++ newline ++ newline
          ++ "[UNAVAILABLE TOOLS - Do not attempt to use:]" ++ newline
          ++ "- browser_use (no GUI)").
Proof. reflexivity. Qed.

(* ================================================================== *)
(** * The agent loop *)
(* ================================================================== *)

Section AgentObservation.
Import manus_aligned agent_spec.

Variable sha256_hexdigest : string -> string.

Lemma slice_to_length {A : Type} (j : Z) (l : list A) :
  0 <= j -> Py.len (Py.slice_to j l) <= j.
Proof.
  intros Hj. unfold Py.slice_to, Py.slice_offset, Py.len.
  destruct (Z.ltb_spec j 0); [lia|].
  rewrite length_firstn. lia.
Qed.



Variable json_loads : string -> option json.value.














End AgentObservation.



Section AgentRecitation.
Import manus_aligned agent_spec.

Variable percent_digits : Z -> Z -> string.

Lemma recitation_string_heading (t : context.TodoRecitation) :
  Py.contains context.progress_heading
              (context.to_recitation_string percent_digits t) = true /\
  Py.truthy (context.to_recitation_string percent_digits t) = true.
Proof.
  unfold context.to_recitation_string.
  set (active := match context.items t with [] => [] | _ :: _ => _ end).
  set (progress := if _ >? 0 then _ else []).
  split.
  - apply concat_In_contains. now left.
  - unfold Py.join. cbn [app].
    destruct (active ++ progress)%list as [|x rest]; reflexivity.
Qed.

Lemma update_todo_enabled (now : datetime) (plan_steps : list string)
      (current_step : Z) (completed : list Z) (e : context.ContextEngine) :
  context.recitation_enabled
    (context.update_todo now plan_steps current_step completed e)
  = context.recitation_enabled e.
Proof. reflexivity. Qed.

Lemma refreshed_engine_enabled (now : datetime) (a : ManusAligned)
      (ce : context.ContextEngine) :
  refreshed_engine now a = Some ce ->
  context.recitation_enabled ce
  = context.recitation_enabled (context_engine a).
Proof.
  unfold refreshed_engine.
  destruct (context.should_recite _) as [[|]|]; intros H; inversion H; subst;
    [|reflexivity].
  destruct (planner.the_plan _); reflexivity.
Qed.

Lemma build_context_enabled (evs : list (Py.dict json.value))
      (it ie im : bool) (e e' : context.ContextEngine)
      (r : string * list (Py.dict json.value)) :
  context.build_context percent_digits evs it ie im e = Some (e', r) ->
  context.recitation_enabled e' = context.recitation_enabled e /\
  context.todo e' = context.todo e.
Proof.
  unfold context.build_context.
  destruct (context.dynamic_parts _ _ _ _); [|discriminate].
  destruct (context.process_events _ evs _) as [done v'].
  intros H. inversion H; subst. split; reflexivity.
Qed.

(** With recitation enabled and the browser not in use, the prompt of
    every step holds the recitation block. *)
Lemma think_prompt_recites (now : datetime) (a a' : ManusAligned)
      (p : string) :
  context.recitation_enabled (context_engine a) = true ->
  think_prompt percent_digits now None a = Some (a', p) ->
  Py.contains context.progress_heading p = true.
Proof.
  intros Hen. unfold think_prompt.
  destruct (refreshed_engine now a) as [ce2|] eqn:E2; [|discriminate].
  destruct (context.build_context _ _ _ _ _ ce2) as [[ce3 r]|] eqn:E3;
    [|discriminate].
  apply refreshed_engine_enabled in E2.
  apply build_context_enabled in E3. destruct E3 as [E3 _].
  intros H. inversion H; subst. clear H.
  unfold context.get_recitation_context.
  rewrite E3, E2, Hen. cbn [negb].
  destruct (recitation_string_heading (context.todo ce3)) as [Hc Ht].
  rewrite Ht.
  apply contains_iff in Hc. destruct Hc as [pre [post Hc]].
  rewrite Hc. apply contains_iff.
  destruct (Py.truthy (context.get_masked_tools_context ce3)).
  - exists (context.get_masked_tools_context ce3 ++ newline ++ newline ++ pre),
      (post ++ newline ++ newline ++ next_step_prompt a).
    now rewrite !append_assoc.
  - exists pre, (post ++ newline ++ newline ++ next_step_prompt a).
    now rewrite !append_assoc.
Qed.

End AgentRecitation.

(** C6, evaluated on the first six steps of an agent with an update
    frequency of three and a todo of three items: the prompt of every step
    holds the [CURRENT PROGRESS] block, while the [dynamic_parts] of
    [build_context], which the function does not return, hold it on the
    third and the sixth step only. *)
Theorem recitation_in_every_prompt :
  context.update_frequency
    (context.todo (manus_aligned.context_engine agent_spec.fresh_agent)) = 3 /\
  context.items
    (context.todo (manus_aligned.context_engine agent_spec.fresh_agent))
  <> [] /\
  map (fun k =>
         option_map (Py.contains context.progress_heading)
                    (agent_spec.prompt_at context_spec.whole_percent k
                                          agent_spec.fresh_agent))
      [1; 2; 3; 4; 5; 6]%nat
  = [Some true; Some true; Some true; Some true; Some true; Some true] /\
  map (fun k =>
         option_map (existsb (Py.contains context.progress_heading))
                    (agent_spec.dynamic_parts_at context_spec.whole_percent k
                                                 agent_spec.fresh_agent))
      [1; 2; 3; 4; 5; 6]%nat
  = [Some false; Some false; Some true; Some false; Some false; Some true].
Proof.
  split; [reflexivity|]. split; [discriminate|].
  split; vm_compute; reflexivity.
Qed.

(** The first step is no multiple of three and its prompt holds the
    block. *)
Lemma recitation_at_first_step :
  ~ agent_spec.recites_every_third_step context_spec.whole_percent
      agent_spec.fresh_agent.
Proof.
  intros H.
  destruct (agent_spec.prompt_at context_spec.whole_percent 1
                                 agent_spec.fresh_agent) as [p|] eqn:E;
    [|vm_compute in E; discriminate E].
  assert (Hc : Py.contains context.progress_heading p = true).
  { cbn [agent_spec.prompt_at] in E.
    destruct (manus_aligned.think_prompt _ _ _ _) as [[a' p']|] eqn:T;
      [|discriminate E].
    cbn in E. inversion E; subst.
    now apply (think_prompt_recites context_spec.whole_percent t0
                                    agent_spec.fresh_agent a'). }
  apply (H 1%nat p E) in Hc. discriminate Hc.
Qed.

(* ================================================================== *)
(** * More on the event log *)
(* ================================================================== *)

Section EventLogMore.
Import events events_spec.

Lemma Forall_skipn_keeps {A : Type} (P : A -> Prop) (n : nat) (l : list A) :
  Forall P l -> Forall P (skipn n l).
Proof.
  intros H. revert n. induction H as [|a l Ha Hl IH]; intros [|n]; cbn;
    try constructor; auto.
Qed.

(** The Plan and System events after an append are those before it and,
    when it is one, the appended event. *)
Lemma append_preserved (event : Event) (s : EventStream) :
  filter is_preserved (events (append event s))
  = filter is_preserved (events s ++ [event]).
Proof.
  unfold append. destruct (_ >? _); cbn [events]; [|reflexivity].
  rewrite filter_app, filter_idem.
  change (fun e => negb (is_preserved e)) with is_other.
  destruct (others_filter _ (Forall_skipn_keeps _
              (Py.slice_offset (Py.len (filter is_other (events s ++ [event])))
                 (- (max_events s
                     - Py.len (filter is_preserved (events s ++ [event])))))
              _ (filter_other_Forall (events s ++ [event])))) as [Hp _].
  unfold Py.slice_from. rewrite Hp. apply app_nil_r.
Qed.

(** X1.  No append ever evicts a Plan or System event, whatever the cap
    and the length of the log: those events of the log after the append are
    all those the log held before, in their order, followed by the appended
    event when it is one of them. *)
Theorem append_never_evicts_plan_or_system (event : Event)
        (s : EventStream) :
  filter is_preserved (events (append event s))
  = (filter is_preserved (events s)
     ++ (if is_preserved event then [event] else []))%list.
Proof.
  rewrite append_preserved, filter_app. reflexivity.
Qed.

(** X2.  The cap holds after an append whenever the Plan and System
    events, the appended one counted, are fewer than the cap; this does not
    depend on the length of the log before. *)
Theorem append_within_cap (event : Event) (s : EventStream) :
  Py.len (filter is_preserved (events s ++ [event])) < max_events s ->
  Py.len (events (append event s)) <= max_events s.
Proof.
  intros Hp. unfold append.
  destruct (Z.gtb_spec (Py.len (events s ++ [event])) (max_events s))
    as [Hgt|Hle]; cbn [events]; [|exact Hle].
  unfold Py.len in *. rewrite length_app.
  unfold Py.slice_from, Py.slice_offset, Py.len.
  rewrite length_skipn.
  set (np := List.length (filter is_preserved (events s ++ [event]))) in *.
  set (no := List.length (filter _ (events s ++ [event]))).
  destruct (Z.ltb_spec (- (max_events s - Z.of_nat np)) 0); lia.
Qed.

Lemma append_within_cap_witness :
  Py.len (events (append (message "c" "three") full_log)) <= 3.
Proof.
  apply (append_within_cap (message "c" "three") full_log).
  vm_compute. reflexivity.
Defined.

(** X3.  The appended event is in the log after the append whenever it is
    a Plan or System event or the Plan and System events of the log are
    fewer than the cap. *)
Theorem append_keeps_new_event (event : Event) (s : EventStream) :
  is_preserved event = true
  \/ Py.len (filter is_preserved (events s)) < max_events s ->
  In event (events (append event s)).
Proof.
  intros H. unfold append.
  destruct (_ >? _); cbn [events]; [|apply in_or_app; right; now left].
  apply in_or_app.
  destruct (is_preserved event) eqn:Ep.
  - left. apply filter_In. split; [apply in_or_app; right; now left | exact Ep].
  - right. destruct H as [H|H]; [discriminate|].
    rewrite !filter_app. cbn [filter]. rewrite Ep. cbn [negb].
    rewrite app_nil_r.
    set (others := filter (fun e => negb (is_preserved e)) (events s)).
    unfold Py.slice_from, Py.slice_offset, Py.len in *.
    rewrite length_app. cbn [List.length].
    set (k := max_events s
              - Z.of_nat (List.length (filter is_preserved (events s)))) in *.
    assert (Hk : 0 < k) by (unfold k; lia).
    destruct (Z.ltb_spec (- k) 0) as [_|Hge]; [|lia].
    rewrite skipn_app. apply in_or_app. right.
    replace (Z.to_nat (Z.of_nat (List.length others + 1) + - k)
             - List.length others)%nat with 0%nat by lia.
    now left.
Qed.

Lemma append_keeps_new_event_witness :
  In (message "c" "three") (events (append (message "c" "three") full_log)).
Proof.
  apply (append_keeps_new_event (message "c" "three") full_log).
  right. vm_compute. reflexivity.
Defined.

Lemma filter_filter_implied {A : Type} (f g : A -> bool) (l : list A) :
  (forall a, f a = true -> g a = true) ->
  filter f (filter g l) = filter f l.
Proof.
  intros Hfg. induction l as [|a l IH]; cbn; [reflexivity|].
  destruct (g a) eqn:Ga; cbn.
  - now rewrite IH.
  - destruct (f a) eqn:Fa; [|exact IH].
    rewrite (Hfg a Fa) in Ga. discriminate.
Qed.

Lemma get_last {A : Type} (l : list A) (x : A) :
  Py.get (l ++ [x]) (-1) = Some x.
Proof.
  unfold Py.get, Py.len. rewrite length_app. cbn [List.length Z.ltb Z.compare].
  destruct (Z.leb_spec (- Z.of_nat (List.length l + 1)) (-1)) as [_|H]; [|lia].
  replace (Z.to_nat (Z.of_nat (List.length l + 1) + -1))
    with (List.length l + 0)%nat by lia.
  rewrite nth_error_app2 by lia.
  replace (List.length l + 0 - List.length l)%nat with 0%nat by lia.
  reflexivity.
Qed.

(** X4.  Once a Plan event is appended it is the latest plan of the log,
    whatever the cap evicts. *)
Theorem latest_plan_is_the_appended_one (event : Event) (s : EventStream) :
  type event = PLAN ->
  get_latest_plan (append event s) = Some event.
Proof.
  intros Ht. unfold get_latest_plan, get_by_type.
  set (is_plan := fun e => EventType_eqb (type e) PLAN).
  assert (Himp : forall a, is_plan a = true -> is_preserved a = true).
  { intros a Ha. unfold is_preserved. unfold is_plan in Ha. now rewrite Ha. }
  rewrite <- (filter_filter_implied is_plan is_preserved _ Himp).
  rewrite append_preserved.
  rewrite (filter_filter_implied is_plan is_preserved _ Himp).
  rewrite filter_app. cbn [filter]. unfold is_plan at 2. rewrite Ht.
  cbn [EventType_eqb].
  destruct (filter is_plan (events s) ++ [event])%list eqn:E.
  - destruct (filter is_plan (events s)); discriminate E.
  - rewrite <- E. apply get_last.
Qed.

Lemma latest_plan_is_the_appended_one_witness :
  get_latest_plan (append (plan_event "q" ["completed"; "in_progress"])
                          full_log)
  = Some (plan_event "q" ["completed"; "in_progress"]).
Proof.
  apply (latest_plan_is_the_appended_one
           (plan_event "q" ["completed"; "in_progress"]) full_log).
  reflexivity.
Defined.

(** X5.  [get_recent_errors] returns the latest error observations in
    their order of arrival: at most [limit] of them for a positive
    [limit], and all of them for a [limit] of zero. *)
Theorem recent_errors_are_latest (limit : Z) (s : EventStream) :
  (exists older,
      error_observations s = (older ++ get_recent_errors limit s)%list) /\
  (0 < limit -> Py.len (get_recent_errors limit s) <= limit) /\
  (0 < limit <= Py.len (error_observations s) ->
   Py.len (get_recent_errors limit s) = limit) /\
  (limit = 0 -> get_recent_errors limit s = error_observations s).
Proof.
  unfold get_recent_errors, error_observations.
  set (errs := filter has_error (get_by_type OBSERVATION s)).
  unfold Py.slice_from, Py.slice_offset, Py.len.
  split; [|split; [|split]].
  - eexists. symmetry. apply firstn_skipn.
  - intros Hl. rewrite length_skipn.
    destruct (Z.ltb_spec (- limit) 0); lia.
  - intros Hl. rewrite length_skipn.
    destruct (Z.ltb_spec (- limit) 0); lia.
  - intros ->. reflexivity.
Qed.

Lemma by_event_priority_total (a b : Event) :
  by_event_priority_desc a b = true \/ by_event_priority_desc b a = true.
Proof. unfold by_event_priority_desc. lia. Qed.

Lemma by_event_priority_trans (a b c : Event) :
  by_event_priority_desc a b = true -> by_event_priority_desc b c = true ->
  by_event_priority_desc a c = true.
Proof. unfold by_event_priority_desc. lia. Qed.

Lemma sorted_by_event_priority (l : list Event) :
  Permutation (Py.sorted by_event_priority_desc l) l /\
  StronglySorted (fun a b => event_priority a >= event_priority b)
                 (Py.sorted by_event_priority_desc l) /\
  (forall p, filter (has_event_priority p) (Py.sorted by_event_priority_desc l)
             = filter (has_event_priority p) l).
Proof.
  split; [apply sorted_perm|]. split.
  - eapply StronglySorted_weaken;
      [|apply (sorted_sorted by_event_priority_desc by_event_priority_total
                             by_event_priority_trans)].
    intros a b H. unfold by_event_priority_desc in H. cbn in H. lia.
  - intros p. apply sorted_filter.
    intros x y Hx Hy. unfold has_event_priority, by_event_priority_desc in *.
    lia.
Qed.

(** X6.  [get_active_knowledge] and [get_datasources] return every event
    of their kind once, in descending priority, events of equal priority in
    their order of arrival. *)
Theorem knowledge_and_datasources_ranked (s : EventStream) :
  (Permutation (get_active_knowledge s) (get_by_type KNOWLEDGE s) /\
   StronglySorted (fun a b => event_priority a >= event_priority b)
                  (get_active_knowledge s) /\
   (forall p, filter (has_event_priority p) (get_active_knowledge s)
              = filter (has_event_priority p) (get_by_type KNOWLEDGE s))) /\
  (Permutation (get_datasources s) (get_by_type DATASOURCE s) /\
   StronglySorted (fun a b => event_priority a >= event_priority b)
                  (get_datasources s) /\
   (forall p, filter (has_event_priority p) (get_datasources s)
              = filter (has_event_priority p) (get_by_type DATASOURCE s))).
Proof.
  split; apply sorted_by_event_priority.
Qed.

End EventLogMore.

Section PrintableText.
Import json events events_spec.

Lemma all_printable_app (a b : string) :
  all_printable (a ++ b) = all_printable a && all_printable b.
Proof.
  induction a as [|c a IH]; cbn; [reflexivity|].
  rewrite IH. now rewrite andb_assoc.
Qed.

Lemma escape_char_printable (c : ascii) :
  all_printable (escape_char c) = true.
Proof.
  destruct c as [[] [] [] [] [] [] [] []]; reflexivity.
Qed.

Lemma encode_str_printable (s : string) :
  all_printable (encode_str s) = true.
Proof.
  unfold encode_str. rewrite !all_printable_app.
  assert (H : all_printable (escape s) = true).
  { induction s as [|c s IH]; cbn [escape]; [reflexivity|].
    now rewrite all_printable_app, escape_char_printable, IH. }
  now rewrite H.
Qed.

Lemma uint_printable (d : Decimal.uint) :
  all_printable (NilEmpty.string_of_uint d) = true.
Proof. induction d; cbn; auto. Qed.

Lemma str_of_int_printable (z : Z) :
  all_printable (Py.str_of_int z) = true.
Proof.
  unfold Py.str_of_int, NilZero.string_of_int, NilZero.string_of_uint.
  destruct (Z.to_int z) as [d|d]; destruct d; cbn;
    try reflexivity; apply uint_printable.
Qed.

Lemma join_printable (sep : string) (parts : list string) :
  all_printable sep = true ->
  Forall (fun part => all_printable part = true) parts ->
  all_printable (Py.join sep parts) = true.
Proof.
  intros Hsep Hparts. unfold Py.join.
  induction Hparts as [|x t Hx Ht IH]; [reflexivity|].
  destruct t as [|y t']; [exact Hx|].
  change (String.concat sep (x :: y :: t'))
    with (x ++ sep ++ String.concat sep (y :: t')).
  now rewrite !all_printable_app, Hx, Hsep, IH.
Qed.

Lemma sorted_Forall {A : Type} (leb : A -> A -> bool) (P : A -> Prop)
      (l : list A) :
  Forall P l -> Forall P (Py.sorted leb l).
Proof.
  intros H. apply (Permutation_Forall (Permutation_sym (sorted_perm leb l))).
  exact H.
Qed.

(** Under printable separators [json.dumps] writes printable ASCII only,
    whatever the characters of the texts it is given. *)
Lemma dumps_printable (item_separator key_separator : string)
      (sort_keys : bool) (v : value) :
  all_printable item_separator = true ->
  all_printable key_separator = true ->
  all_printable (dumps item_separator key_separator sort_keys v) = true.
Proof.
  intros Hi Hk.
  induction v as [ | b | z | s | l IH | d IH ] using value_induction.
  - reflexivity.
  - destruct b; reflexivity.
  - apply str_of_int_printable.
  - apply encode_str_printable.
  - cbn [dumps]. rewrite !all_printable_app.
    rewrite (join_printable item_separator _ Hi); [reflexivity|].
    induction IH; constructor; auto.
  - cbn [dumps]. rewrite !all_printable_app.
    rewrite (join_printable item_separator _ Hi); [reflexivity|].
    apply Forall_map.
    assert (Hitems : Forall (fun kv : string * string =>
                               all_printable (snd kv) = true)
                            (map (fun kv : string * value =>
                                    let (k, x) := kv in
                                    (k, dumps item_separator key_separator
                                              sort_keys x)) d)).
    { apply Forall_map. eapply Forall_impl; [|exact IH].
      intros [k x] H. exact H. }
    assert (Hord : Forall (fun kv : string * string =>
                             all_printable (snd kv) = true)
                          (ordered sort_keys
                             (map (fun kv : string * value =>
                                     let (k, x) := kv in
                                     (k, dumps item_separator key_separator
                                               sort_keys x)) d))).
    { unfold ordered. destruct sort_keys; [|exact Hitems].
      now apply sorted_Forall. }
    eapply Forall_impl; [|exact Hord].
    intros [k x] H. unfold render_item. cbn [fst snd] in *.
    now rewrite !all_printable_app, encode_str_printable, Hk, H.
Qed.

(** X7.  The serialised log is printable ASCII throughout: every character
    outside the range from the blank to the tilde that a payload holds is
    written as an escape. *)
Theorem serialize_is_printable_ascii (s : EventStream) :
  all_printable (serialize s) = true.
Proof.
  unfold serialize. now apply dumps_printable.
Qed.

End PrintableText.

(* ================================================================== *)
(** * More on the planner *)
(* ================================================================== *)

Section PlannerMore.
Import planner planner_spec.

Lemma add_steps_eq (now : datetime) (texts : list string) (p : Plan) :
  add_steps now texts p
  = mk_Plan (id p) (title p) (objective p)
            (steps p ++ pending_from (List.length (steps p)) texts)
            (created_at p)
            (match texts with [] => updated_at p | _ :: _ => now end)
            (current_step_index p) (is_complete p).
Proof.
  unfold add_steps. revert p.
  induction texts as [|d t IH]; intros p; cbn [fold_left pending_from].
  - rewrite app_nil_r. now destruct p.
  - rewrite IH. destruct p as [i ti o st ca ua ci ic].
    cbn [add_step fst with_updated_at with_steps id title objective steps
         created_at updated_at current_step_index is_complete].
    rewrite length_app, <- app_assoc. cbn [List.length app].
    replace (List.length st + 1)%nat with (S (List.length st)) by lia.
    unfold Py.len. f_equal. now destruct t.
Qed.

Lemma pending_from_descriptions (n : nat) (texts : list string) :
  map description (pending_from n texts) = texts.
Proof.
  revert n; induction texts as [|d t IH]; intros n; cbn;
    [reflexivity | now rewrite IH].
Qed.

Lemma pending_from_nth (n i : nat) (texts : list string) (s : PlanStep) :
  nth_error (pending_from n texts) i = Some s ->
  status s = PENDING /\ index s = Z.of_nat (n + i).
Proof.
  revert n i; induction texts as [|d t IH]; intros n [|i] H; cbn in H;
    try discriminate.
  - inversion H; subst. cbn. split; [reflexivity | f_equal; lia].
  - destruct (IH (S n) i H) as [H1 H2]. split; [exact H1|].
    rewrite H2. f_equal. lia.
Qed.

Lemma effective_steps_nonempty (sc : Scan) : effective_steps sc <> [].
Proof.
  unfold effective_steps. destruct (scan_steps sc); discriminate.
Qed.

(** The plan [plan_of_scan] builds, spelled out. *)
Lemma plan_of_scan_shape (now : datetime) (pid : string) (sc : Scan) :
  exists d0 rest,
    effective_steps sc = d0 :: rest /\
    plan_of_scan now pid sc
    = mk_Plan pid (scan_title sc) (scan_objective sc)
              (start now (mk_PlanStep 0 d0 PENDING "" None None [])
               :: pending_from 1 rest)
              now now 0 false.
Proof.
  unfold plan_of_scan. fold (effective_steps sc).
  set (plan0 := mk_Plan pid (scan_title sc) (scan_objective sc) []
                        now now 0 false).
  fold (add_steps now (effective_steps sc) plan0).
  rewrite add_steps_eq.
  destruct (effective_steps sc) as [|d0 rest] eqn:E;
    [now apply effective_steps_nonempty in E|].
  exists d0, rest. split; reflexivity.
Qed.

(** X8.  Whatever the LLM answers, [_parse_plan_response] yields a plan
    that can be run: it has at least one step, the steps carry the scanned
    texts, or the three default texts when none was scanned, each step
    knows its position, the first step is in progress and every later one
    pending, the index is zero and the plan is not complete. *)
Theorem parsed_plan_is_runnable (now : datetime)
        (pid request reply : string) :
  let p := _parse_plan_response now pid request reply in
  steps p <> [] /\
  map description (steps p) = effective_steps (scan_reply request reply) /\
  (forall i s, nth_error (steps p) i = Some s ->
               index s = Z.of_nat i /\ status s = status_after 0 i) /\
  current_step_index p = 0 /\ is_complete p = false /\ id p = pid.
Proof.
  cbn zeta. unfold _parse_plan_response.
  destruct (plan_of_scan_shape now pid (scan_reply request reply))
    as [d0 [rest [He ->]]].
  cbn [steps current_step_index is_complete id].
  split; [discriminate|]. split.
  - cbn. now rewrite pending_from_descriptions, He.
  - split; [|repeat split].
    intros [|i] s H; cbn in H.
    + inversion H; subst. split; reflexivity.
    + destruct (pending_from_nth 1 i rest s H) as [H1 H2].
      split; [rewrite H2; f_equal; lia | exact H1].
Qed.

Lemma scan_line_passed_over (sc : Scan) (raw_line : string) :
  passed_over raw_line -> scan_line sc raw_line = sc.
Proof.
  unfold passed_over, scan_line. cbn zeta.
  intros [-> [-> H]].
  destruct (Py.strip raw_line) as [|c t]; [reflexivity|].
  now rewrite H.
Qed.

(** X9.  When no line of the reply carries a label or begins with a digit,
    and so when the LLM answers nothing, the plan falls back: its steps are
    the three default steps, its objective is the request, and its title is
    the request, cut to fifty characters and followed by three dots when it
    is longer. *)
Theorem unusable_reply_falls_back (now : datetime)
        (pid request reply : string) :
  Forall passed_over (Py.split "010"%char (Py.strip reply)) ->
  let p := _parse_plan_response now pid request reply in
  map description (steps p) = default_steps /\
  objective p = request /\
  title p = (if Py.str_len request >? 50
             then Py.str_slice_to 50 request ++ "..."
             else request).
Proof.
  intros Hlines. cbn zeta. unfold _parse_plan_response.
  assert (Hscan : scan_reply request reply
                  = mk_Scan (if Py.str_len request >? 50
                             then Py.str_slice_to 50 request ++ "..."
                             else request) request []).
  { unfold scan_reply. generalize (mk_Scan (if Py.str_len request >? 50
                             then Py.str_slice_to 50 request ++ "..."
                             else request) request []).
    induction Hlines as [|l t Hl Ht IH]; intros sc; cbn [fold_left];
      [reflexivity|].
    rewrite (scan_line_passed_over sc l Hl). apply IH. }
  rewrite Hscan.
  destruct (plan_of_scan_shape now pid
              (mk_Scan (if Py.str_len request >? 50
                        then Py.str_slice_to 50 request ++ "..."
                        else request) request []))
    as [d0 [rest [He ->]]].
  cbn [steps objective title scan_objective scan_title].
  split; [|split; reflexivity].
  cbn [map start description]. rewrite pending_from_descriptions.
  now rewrite <- He.
Qed.

Lemma unusable_reply_falls_back_witness :
  map description
      (steps (_parse_plan_response t0 "plan0001" "Count the files"
                                   "I am unable to help with that."))
  = default_steps.
Proof.
  apply (unusable_reply_falls_back t0 "plan0001" "Count the files"
                                   "I am unable to help with that.").
  repeat constructor.
Defined.

Lemma nth_error_lt {A : Type} (l : list A) (i : nat) (x : A) :
  nth_error l i = Some x -> (i < List.length l)%nat.
Proof. intros H. apply nth_error_Some. congruence. Qed.

Lemma advance_advanced_to (now : datetime) (n k : nat) (q : Plan) :
  advanced_to n k q ->
  exists q' r,
    advance now q = Some (q', r) /\ advanced_to n (S k) q' /\
    is_complete q' = (if (n <=? S k)%nat then true else is_complete q).
Proof.
  intros [Hi [Hn Hs]].
  destruct (advance_nonneg now q) as [q' [r [Ha [Hi' [Hl [Hc [Hx [Hd Ho]]]]]]]];
    [lia|].
  exists q', r. split; [exact Ha|].
  assert (Hn' : List.length (steps q') = n)
    by (unfold Py.len in Hl; lia).
  split; [split; [lia | split; [exact Hn'|]]|].
  - intros i s Hnth.
    assert (Hg : Py.get (steps q') (Z.of_nat i) = Some s)
      by (rewrite get_nonneg by lia; now rewrite Nat2Z.id).
    unfold status_after.
    destruct (Nat.ltb_spec i (S k)) as [Hlt|Hge].
    + destruct (Nat.eq_dec i k) as [->|Hne].
      * rewrite <- Hi in Hg.
        destruct (Py.get (steps q) (current_step_index q)) as [cur|] eqn:Ec.
        -- rewrite (Hc cur eq_refl) in Hg. inversion Hg; subst.
           destruct (StepStatus_eqb (status cur) COMPLETED) eqn:E;
             [|reflexivity].
           destruct (status cur); try discriminate E. reflexivity.
        -- rewrite Hi in Hg, Ec.
           rewrite get_nonneg, Nat2Z.id in Ec by lia.
           apply nth_error_None in Ec.
           apply nth_error_lt in Hnth. lia.
      * rewrite Ho in Hg by lia.
        rewrite get_nonneg, Nat2Z.id in Hg by lia.
        rewrite (Hs i s Hg). unfold status_after.
        destruct (Nat.ltb_spec i k); [reflexivity | lia].
    + destruct (Nat.eqb_spec i (S k)) as [->|Hne].
      * assert (Hlt : current_step_index q + 1 < Py.len (steps q)).
        { apply nth_error_lt in Hnth. unfold Py.len. lia. }
        destruct (Hx Hlt) as [nxt [_ [_ [Hg' _]]]].
        replace (Z.of_nat (S k)) with (current_step_index q + 1) in Hg by lia.
        rewrite Hg' in Hg. inversion Hg; subst. reflexivity.
      * rewrite Ho in Hg by lia.
        rewrite get_nonneg, Nat2Z.id in Hg by lia.
        rewrite (Hs i s Hg). unfold status_after.
        destruct (Nat.ltb_spec i k); [lia|].
        destruct (Nat.eqb_spec i k); [lia | reflexivity].
  - destruct (Nat.leb_spec n (S k)) as [Hle|Hgt].
    + apply Hd. unfold Py.len. lia.
    + destruct Hx as [nxt [_ [_ [_ Hic]]]]; [unfold Py.len; lia | exact Hic].
Qed.

Lemma advances_from (now : datetime) (n j : nat) :
  forall k q,
    advanced_to n k q ->
    exists q',
      advances now j q = Some q' /\ advanced_to n (k + j) q' /\
      is_complete q'
      = (if (j =? 0)%nat then is_complete q
         else if (n <=? k + j)%nat then true else is_complete q).
Proof.
  induction j as [|j IH]; intros k q Hq.
  - exists q. cbn. rewrite Nat.add_0_r. repeat split; apply Hq.
  - destruct (advance_advanced_to now n k q Hq) as [q1 [r [Ha [H1 Hc1]]]].
    destruct (IH (S k) q1 H1) as [q' [Hadv [H' Hc']]].
    exists q'. cbn [advances]. rewrite Ha.
    replace (k + S j)%nat with (S k + j)%nat by lia.
    split; [exact Hadv|]. split; [exact H'|].
    rewrite Hc', Hc1. cbn [Nat.eqb]. clear.
    destruct j as [|j]; cbn [Nat.eqb].
    + rewrite Nat.add_0_r. reflexivity.
    + destruct (Nat.leb_spec n (S k + S j)); [reflexivity|].
      destruct (Nat.leb_spec n (S k)); [lia | reflexivity].
Qed.

Lemma parsed_plan_shape_start (now : datetime)
      (pid request reply : string) :
  let p := _parse_plan_response now pid request reply in
  steps p <> [] /\ advanced_to (List.length (steps p)) 0 p /\
  is_complete p = false.
Proof.
  cbn zeta. unfold _parse_plan_response.
  destruct (plan_of_scan_shape now pid (scan_reply request reply))
    as [d0 [rest [He ->]]].
  cbn [steps is_complete]. split; [discriminate|]. split; [|reflexivity].
  split; [reflexivity|]. split; [reflexivity|].
  intros [|i] s H; cbn in H.
  - inversion H; subst. reflexivity.
  - now destruct (pending_from_nth 1 i rest s H) as [H1 _].
Qed.

(** X10.  A plan fresh from [_parse_plan_response] takes exactly as many
    calls of [advance] as it has steps: after [k] calls, none of which
    raises, the index is [k], the steps before the index are completed, the
    step at the index is in progress, the later ones are pending, and the
    plan is complete from the call on that moves the index past the last
    step, not before. *)
Theorem advancing_runs_through_the_plan (now later : datetime)
        (pid request reply : string) (k : nat) :
  let p := _parse_plan_response now pid request reply in
  exists q,
    advances later k p = Some q /\
    current_step_index q = Z.of_nat k /\
    List.length (steps q) = List.length (steps p) /\
    (forall i s, nth_error (steps q) i = Some s ->
                 status s = status_after k i) /\
    is_complete q = (List.length (steps p) <=? k)%nat.
Proof.
  cbn zeta.
  set (p := _parse_plan_response now pid request reply).
  destruct (parsed_plan_shape_start now pid request reply) as [Hne [H0 Hc]].
  fold p in Hne, H0, Hc.
  destruct (advances_from later (List.length (steps p)) k 0 p H0)
    as [q [Ha [[Hi [Hn Hs]] Hic]]].
  exists q. cbn [Nat.add] in *.
  split; [exact Ha|]. split; [exact Hi|]. split; [exact Hn|].
  split; [exact Hs|].
  rewrite Hic, Hc.
  destruct (Nat.eqb_spec k 0) as [->|Hk].
  - destruct (Nat.leb_spec (List.length (steps p)) 0) as [Hle|_];
      [|reflexivity].
    destruct (steps p); [now elim Hne | cbn in Hle; lia].
  - now destruct (Nat.leb_spec (List.length (steps p)) k).
Qed.

End PlannerMore.

Section PlannerStore.
Import planner planner_spec.

Lemma the_plan_position (pl : Planner) (p : Plan) :
  the_plan pl = Some p ->
  exists k, current_plan pl = Some k /\ nth_error (plan_history pl) k = Some p.
Proof.
  unfold the_plan. destruct (current_plan pl) as [k|]; [|discriminate].
  intros H. now exists k.
Qed.

Lemma the_plan_with_the_plan (pl : Planner) (p q : Plan) :
  the_plan pl = Some p -> the_plan (with_the_plan q pl) = Some q.
Proof.
  intros H. destruct (the_plan_position pl p H) as [k [Hk Hn]].
  unfold with_the_plan, the_plan. rewrite Hk. cbn.
  apply nth_error_update_eq. now apply nth_error_lt in Hn.
Qed.

(** X11.  [update_step_status] answers no and changes nothing when the
    planner has no plan or the index is out of the range of the steps, a
    negative index included; within the range it answers yes, writes the
    status on that step and leaves every other step, the index, the
    complete flag and the length of the history as they were. *)
Theorem update_step_status_in_and_out_of_range (now : datetime) (i : Z)
        (st : StepStatus) (note : string) (pl : Planner) :
  (the_plan pl = None -> update_step_status now i st note pl = (pl, false)) /\
  (forall p, the_plan pl = Some p ->
             i < 0 \/ Py.len (steps p) <= i ->
             update_step_status now i st note pl = (pl, false)) /\
  (forall p, the_plan pl = Some p ->
             0 <= i < Py.len (steps p) ->
             exists pl' p' s',
               update_step_status now i st note pl = (pl', true) /\
               the_plan pl' = Some p' /\
               Py.get (steps p') i = Some s' /\ status s' = st /\
               (forall j, 0 <= j -> j <> i ->
                          Py.get (steps p') j = Py.get (steps p) j) /\
               Py.len (steps p') = Py.len (steps p) /\
               current_step_index p' = current_step_index p /\
               is_complete p' = is_complete p /\
               List.length (plan_history pl') = List.length (plan_history pl)).
Proof.
  unfold update_step_status. split; [|split].
  - intros ->. reflexivity.
  - intros p Hp Hout. rewrite Hp.
    destruct (Z.leb_spec 0 i), (Z.ltb_spec i (Py.len (steps p)));
      cbn [andb]; try reflexivity; lia.
  - intros p Hp Hin. rewrite Hp.
    destruct (Z.leb_spec 0 i), (Z.ltb_spec i (Py.len (steps p)));
      cbn [andb]; try lia.
    destruct (get_in_range (steps p) i Hin) as [step Hstep]. rewrite Hstep.
    eexists _, _, _. split; [reflexivity|].
    split; [exact (the_plan_with_the_plan pl p _ Hp)|].
    cbn [steps with_updated_at with_steps current_step_index is_complete].
    split; [now apply get_set_eq|]. split; [reflexivity|].
    split; [intros j Hj Hne; apply get_set_neq; lia|].
    split; [apply len_set|]. split; [reflexivity|]. split; [reflexivity|].
    unfold with_the_plan. destruct (current_plan pl); [|reflexivity].
    cbn. apply update_length.
Qed.

Lemma the_plan_installed (p : Plan) (pl : Planner) :
  the_plan (install p pl) = Some p.
Proof.
  unfold the_plan, install. cbn.
  rewrite nth_error_app2 by lia. now rewrite Nat.sub_diag.
Qed.

(** A [replan] whose response has a content installs the plan parsed
    from it. *)
Lemma replan_installs_parsed_plan (now : datetime) (pid reason : string)
      (response : Response) (reply : string) (pl : Planner) :
  response_content response = Some reply ->
  snd (replan now pid reason response pl)
  = Some (_parse_plan_response now pid reason reply) /\
  the_plan (fst (replan now pid reason response pl))
  = Some (_parse_plan_response now pid reason reply).
Proof.
  intros Hc. unfold replan. rewrite Hc. cbn [fst snd].
  split; [reflexivity | apply the_plan_installed].
Qed.

(** A [replan] that raises leaves the current plan, marked complete. *)
Lemma replan_raises_after_archiving (now : datetime) (pid reason : string)
      (response : Response) (pl : Planner) (p : Plan) :
  the_plan pl = Some p ->
  response_content response = None ->
  replan now pid reason response pl
  = (with_the_plan (with_is_complete true p) pl, None) /\
  the_plan (with_the_plan (with_is_complete true p) pl)
  = Some (with_is_complete true p).
Proof.
  intros Hp Hc. unfold replan. rewrite Hc, Hp.
  split; [reflexivity|]. exact (the_plan_with_the_plan pl p _ Hp).
Qed.

(** X12.  [replan] archives the plan it replaces, and does so before it
    asks the LLM: in every case the replaced plan stays at its place in
    the history, marked complete and otherwise as it was, and the other
    plans of the history are untouched.  When the response has a content,
    or is empty, the plan parsed from it carries the id drawn for it, is
    the current plan and the last of the history, which is one plan
    longer.  When reading the response raises, as it does on every [str]
    that is not empty, which is what the [ask] of [app.llm.LLM] returns,
    [replan] raises: the history has its old length and the current plan
    is the replaced one, now marked complete. *)
Theorem replan_archives_the_plan (now : datetime) (pid reason : string)
        (response : Response) (pl : Planner) (p : Plan) :
  the_plan pl = Some p ->
  let pl' := fst (replan now pid reason response pl) in
  let archived := with_is_complete true p in
  (exists k,
      current_plan pl = Some k /\
      nth_error (plan_history pl') k = Some archived /\
      forall j, j <> k -> (j < List.length (plan_history pl))%nat ->
                nth_error (plan_history pl') j
                = nth_error (plan_history pl) j) /\
  (forall reply,
      response_content response = Some reply ->
      let new_plan := _parse_plan_response now pid reason reply in
      snd (replan now pid reason response pl) = Some new_plan /\
      the_plan pl' = Some new_plan /\
      id new_plan = pid /\
      plan_history pl'
      = (plan_history (with_the_plan archived pl) ++ [new_plan])%list /\
      List.length (plan_history pl') = S (List.length (plan_history pl))) /\
  (response_content response = None ->
   snd (replan now pid reason response pl) = None /\
   the_plan pl' = Some archived /\
   plan_history pl' = plan_history (with_the_plan archived pl) /\
   List.length (plan_history pl') = List.length (plan_history pl)) /\
  (forall text, text <> "" -> response_content (Text text) = None).
Proof.
  intros Hp. cbn zeta.
  destruct (the_plan_position pl p Hp) as [k [Hk Hn]].
  pose proof (nth_error_lt _ _ _ Hn) as Hlt.
  assert (Hh : plan_history (with_the_plan (with_is_complete true p) pl)
               = Py.update k (with_is_complete true p) (plan_history pl))
    by (unfold with_the_plan; now rewrite Hk).
  split; [|split; [|split]].
  - exists k. split; [exact Hk|].
    unfold replan. rewrite Hp.
    destruct (response_content response) as [reply|]; cbn [fst];
      [unfold install; cbn [plan_history]|]; rewrite Hh.
    + split.
      * rewrite nth_error_app1 by (rewrite update_length; exact Hlt).
        now apply nth_error_update_eq.
      * intros j Hj Hjl.
        rewrite nth_error_app1 by (rewrite update_length; exact Hjl).
        apply nth_error_update_neq. congruence.
    + split; [now apply nth_error_update_eq|].
      intros j Hj Hjl. apply nth_error_update_neq. congruence.
  - intros reply Hc. cbn zeta.
    destruct (replan_installs_parsed_plan now pid reason response reply pl Hc)
      as [Hs Ht].
    split; [exact Hs|]. split; [exact Ht|]. split.
    + unfold _parse_plan_response.
      destruct (plan_of_scan_shape now pid (scan_reply reason reply))
        as [d0 [rest [_ ->]]]. reflexivity.
    + unfold replan. rewrite Hc, Hp. cbn [fst]. unfold install.
      cbn [plan_history]. split; [reflexivity|].
      rewrite Hh, length_app, update_length. cbn. lia.
  - intros Hc.
    destruct (replan_raises_after_archiving now pid reason response pl p
                                            Hp Hc) as [-> Ht].
    cbn [fst snd]. split; [reflexivity|]. split; [exact Ht|].
    split; [reflexivity|]. now rewrite Hh, update_length.
  - intros text Ht. cbn [response_content]. unfold Py.truthy.
    destruct (String.eqb_spec text ""); [contradiction | reflexivity].
Qed.

Lemma replan_archives_the_plan_witness :
  snd (replan t0 "plan0009" "no network" (Text "1. Try again")
              demo_planner) = None /\
  exists new_plan,
    the_plan (fst (replan t0 "plan0009" "no network" (Message demo_reply)
                          demo_planner)) = Some new_plan.
Proof.
  destruct (the_plan demo_planner) as [p|] eqn:Hp;
    [|vm_compute in Hp; discriminate Hp].
  split.
  - exact (proj1 (proj1 (proj2 (proj2
             (replan_archives_the_plan t0 "plan0009" "no network"
                                       (Text "1. Try again") demo_planner p
                                       Hp))) eq_refl)).
  - eexists.
    exact (proj1 (proj2 (proj1 (proj2
             (replan_archives_the_plan t0 "plan0009" "no network"
                                       (Message demo_reply) demo_planner p
                                       Hp)) demo_reply eq_refl))).
Defined.

Lemma prefix_is_contained (sub s : string) :
  prefix sub s = true -> Py.contains sub s = true.
Proof.
  intros H. destruct s; cbn [Py.contains]; now rewrite H.
Qed.



End PlannerStore.

Section FailedCalls.
Import manus_aligned agent_spec.

Variable sha256_hexdigest : string -> string.
Variable json_loads : string -> option json.value.

Lemma planner_add_action (now : datetime) (tool_name : string)
      (tool_input : Py.dict json.value) (tool_call_id : string)
      (a : ManusAligned) :
  the_planner (_add_action_event sha256_hexdigest now tool_name tool_input
                                 tool_call_id a)
  = the_planner a.
Proof. reflexivity. Qed.





End FailedCalls.


Section DictLookup.
Context {V : Type}.

Lemma dict_get_set_eq (k : string) (v : V) (d : Py.dict V) :
  Py.dict_get k (Py.dict_set k v d) = Some v.
Proof.
  induction d as [|[k' v'] t IH]; cbn.
  - now rewrite String.eqb_refl.
  - destruct (String.eqb_spec k' k) as [->|Hne]; cbn.
    + now rewrite String.eqb_refl.
    + destruct (String.eqb_spec k' k); [contradiction | exact IH].
Qed.

Lemma dict_get_set_neq (k k' : string) (v : V) (d : Py.dict V) :
  k' <> k -> Py.dict_get k' (Py.dict_set k v d) = Py.dict_get k' d.
Proof.
  intros Hne. induction d as [|[k2 v2] t IH]; cbn.
  - destruct (String.eqb_spec k k'); [congruence | reflexivity].
  - destruct (String.eqb_spec k2 k) as [->|Hk]; cbn.
    + destruct (String.eqb_spec k k'); [congruence | reflexivity].
    + destruct (String.eqb_spec k2 k'); [reflexivity | exact IH].
Qed.

Lemma dict_get_del_neq (k k' : string) (d : Py.dict V) :
  k' <> k -> Py.dict_get k' (Py.dict_del k d) = Py.dict_get k' d.
Proof.
  intros Hne. induction d as [|[k2 v2] t IH]; cbn; [reflexivity|].
  destruct (String.eqb_spec k2 k) as [->|Hk]; cbn.
  - destruct (String.eqb_spec k k'); [congruence | reflexivity].
  - destruct (String.eqb_spec k2 k'); [reflexivity | exact IH].
Qed.

Lemma dict_get_absent (k : string) (d : Py.dict V) :
  ~ In k (Py.dict_keys d) -> Py.dict_get k d = None.
Proof.
  induction d as [|[k2 v2] t IH]; cbn; [reflexivity|].
  intros Hnin. destruct (String.eqb_spec k2 k) as [->|Hk].
  - exfalso. apply Hnin. now left.
  - apply IH. intros Hin. apply Hnin. now right.
Qed.

Lemma dict_get_del_eq (k : string) (d : Py.dict V) :
  NoDup (Py.dict_keys d) -> Py.dict_get k (Py.dict_del k d) = None.
Proof.
  induction d as [|[k2 v2] t IH]; cbn; [reflexivity|].
  intros Hnd. inversion Hnd as [|? ? Hnin Hnd']; subst.
  destruct (String.eqb_spec k2 k) as [->|Hk]; cbn.
  - now apply dict_get_absent.
  - destruct (String.eqb_spec k2 k); [contradiction | now apply IH].
Qed.

Lemma dict_del_set_fresh (k : string) (v : V) (d : Py.dict V) :
  Py.dict_get k d = None -> Py.dict_del k (Py.dict_set k v d) = d.
Proof.
  induction d as [|[k2 v2] t IH]; cbn.
  - now rewrite String.eqb_refl.
  - destruct (String.eqb_spec k2 k) as [->|Hk]; [discriminate|].
    intros Hn. cbn. destruct (String.eqb_spec k2 k); [contradiction|].
    now rewrite IH.
Qed.

Lemma dict_keys_set (k : string) (v : V) (d : Py.dict V) :
  Py.dict_keys (Py.dict_set k v d)
  = if Py.dict_mem k d then Py.dict_keys d
    else (Py.dict_keys d ++ [k])%list.
Proof.
  unfold Py.dict_mem. induction d as [|[k2 v2] t IH]; cbn; [reflexivity|].
  destruct (String.eqb_spec k2 k) as [->|Hk]; cbn; [reflexivity|].
  unfold Py.dict_keys in IH. rewrite IH.
  now destruct (Py.dict_get k t).
Qed.

End DictLookup.

Section DatasourceRegistry.
Import datasource.

(** X14.  The registry is a map from id to source.  After [register] the
    source is found under its id and every other id answers as before; a
    source registered again under an id already there keeps its place in
    the order of the registry, a new one goes last.  [unregister] of an
    absent id answers no and changes nothing; of a present id it answers
    yes, the id is gone and every other id answers as before.  Registering
    a new source and unregistering it gives the module back. *)
Theorem registry_round_trip (src : Datasource) (k : string)
        (m : DatasourceModule) :
  get (id src) (register src m) = Some src /\
  (k <> id src -> get k (register src m) = get k m) /\
  Py.dict_keys (sources (register src m))
  = (if Py.dict_mem (id src) (sources m) then Py.dict_keys (sources m)
     else Py.dict_keys (sources m) ++ [id src])%list /\
  (get k m = None -> unregister k m = (m, false)) /\
  (get k m <> None ->
   snd (unregister k m) = true /\
   (NoDup (Py.dict_keys (sources m)) ->
    get k (fst (unregister k m)) = None) /\
   (forall k', k' <> k -> get k' (fst (unregister k m)) = get k' m)) /\
  (get (id src) m = None ->
   unregister (id src) (register src m) = (m, true)).
Proof.
  unfold get, register, unregister, Py.dict_mem. cbn [sources].
  split; [apply dict_get_set_eq|].
  split; [intros Hne; now apply dict_get_set_neq|].
  split; [apply dict_keys_set|].
  split; [intros ->; reflexivity|].
  split.
  - intros Hsome. destruct (Py.dict_get k (sources m)); [|congruence].
    cbn [fst snd sources]. split; [reflexivity|].
    split; [apply dict_get_del_eq|].
    intros k' Hne. now apply dict_get_del_neq.
  - intros Hnone. rewrite dict_get_set_eq.
    cbn [default_timeout max_retries].
    rewrite dict_del_set_fresh by exact Hnone. now destruct m.
Qed.

Lemma contains_empty (s : string) : Py.contains "" s = true.
Proof. destruct s; reflexivity. Qed.

(** X15.  The empty query matches every source, and a source whose name is
    empty matches every query, since the empty text occurs in every text:
    [find_relevant] on the empty query ranks all enabled sources. *)
Theorem empty_query_matches_every_source (query : string) (limit : Z)
        (src : Datasource) (m : DatasourceModule) :
  matches_query "" src = true /\
  (name src = "" -> matches_query query src = true) /\
  find_relevant "" limit m
  = Py.slice_to limit
      (Py.sorted by_priority_desc
                 (filter enabled (Py.dict_values (sources m)))).
Proof.
  assert (H0 : forall s, matches_query "" s = true).
  { intros s. unfold matches_query. cbn [Py.lower].
    now rewrite contains_empty, orb_true_r. }
  split; [apply H0|]. split.
  - intros Hn. unfold matches_query. rewrite Hn. cbn [Py.lower].
    now rewrite contains_empty.
  - unfold find_relevant. f_equal. f_equal. apply filter_ext.
    intros s. now rewrite H0, andb_true_r.
Qed.

End DatasourceRegistry.

Section ToolAvailability.
Import context context_spec.

Lemma available_iff (tool : string) (all_tools : list string)
      (e : ContextEngine) :
  In tool (get_available_tools all_tools e)
  <-> In tool all_tools /\ available tool e = true.
Proof.
  unfold available, get_available_tools. rewrite filter_In. cbn [filter].
  destruct (Py.dict_get tool (tool_masks e)) as [m|];
    [|cbn; intuition congruence].
  destruct (ToolState_eqb (state m) AVAILABLE); cbn; intuition congruence.
Qed.

(** X16.  Masking a tool takes that tool, and no other, out of the answer
    of [get_available_tools], whose order is that of the tools asked
    about.  After [unmask_tool] the tool is available again, whether it
    was masked or not, and the availability of every other tool is as
    before; a tool that was never masked leaves the engine as it is. *)
Theorem masking_decides_availability (tool reason : string)
        (conditions : option (list string)) (all_tools : list string)
        (e : ContextEngine) :
  get_available_tools all_tools (mask_tool tool reason conditions e)
  = filter (fun u => negb (u =? tool)%string)
           (get_available_tools all_tools e) /\
  (forall u, In u (get_available_tools all_tools (unmask_tool tool e))
             <-> In u all_tools /\
                 (u = tool \/ In u (get_available_tools all_tools e))) /\
  (Py.dict_get tool (tool_masks e) = None -> unmask_tool tool e = e).
Proof.
  split; [|split].
  - unfold get_available_tools, mask_tool. cbn [tool_masks with_tool_masks].
    induction all_tools as [|u t IH]; [reflexivity|]. cbn [filter].
    rewrite IH. destruct (String.eqb_spec u tool) as [->|Hne].
    + rewrite dict_get_set_eq. cbn [state ToolState_eqb].
      destruct (match Py.dict_get tool (tool_masks e) with
                | Some m => ToolState_eqb (state m) AVAILABLE
                | None => true
                end); cbn [filter]; [|reflexivity].
      now rewrite String.eqb_refl.
    + rewrite dict_get_set_neq by exact Hne.
      destruct (match Py.dict_get u (tool_masks e) with
                | Some m => ToolState_eqb (state m) AVAILABLE
                | None => true
                end); cbn [filter]; [|reflexivity].
      destruct (String.eqb_spec u tool); [contradiction | reflexivity].
  - intros u. rewrite !available_iff.
    assert (Hu : available u (unmask_tool tool e) = true
                 <-> u = tool \/ available u e = true).
    { unfold available, get_available_tools, unmask_tool. cbn [filter].
      destruct (Py.dict_get tool (tool_masks e)) as [m|] eqn:Hm.
      - cbn [tool_masks with_tool_masks].
        destruct (String.eqb_spec u tool) as [->|Hne].
        + rewrite dict_get_set_eq. cbn. split; [now left | reflexivity].
        + rewrite dict_get_set_neq by exact Hne.
          split; [now right | intros [E|H]; [contradiction | exact H]].
      - split; [now right|]. intros [->|H]; [|exact H]. now rewrite Hm. }
    rewrite Hu. tauto.
  - unfold unmask_tool. now intros ->.
Qed.

Lemma prefix_app (p s : string) : prefix p (p ++ s) = true.
Proof. apply prefix_iff. now exists s. Qed.

(** X17.  [get_tool_with_prefix] answers a name that begins with the
    prefix of the category and ends with the name given: the name itself
    when it begins with the prefix already or the category has no prefix,
    the prefix followed by the name otherwise.  Applying it twice is the
    same as applying it once. *)
Theorem tool_prefix_applied_once (category tool : string)
        (e : ContextEngine) :
  let named := get_tool_with_prefix category tool e in
  Py.startswith named (prefix_of category e) = true /\
  (named = tool \/ named = prefix_of category e ++ tool) /\
  (Py.startswith tool (prefix_of category e) = true -> named = tool) /\
  (Py.dict_get category (tool_prefixes e) = None -> named = tool) /\
  get_tool_with_prefix category named e = named.
Proof.
  cbn zeta. unfold get_tool_with_prefix. fold (prefix_of category e).
  assert (Hnone : Py.dict_get category (tool_prefixes e) = None ->
                  prefix_of category e = "").
  { unfold prefix_of. now intros ->. }
  destruct (Py.startswith tool (prefix_of category e)) eqn:Hs; cbn [negb].
  - rewrite Hs. cbn [negb]. split; [reflexivity|]. split; [now left|].
    split; [reflexivity|]. split; reflexivity.
  - assert (Hp : Py.startswith (prefix_of category e ++ tool)
                               (prefix_of category e) = true)
      by apply prefix_app.
    rewrite Hp. cbn [negb]. split; [reflexivity|]. split; [now right|].
    split; [discriminate|]. split; [|reflexivity].
    intros Hn. rewrite (Hnone Hn) in Hs. unfold Py.startswith in Hs.
    destruct tool; discriminate Hs.
Qed.

End ToolAvailability.

Section ErrorLog.
Import context context_spec.

Lemma skipn_snoc {A : Type} (k : nat) (l : list A) (x : A) :
  (k <= List.length l)%nat -> skipn k (l ++ [x]) = (skipn k l ++ [x])%list.
Proof.
  intros Hk. rewrite skipn_app.
  replace (k - List.length l)%nat with 0%nat by lia. reflexivity.
Qed.

(** The newest entry is in a slice [l[-n:]] with [n] not negative. *)
Lemma slice_from_snoc {A : Type} (n : Z) (l : list A) (x : A) :
  0 <= n ->
  exists kept, Py.slice_from (- n) (l ++ [x]) = (kept ++ [x])%list /\
               exists dropped, l = (dropped ++ kept)%list.
Proof.
  intros Hn. unfold Py.slice_from.
  exists (skipn (Py.slice_offset (Py.len (l ++ [x])) (- n)) l). split.
  - apply skipn_snoc. unfold Py.slice_offset, Py.len. rewrite length_app.
    cbn [List.length]. destruct (Z.ltb_spec (- n) 0); lia.
  - exists (firstn (Py.slice_offset (Py.len (l ++ [x])) (- n)) l).
    symmetry. apply firstn_skipn.
Qed.

Lemma retain_error_errors (now : datetime) (tool message : string)
      (args : option (Py.dict json.value)) (ctx : string)
      (r : ErrorRetention) :
  0 <= max_retained r ->
  exists kept dropped,
    errors (retain_error now tool message args ctx r)
    = (kept ++ [new_error now tool message args ctx])%list /\
    errors r = (dropped ++ kept)%list.
Proof.
  intros Hm. unfold retain_error. cbn [errors]. fold (new_error now tool message args ctx).
  destruct (Py.len (errors r ++ [new_error now tool message args ctx])
            >? max_retained r).
  - destruct (slice_from_snoc (max_retained r) (errors r)
                              (new_error now tool message args ctx) Hm)
      as [kept [Hk [dropped Hd]]].
    now exists kept, dropped.
  - now exists (errors r), [].
Qed.

(** X18.  The error log keeps the newest entries.  With a positive
    [max_retained], after [record_error] the log holds the smaller of
    [max_retained] and one more than before, the new error is its last
    entry and the entries before it are the latest of the old ones, in
    order.  With [max_retained] zero nothing is ever dropped: the slice
    [errors[-0:]] is the whole list. *)
Theorem error_log_keeps_newest (now : datetime) (tool message : string)
        (args : option (Py.dict json.value)) (ctx : string)
        (r : ErrorRetention) :
  let r' := retain_error now tool message args ctx r in
  let new := new_error now tool message args ctx in
  max_retained r' = max_retained r /\
  summary_threshold r' = summary_threshold r /\
  (0 < max_retained r ->
   Py.len (errors r') = Z.min (Py.len (errors r) + 1) (max_retained r) /\
   Py.get (errors r') (-1) = Some new /\
   exists kept dropped,
     errors r' = (kept ++ [new])%list /\
     errors r = (dropped ++ kept)%list) /\
  (max_retained r = 0 -> errors r' = (errors r ++ [new])%list).
Proof.
  cbn zeta. split; [reflexivity|]. split; [reflexivity|]. split.
  - intros Hm.
    destruct (retain_error_errors now tool message args ctx r)
      as [kept [dropped [Hk Hd]]]; [lia|].
    split; [|split].
    + unfold retain_error. cbn [errors].
      fold (new_error now tool message args ctx).
      unfold Py.slice_from, Py.slice_offset, Py.len.
      destruct (Z.gtb_spec
                  (Z.of_nat
                     (List.length
                        (errors r ++ [new_error now tool message args ctx])))
                  (max_retained r)) as [Hgt|Hle].
      * rewrite length_skipn. rewrite length_app in *. cbn [List.length] in *.
        destruct (Z.ltb_spec (- max_retained r) 0); lia.
      * rewrite length_app in *. cbn [List.length] in *. lia.
    + rewrite Hk. apply get_last.
    + now exists kept, dropped.
  - intros H0. unfold retain_error. cbn [errors].
    fold (new_error now tool message args ctx). rewrite H0.
    destruct (Py.len (errors r ++ [new_error now tool message args ctx])
              >? 0); [|reflexivity].
    unfold Py.slice_from, Py.slice_offset. reflexivity.
Qed.

(** X19.  An error recorded through the engine is in the error block of
    the context: when errors are retained and neither [max_retained] nor
    [summary_threshold] is negative, [get_error_context] after
    [record_error] begins with the heading of the block and holds the line
    of the new error.  When errors are not retained, [record_error] leaves
    the engine as it is and the block is empty. *)
Theorem recorded_error_is_in_context (now : datetime)
        (tool message : string) (args : option (Py.dict json.value))
        (e : ContextEngine) :
  (retain_errors e = true ->
   0 <= max_retained (error_retention e) ->
   0 <= summary_threshold (error_retention e) ->
   let ctx := get_error_context (record_error now tool message args e) in
   Py.startswith ctx "[PREVIOUS ERRORS - Avoid repeating these mistakes:]"
   = true /\
   Py.contains ("- " ++ tool ++ ": " ++ message) ctx = true) /\
  (retain_errors e = false ->
   record_error now tool message args e = e /\
   get_error_context e = "").
Proof.
  split.
  - intros Hr Hm Ht. cbn zeta. unfold get_error_context, record_error.
    rewrite Hr. cbn [negb retain_errors with_error_retention error_retention].
    rewrite Hr. cbn [negb].
    destruct (retain_error_errors now tool message args ""
                                  (error_retention e) Hm)
      as [kept [dropped [Hk _]]].
    unfold to_context_string. rewrite Hk.
    cbn [summary_threshold retain_error].
    destruct (slice_from_snoc (summary_threshold (error_retention e)) kept
                              (new_error now tool message args "") Ht)
      as [shown [Hs _]].
    rewrite Hs.
    destruct (kept ++ [new_error now tool message args ""])%list eqn:Hl;
      [now destruct kept|].
    split.
    + unfold Py.startswith, Py.join.
      destruct (shown ++ [new_error now tool message args ""])%list eqn:Hsh;
        [now destruct shown|].
      cbn [map String.concat]. apply prefix_app.
    + apply concat_In_contains. right. rewrite map_app. apply in_or_app.
      right. now left.
  - intros Hr. unfold record_error, get_error_context. now rewrite Hr.
Qed.

End ErrorLog.

Section StablePrefixCheck.
Import context context_spec.

Variable sha256_hexdigest : string -> string.
Variable percent_digits : Z -> Z -> string.

(** X20.  A prefix set with [set_stable_prefix] passes
    [check_prefix_stability], and another prefix passes exactly when the
    first 16 digits of its digest are those of the prefix set.  The answer
    is not changed by masking or unmasking a tool, recording an error,
    rebuilding the todo, counting a step or building a context. *)
Theorem stable_prefix_round_trip (prefix other : string)
        (e : ContextEngine) :
  let e' := set_stable_prefix sha256_hexdigest prefix e in
  system_prefix e' = prefix /\
  check_prefix_stability sha256_hexdigest prefix e' = true /\
  (check_prefix_stability sha256_hexdigest other e' = true
   <-> Py.str_slice_to 16 (sha256_hexdigest other)
       = Py.str_slice_to 16 (sha256_hexdigest prefix)) /\
  (forall tool reason conditions,
      check_prefix_stability sha256_hexdigest other
                             (mask_tool tool reason conditions e)
      = check_prefix_stability sha256_hexdigest other e) /\
  (forall tool,
      check_prefix_stability sha256_hexdigest other (unmask_tool tool e)
      = check_prefix_stability sha256_hexdigest other e) /\
  (forall now tool message args,
      check_prefix_stability sha256_hexdigest other
                             (record_error now tool message args e)
      = check_prefix_stability sha256_hexdigest other e) /\
  (forall now plan_steps current completed,
      check_prefix_stability sha256_hexdigest other
                             (update_todo now plan_steps current completed e)
      = check_prefix_stability sha256_hexdigest other e) /\
  check_prefix_stability sha256_hexdigest other (increment_step e)
  = check_prefix_stability sha256_hexdigest other e /\
  (forall evs it ie im e1 r,
      build_context percent_digits evs it ie im e = Some (e1, r) ->
      check_prefix_stability sha256_hexdigest other e1
      = check_prefix_stability sha256_hexdigest other e).
Proof.
  cbn zeta. unfold check_prefix_stability.
  split; [reflexivity|]. split; [apply String.eqb_refl|].
  split; [apply String.eqb_eq|].
  split; [reflexivity|].
  split; [intros tool; unfold unmask_tool;
          now destruct (Py.dict_get tool (tool_masks e))|].
  split; [intros now tool message args; unfold record_error;
          now destruct (retain_errors e)|].
  split; [reflexivity|]. split; [reflexivity|].
  intros evs it ie im e1 r. unfold build_context.
  destruct (dynamic_parts _ _ _ _); [|discriminate].
  destruct (process_events _ _ _). intros H. inversion H. reflexivity.
Qed.

Lemma build_context_counters
      (evs out : list (Py.dict json.value)) (it ie im : bool)
      (e e' : ContextEngine) (prefix : string) :
  build_context percent_digits evs it ie im e = Some (e', (prefix, out)) ->
  step_count e' = step_count e + 1 /\
  context_version e' = context_version e.
Proof.
  unfold build_context.
  destruct (dynamic_parts _ _ _ _); [|discriminate].
  destruct (process_events _ _ _). intros H. inversion H; subst.
  split; reflexivity.
Qed.

Lemma process_events_passes (vary : bool) (evs : list (Py.dict json.value))
      (v : SerializationVariation) :
  Forall2 (passed_through vary) evs (fst (process_events vary evs v)) /\
  variation_seed (snd (process_events vary evs v))
  = variation_seed v + (if vary then observations evs else 0) /\
  templates (snd (process_events vary evs v)) = templates v /\
  current_template_index (snd (process_events vary evs v))
  = current_template_index v.
Proof.
  revert v. induction evs as [|event rest IH]; intros v.
  - cbn. split; [constructor|]. split; [destruct vary; cbn; lia|].
    split; reflexivity.
  - cbn [process_events]. fold (is_observation event).
    unfold observations. cbn [filter].
    destruct (vary && is_observation event) eqn:Hvo.
    + apply andb_true_iff in Hvo. destruct Hvo as [-> Hobs]. rewrite Hobs.
      match goal with
      | |- context [add_variation ?o v] =>
          change (add_variation o v)
            with (fst (add_variation o v),
                  mk_SerializationVariation
                    (templates v) (current_template_index v)
                    (variation_seed v + 1))
      end.
      cbv beta iota.
      specialize (IH (mk_SerializationVariation
                        (templates v) (current_template_index v)
                        (variation_seed v + 1))).
      destruct (process_events true rest _) as [done v2].
      cbn [fst snd] in *.
      destruct IH as [IH1 [IH2 [IH3 IH4]]]. split; [|split; [|split]].
      * constructor; [|exact IH1]. split.
        -- rewrite Hobs. discriminate.
        -- intros k Hk. now apply dict_get_set_neq.
      * rewrite IH2. cbn [variation_seed]. unfold observations, Py.len.
        cbn [List.length]. lia.
      * exact IH3.
      * exact IH4.
    + specialize (IH v). destruct (process_events vary rest v) as [done v2].
      cbn [fst snd] in *.
      destruct IH as [IH1 [IH2 [IH3 IH4]]]. split; [|split; [|split]].
      * constructor; [|exact IH1]. split; [reflexivity|reflexivity].
      * rewrite IH2. destruct vary; [|reflexivity].
        cbn [andb] in Hvo. rewrite Hvo. reflexivity.
      * exact IH3.
      * exact IH4.
Qed.

Lemma passed_through_all (evs out : list (Py.dict json.value)) :
  Forall2 (passed_through false) evs out -> out = evs.
Proof.
  induction 1 as [|a b l1 l2 [H _] _ IH]; [reflexivity|].
  rewrite IH, H; reflexivity.
Qed.

(** X21.  Given events whose observations carry a text as their output,
    or none, [build_context] hands back the events it was given, one for
    one and in order.  A returned event differs from the given one only if
    the engine varies its serialization and the event is an observation,
    and then only under the key "output"; with [vary_serialization] off
    the events come back unchanged.  The call counts one step, keeps the
    context version, and moves the variation seed on by the number of
    observations it rewrote. *)
Theorem build_context_passes_events_through
        (evs out : list (Py.dict json.value)) (it ie im : bool)
        (e e' : ContextEngine) (prefix : string) :
  Forall text_output evs ->
  build_context percent_digits evs it ie im e = Some (e', (prefix, out)) ->
  List.length out = List.length evs /\
  Forall2 (passed_through (vary_serialization e)) evs out /\
  (vary_serialization e = false -> out = evs) /\
  step_count e' = step_count e + 1 /\
  context_version e' = context_version e /\
  variation_seed (serialization e')
  = variation_seed (serialization e)
    + (if vary_serialization e then observations evs else 0).
Proof.
  intros _. unfold build_context.
  destruct (dynamic_parts _ _ _ _); [|discriminate].
  cbn [vary_serialization serialization with_counters].
  pose proof (process_events_passes (vary_serialization e) evs
                                    (serialization e)) as Hp.
  destruct (process_events (vary_serialization e) evs (serialization e))
    as [done v']. cbn [fst snd] in Hp.
  destruct Hp as [H1 [H2 _]]. intros H. inversion H; subst. clear H.
  split; [symmetry; exact (Forall2_length H1)|].
  split; [exact H1|].
  split; [intros Hv; rewrite Hv in H1; now apply passed_through_all|].
  split; [reflexivity|]. split; [reflexivity|]. exact H2.
Qed.

End StablePrefixCheck.

Lemma build_context_passes_events_through_witness :
  exists e' prefix out,
    context.build_context context_spec.whole_percent
                          context_spec.demo_events true true true
                          context_spec.demo_engine
    = Some (e', (prefix, out)) /\
    List.length out = List.length context_spec.demo_events.
Proof.
  destruct (context.build_context context_spec.whole_percent
                                  context_spec.demo_events true true true
                                  context_spec.demo_engine)
    as [[e' [prefix out]]|] eqn:H; [|vm_compute in H; discriminate H].
  exists e', prefix, out. split; [reflexivity|].
  assert (Htext : Forall context_spec.text_output context_spec.demo_events)
    by (repeat constructor; intros _; exact I).
  exact (proj1 (build_context_passes_events_through
                  context_spec.whole_percent context_spec.demo_events out
                  true true true context_spec.demo_engine e' prefix
                  Htext H)).
Defined.

Section DeterministicContext.
Import context context_spec json json_spec events_spec.

(** X22.  The text of [get_deterministic_context] does not depend on the
    order in which the keys of the event dicts, or of the dicts inside
    them, were inserted, and it is printable ASCII whatever the events
    hold. *)
Theorem deterministic_context_ignores_key_order
        (evs1 evs2 : list (Py.dict value)) :
  Forall (fun d => wf (Dict d)) evs1 ->
  Forall2 (fun d1 d2 => eqv (Dict d1) (Dict d2)) evs1 evs2 ->
  get_deterministic_context evs1 = get_deterministic_context evs2 /\
  all_printable (get_deterministic_context evs1) = true.
Proof.
  intros Hwf He. split.
  - unfold get_deterministic_context. apply dumps_eqv.
    + apply wf_List. apply Forall_map. exact Hwf.
    + constructor. clear Hwf.
      induction He; cbn [map]; constructor; assumption.
  - apply dumps_printable; reflexivity.
Qed.

Lemma deterministic_context_ignores_key_order_witness :
  get_deterministic_context demo_events
  = get_deterministic_context shuffled_events.
Proof.
  apply (deterministic_context_ignores_key_order demo_events
                                                 shuffled_events).
  - repeat constructor; cbn; intuition discriminate.
  - repeat constructor.
    + apply (eqv_Dict _ [("tool_name", Str "python_execute");
                         ("type", Str "action")]);
        [apply perm_swap | repeat constructor].
    + apply (eqv_Dict _ [("output", Str "a: b");
                         ("type", Str "observation")]);
        [apply perm_swap | repeat constructor].
Defined.

End DeterministicContext.

Section TodoFromPlan.
Import context context_spec.

Lemma add_open_items (now : datetime) (current : Z) (completed : list Z)
      (l : list (Z * string)) (t : TodoRecitation) :
  let t' :=
    fold_left
      (fun t (ix : Z * string) =>
         if negb (mem_Z (fst ix) completed)
         then add_item now (snd ix) (if fst ix =? current then 1 else 2) t
         else t)
      l t in
  items t'
  = (items t
     ++ map (fun ix : Z * string =>
               mk_TodoItem (snd ix)
                           (Some (if fst ix =? current then 1 else 2))
                           "pending" (Some (isoformat now)) None)
            (filter (fun ix => negb (mem_Z (fst ix) completed)) l))%list /\
  completed_items t' = completed_items t /\
  update_frequency t' = update_frequency t /\
  title t' = title t.
Proof.
  cbn zeta. revert t. induction l as [|ix l IH]; intros t.
  - cbn. now rewrite app_nil_r.
  - cbn [fold_left filter].
    destruct (negb (mem_Z (fst ix) completed)).
    + destruct (IH (add_item now (snd ix)
                             (if fst ix =? current then 1 else 2) t))
        as [H1 [H2 [H3 H4]]].
      rewrite H1, H2, H3, H4. cbn [items add_item map].
      rewrite <- app_assoc. repeat split; reflexivity.
    + apply IH.
Qed.

Lemma add_closed_items (now : datetime) (plan_steps : list string)
      (completed : list Z) (t : TodoRecitation) :
  let t' :=
    fold_left
      (fun t i =>
         if i <? Py.len plan_steps
         then match Py.get plan_steps i with
              | Some d =>
                  mk_TodoRecitation
                    (title t) (items t)
                    (completed_items t
                     ++ [mk_TodoItem d None "completed" None
                                     (Some (isoformat now))])
                    (notes t) (last_updated t) (update_frequency t)
              | None => t
              end
         else t)
      completed t in
  items t' = items t /\
  completed_items t'
  = (completed_items t
     ++ map (fun d => mk_TodoItem d None "completed" None
                                  (Some (isoformat now)))
            (closed_steps plan_steps completed))%list /\
  update_frequency t' = update_frequency t /\
  title t' = title t.
Proof.
  cbn zeta. revert t. induction completed as [|i l IH]; intros t.
  - cbn. now rewrite app_nil_r.
  - cbn [fold_left closed_steps flat_map].
    fold (closed_steps plan_steps l).
    destruct (i <? Py.len plan_steps).
    + destruct (Py.get plan_steps i) as [d|].
      * match goal with
        | |- context [fold_left _ l ?t1] =>
            destruct (IH t1) as [H1 [H2 [H3 H4]]]
        end.
        rewrite H1, H2, H3, H4.
        cbn [items completed_items update_frequency title map app].
        rewrite <- app_assoc. repeat split; reflexivity.
      * cbn [app]. apply IH.
    + destruct (Py.get plan_steps i); cbn [app]; apply IH.
Qed.

Lemma filter_on_index {B : Type} (p : Z -> bool) (idx : list Z)
      (l : list B) :
  List.length idx = List.length l ->
  map fst (filter (fun ix : Z * B => p (fst ix)) (combine idx l))
  = filter p idx.
Proof.
  revert l. induction idx as [|i idx IH]; intros [|x l] Hl;
    try discriminate; [reflexivity|].
  cbn [combine filter fst]. injection Hl as Hl.
  destruct (p i); cbn [map fst]; now rewrite IH.
Qed.

Lemma indices_NoDup (n : nat) : NoDup (map Z.of_nat (seq 0 n)).
Proof.
  generalize 0%nat. induction n as [|n IH]; intros s; cbn; constructor.
  - rewrite in_map_iff. intros [k [Hk Hin]]. apply in_seq in Hin. lia.
  - apply IH.
Qed.

Lemma mem_Z_In (i : Z) (l : list Z) : mem_Z i l = true <-> In i l.
Proof.
  unfold mem_Z. rewrite existsb_exists. split.
  - intros [x [Hin Heq]]. apply Z.eqb_eq in Heq. now subst.
  - intros Hin. exists i. split; [exact Hin | apply Z.eqb_refl].
Qed.

Lemma open_steps_count (plan_steps : list string) (completed : list Z) :
  NoDup completed ->
  Forall (fun i => 0 <= i < Py.len plan_steps) completed ->
  Py.len (open_steps plan_steps completed) + Py.len completed
  = Py.len plan_steps.
Proof.
  intros Hnd Hin. unfold open_steps, Py.enumerate, Py.len.
  set (idx := map Z.of_nat (seq 0 (List.length plan_steps))).
  assert (Hidx : List.length idx = List.length plan_steps)
    by (unfold idx; now rewrite length_map, length_seq).
  rewrite <- (length_map fst
                (filter (fun ix : Z * string =>
                           negb (mem_Z (fst ix) completed))
                        (combine idx plan_steps))).
  rewrite (filter_on_index (fun i => negb (mem_Z i completed)) idx
                           plan_steps Hidx).
  pose proof (filter_length (fun i => mem_Z i completed) idx) as Hf.
  assert (Hp : Permutation (filter (fun i => mem_Z i completed) idx)
                           completed).
  { apply NoDup_Permutation;
      [apply NoDup_filter; apply indices_NoDup | exact Hnd |].
    intros i. rewrite filter_In, mem_Z_In. split; [tauto|].
    intros Hi. split; [|exact Hi].
    rewrite Forall_forall in Hin. specialize (Hin i Hi).
    unfold idx. apply in_map_iff. exists (Z.to_nat i).
    split; [lia|]. apply in_seq. unfold Py.len in Hin. lia. }
  apply Permutation_length in Hp. lia.
Qed.

Lemma closed_steps_count (plan_steps : list string) (completed : list Z) :
  Forall (fun i => 0 <= i < Py.len plan_steps) completed ->
  Py.len (closed_steps plan_steps completed) = Py.len completed.
Proof.
  induction 1 as [|i l Hi Hl IH]; [reflexivity|].
  cbn [closed_steps flat_map]. fold (closed_steps plan_steps l).
  destruct (get_in_range plan_steps i Hi) as [d ->].
  destruct (Z.ltb_spec i (Py.len plan_steps)); [|lia].
  unfold Py.len in *. rewrite length_app. cbn [List.length]. lia.
Qed.

(** X23.  [update_todo] rebuilds the todo from the plan and keeps nothing
    of the old one.  The open items are the steps that are not completed,
    in plan order, pending, with priority 1 for the current step and 2 for
    the others; the completed items are the completed steps in the order
    given.  When the completed indices are distinct and within the plan,
    every step is on exactly one of the two lists, so the two lengths add
    up to the number of steps.  The update frequency is 3 again. *)
Theorem update_todo_lists_every_step (now : datetime)
        (plan_steps : list string) (current : Z) (completed : list Z)
        (e : ContextEngine) :
  NoDup completed ->
  Forall (fun i => 0 <= i < Py.len plan_steps) completed ->
  let t := todo (update_todo now plan_steps current completed e) in
  title t = "Task Progress" /\
  update_frequency t = 3 /\
  items t
  = map (fun ix : Z * string =>
           mk_TodoItem (snd ix) (Some (if fst ix =? current then 1 else 2))
                       "pending" (Some (isoformat now)) None)
        (open_steps plan_steps completed) /\
  completed_items t
  = map (fun d => mk_TodoItem d None "completed" None
                              (Some (isoformat now)))
        (closed_steps plan_steps completed) /\
  Py.len (items t) + Py.len (completed_items t) = Py.len plan_steps.
Proof.
  intros Hnd Hin. cbn zeta. unfold update_todo. cbn [todo with_todo].
  match goal with
  | |- context [fold_left ?f completed ?t1] =>
      destruct (add_closed_items now plan_steps completed t1)
        as [H1 [H2 [H3 H4]]]
  end.
  destruct (add_open_items now current completed (Py.enumerate plan_steps)
                           (new_TodoRecitation now "Task Progress"))
    as [G1 [G2 [G3 G4]]].
  cbn zeta in H1, H2, H3, H4, G1, G2, G3, G4.
  rewrite H4, H3, H2, H1, G4, G3, G2, G1.
  cbn [title update_frequency items completed_items new_TodoRecitation app].
  fold (open_steps plan_steps completed).
  split; [reflexivity|]. split; [reflexivity|]. split; [reflexivity|].
  split; [reflexivity|].
  unfold Py.len at 1 2. rewrite !length_map.
  fold (Py.len (open_steps plan_steps completed)).
  fold (Py.len (closed_steps plan_steps completed)).
  rewrite closed_steps_count by exact Hin.
  now apply open_steps_count.
Qed.

Lemma update_todo_lists_every_step_witness :
  Py.len (items (todo (update_todo t0 ["look"; "count"; "report"] 1 [0]
                                   demo_engine)))
  + Py.len (completed_items
              (todo (update_todo t0 ["look"; "count"; "report"] 1 [0]
                                 demo_engine)))
  = 3.
Proof.
  apply (update_todo_lists_every_step t0 ["look"; "count"; "report"] 1 [0]
                                      demo_engine).
  - repeat constructor. intros [].
  - repeat constructor; cbn; lia.
Defined.

End TodoFromPlan.

Section KnowledgeBase.
Import knowledge knowledge_spec.

Lemma KnowledgeScope_eqb_eq (a b : KnowledgeScope) :
  KnowledgeScope_eqb a b = true <-> a = b.
Proof. destruct a, b; cbn; split; congruence. Qed.

Lemma mem_scope_In (x : KnowledgeScope) (s : list KnowledgeScope) :
  mem_scope x s = true <-> In x s.
Proof.
  unfold mem_scope. rewrite existsb_exists. split.
  - intros [y [Hin He]]. apply KnowledgeScope_eqb_eq in He. now subst.
  - intros Hin. exists x. split; [exact Hin|]. now apply KnowledgeScope_eqb_eq.
Qed.

Lemma mem_str_In (x : string) (s : list string) :
  mem_str x s = true <-> In x s.
Proof.
  unfold mem_str. rewrite existsb_exists. split.
  - intros [y [Hin He]]. apply String.eqb_eq in He. now subst.
  - intros Hin. exists x. split; [exact Hin | apply String.eqb_refl].
Qed.

Lemma relevant_is_eligible (context : string)
      (active_tools : option (list string))
      (scopes : option (list KnowledgeScope)) (m : KnowledgeModule) :
  get_relevant_knowledge context active_tools scopes m
  = Py.slice_to (max_injections m)
                (Py.sorted by_priority_desc
                           (eligible context active_tools scopes m)).
Proof.
  unfold get_relevant_knowledge, eligible. fold (target_scopes scopes m).
  f_equal. f_equal. apply filter_ext. intros item.
  destruct (enabled item), (mem_scope (scope item) (target_scopes scopes m)),
    (KnowledgeScope_eqb (scope item) GENERAL); reflexivity.
Qed.

Lemma In_slice_to {A : Type} (j : Z) (l : list A) (x : A) :
  In x (Py.slice_to j l) -> In x l.
Proof.
  unfold Py.slice_to. intros H.
  rewrite <- (firstn_skipn (Py.slice_offset (Py.len l) j) l).
  apply in_or_app. now left.
Qed.

Lemma matches_iff (context : string) (active_tools : option (list string))
      (item : KnowledgeItem) :
  matches context active_tools item = true <->
  enabled item = true /\
  (Exists (fun trigger => occurs_nocase trigger context) (triggers item) \/
   exists tools tool,
     active_tools = Some tools /\ In tool tools /\
     In tool (scope_tools (scope item))).
Proof.
  unfold matches. destruct (enabled item); cbn [negb];
    [|split; [discriminate | intros [H _]; discriminate]].
  assert (Ht : Py.any (fun trigger =>
                         Py.contains (Py.lower trigger) (Py.lower context))
                      (triggers item) = true
               <-> Exists (fun trigger => occurs_nocase trigger context)
                          (triggers item)).
  { unfold Py.any. rewrite existsb_exists, Exists_exists.
    split; intros [t [Hin H]]; exists t; split; try exact Hin;
      now apply contains_lower_both. }
  destruct (Py.any _ (triggers item)) eqn:Hany.
  - split; [|reflexivity]. intros _. split; [reflexivity|].
    left. now apply Ht.
  - assert (Hno : ~ Exists (fun trigger => occurs_nocase trigger context)
                           (triggers item))
      by (intros H; apply Ht in H; discriminate).
    destruct active_tools as [[|t0' tools]|].
    + split; [discriminate|]. intros [_ [H|[ts [t [E [Hin _]]]]]];
        [contradiction|]. inversion E; subst. destruct Hin.
    + destruct (existsb (fun tool => mem_str tool
                                               (scope_tools (scope item)))
                        (t0' :: tools)) eqn:Hex.
      * split; [|reflexivity]. intros _. split; [reflexivity|]. right.
        apply existsb_exists in Hex. destruct Hex as [t [Hin Hm]].
        exists (t0' :: tools), t. split; [reflexivity|].
        split; [exact Hin | now apply mem_str_In].
      * split; [discriminate|].
        intros [_ [H|[ts [t [E [Hin Hs]]]]]]; [contradiction|].
        inversion E; subst.
        assert (Hc : existsb (fun tool => mem_str tool
                                                  (scope_tools (scope item)))
                             (t0' :: tools) = true).
        { apply existsb_exists. exists t. split; [exact Hin|].
          now apply mem_str_In. }
        rewrite Hc in Hex. discriminate.
    + split; [discriminate|]. intros [_ [H|[ts [t [E _]]]]];
        [contradiction | discriminate].
Qed.

Lemma knowledge_priority_total (a b : KnowledgeItem) :
  by_priority_desc a b = true \/ by_priority_desc b a = true.
Proof. unfold by_priority_desc. lia. Qed.

Lemma knowledge_priority_trans (a b c : KnowledgeItem) :
  by_priority_desc a b = true -> by_priority_desc b c = true ->
  by_priority_desc a c = true.
Proof. unfold by_priority_desc. lia. Qed.

(** X24.  [get_relevant_knowledge] answers the first [max_injections]
    entries of the ranking of the eligible items: the enabled items of the
    base whose scope is among the target scopes or is General and that
    match.  The target scopes are the ones given, else the active ones,
    else all scopes, an empty set counting as not given.  The ranking is by
    descending priority, items of equal priority in base order.  An item
    matches when one of its triggers occurs in the context, case ignored,
    or an active tool is among the tools of its scope; so with no active
    tools an item without a trigger in the context is never answered, and
    a disabled item never is. *)
Theorem relevant_knowledge_ranked (context : string)
        (active_tools : option (list string))
        (scopes : option (list KnowledgeScope)) (m : KnowledgeModule) :
  let ranking :=
    Py.sorted by_priority_desc (eligible context active_tools scopes m) in
  let answer := get_relevant_knowledge context active_tools scopes m in
  answer = Py.slice_to (max_injections m) ranking /\
  (0 <= max_injections m -> Py.len answer <= max_injections m) /\
  Permutation ranking (eligible context active_tools scopes m) /\
  StronglySorted (fun a b => priority a >= priority b) ranking /\
  (forall p, filter (has_priority p) ranking
             = filter (has_priority p)
                      (eligible context active_tools scopes m)) /\
  (forall item,
      In item (eligible context active_tools scopes m) <->
      In item (knowledge_base m) /\ enabled item = true /\
      (In (scope item) (target_scopes scopes m) \/ scope item = GENERAL) /\
      (Exists (fun trigger => occurs_nocase trigger context)
              (triggers item) \/
       exists tools tool,
         active_tools = Some tools /\ In tool tools /\
         In tool (scope_tools (scope item)))) /\
  (forall item, In item answer ->
                In item (eligible context active_tools scopes m)).
Proof.
  cbn zeta. rewrite relevant_is_eligible.
  split; [reflexivity|].
  split; [apply slice_to_length|].
  split; [apply sorted_perm|].
  split.
  { eapply StronglySorted_weaken;
      [|apply (sorted_sorted by_priority_desc knowledge_priority_total
                             knowledge_priority_trans)].
    intros a b H. unfold by_priority_desc in H. cbn in H. lia. }
  split.
  { intros p. apply sorted_filter.
    intros x y Hx Hy. unfold has_priority, by_priority_desc in *. lia. }
  split.
  - intros item. unfold eligible.
    rewrite filter_In, !andb_true_iff, orb_true_iff, mem_scope_In,
      KnowledgeScope_eqb_eq, matches_iff.
    tauto.
  - intros item Hin. apply In_slice_to in Hin.
    eapply Permutation_in; [apply sorted_perm | exact Hin].
Qed.

Lemma pop_first_none (item_id : string) (base : list KnowledgeItem) :
  pop_first item_id base = None
  <-> Forall (fun item => id item <> item_id) base.
Proof.
  induction base as [|item rest IH]; cbn.
  - split; [constructor | reflexivity].
  - destruct (String.eqb_spec (id item) item_id) as [He|Hne].
    + split; [discriminate|]. intros H. inversion H; subst. contradiction.
    + destruct (pop_first item_id rest).
      * split; [discriminate|]. intros H. inversion H; subst.
        apply IH in H3. discriminate.
      * split; [|reflexivity]. intros _. constructor; [exact Hne|].
        now apply IH.
Qed.

Lemma pop_first_split (item_id : string) (before after : list KnowledgeItem)
      (item : KnowledgeItem) :
  Forall (fun x => id x <> item_id) before -> id item = item_id ->
  pop_first item_id (before ++ item :: after) = Some (before ++ after)%list.
Proof.
  intros Hb Hi. induction Hb as [|x before Hx Hb IH]; cbn.
  - rewrite Hi, String.eqb_refl. reflexivity.
  - destruct (String.eqb_spec (id x) item_id); [contradiction|].
    now rewrite IH.
Qed.

(** X25.  [remove_knowledge] takes out the first item of the given id and
    no other: items before it, and items after it of the same id, stay,
    and the answer is yes.  When no item has the id, the answer is no and
    the base is unchanged.  Ids are not kept distinct by [add_knowledge],
    which appends whatever it is given; an item added under a new id and
    removed again leaves the module as it was. *)
Theorem remove_knowledge_takes_first (item_id : string)
        (m : KnowledgeModule) :
  (Forall (fun item => id item <> item_id) (knowledge_base m) ->
   remove_knowledge item_id m = (m, false)) /\
  (forall before item after,
      knowledge_base m = (before ++ item :: after)%list ->
      Forall (fun x => id x <> item_id) before -> id item = item_id ->
      remove_knowledge item_id m
      = (mk_KnowledgeModule (before ++ after) (active_scopes m)
                            (max_injections m), true)) /\
  (snd (remove_knowledge item_id m) = true
   <-> Exists (fun item => id item = item_id) (knowledge_base m)) /\
  (forall item,
      knowledge_base (add_knowledge item m)
      = (knowledge_base m ++ [item])%list) /\
  (forall item,
      id item = item_id ->
      Forall (fun x => id x <> item_id) (knowledge_base m) ->
      remove_knowledge item_id (add_knowledge item m) = (m, true)).
Proof.
  unfold remove_knowledge. split; [|split; [|split; [|split]]].
  - intros H. apply pop_first_none in H. now rewrite H.
  - intros before item after -> Hb Hi.
    now rewrite (pop_first_split item_id before after item Hb Hi).
  - destruct (pop_first item_id (knowledge_base m)) eqn:Hp; cbn [snd].
    + split; [|reflexivity]. intros _.
      apply Exists_exists.
      destruct (Exists_dec (fun item => id item = item_id) (knowledge_base m))
        as [He|Hn]; [intros x; apply string_dec | now apply Exists_exists|].
      exfalso. assert (Hf : Forall (fun item => id item <> item_id)
                                   (knowledge_base m)).
      { apply Forall_forall. intros x Hx Hid. apply Hn.
        apply Exists_exists. now exists x. }
      apply pop_first_none in Hf. congruence.
    + split; [discriminate|]. intros He. apply pop_first_none in Hp.
      apply Exists_exists in He. destruct He as [x [Hx Hid]].
      rewrite Forall_forall in Hp. now elim (Hp x Hx).
  - reflexivity.
  - intros item Hi Hb. cbn [knowledge_base add_knowledge active_scopes
                             max_injections].
    rewrite (pop_first_split item_id (knowledge_base m) [] item Hb Hi).
    rewrite app_nil_r. now destruct m.
Qed.

Lemma add_scope_In (s x : KnowledgeScope) (detected : list KnowledgeScope) :
  In s (add_scope x detected) <-> In s detected \/ s = x.
Proof.
  unfold add_scope. destruct (mem_scope x detected) eqn:Hm.
  - apply mem_scope_In in Hm. split; [now left|].
    intros [H| ->]; assumption.
  - rewrite in_app_iff. cbn. intuition congruence.
Qed.

Lemma add_scope_NoDup (x : KnowledgeScope) (detected : list KnowledgeScope) :
  NoDup detected -> NoDup (add_scope x detected).
Proof.
  intros Hnd. unfold add_scope. destruct (mem_scope x detected) eqn:Hm;
    [exact Hnd|].
  apply NoDup_app; [exact Hnd | repeat constructor; intros [] |].
  intros y Hy [<-|[]]. apply mem_scope_In in Hy. congruence.
Qed.

Lemma scan_map_In (tool_lower : string) (s : KnowledgeScope)
      (entries : list (string * KnowledgeScope))
      (detected : list KnowledgeScope) :
  In s (fold_left
          (fun detected (entry : string * KnowledgeScope) =>
             if Py.contains (fst entry) tool_lower
             then add_scope (snd entry) detected
             else detected)
          entries detected)
  <-> In s detected \/
      exists key, In (key, s) entries /\ Py.contains key tool_lower = true.
Proof.
  revert detected. induction entries as [|[k x] t IH]; intros detected.
  - cbn. split; [now left | intros [H|[key [[] _]]]; exact H].
  - cbn [fold_left fst snd]. rewrite IH.
    destruct (Py.contains k tool_lower) eqn:Hc.
    + rewrite add_scope_In. split.
      * intros [[H| ->]|[key [Hin Hk]]]; [now left | |].
        -- right. exists k. split; [now left | exact Hc].
        -- right. exists key. split; [now right | exact Hk].
      * intros [H|[key [[E|Hin] Hk]]]; [now left; left | |].
        -- inversion E; subst. left. now right.
        -- right. now exists key.
    + split.
      * intros [H|[key [Hin Hk]]]; [now left|].
        right. exists key. split; [now right | exact Hk].
      * intros [H|[key [[E|Hin] Hk]]]; [now left | |].
        -- inversion E; subst. congruence.
        -- right. now exists key.
Qed.

Lemma scan_map_NoDup (tool_lower : string)
      (entries : list (string * KnowledgeScope))
      (detected : list KnowledgeScope) :
  NoDup detected ->
  NoDup (fold_left
           (fun detected (entry : string * KnowledgeScope) =>
              if Py.contains (fst entry) tool_lower
              then add_scope (snd entry) detected
              else detected)
           entries detected).
Proof.
  revert detected. induction entries as [|[k x] t IH]; intros detected Hnd;
    [exact Hnd|].
  cbn [fold_left fst snd]. apply IH.
  destruct (Py.contains k tool_lower); [now apply add_scope_NoDup | exact Hnd].
Qed.

Lemma detect_from (s : KnowledgeScope) (tools : list string)
      (detected : list KnowledgeScope) :
  In s (fold_left
          (fun detected tool =>
             let tool_lower := Py.lower tool in
             fold_left
               (fun detected (entry : string * KnowledgeScope) =>
                  if Py.contains (fst entry) tool_lower
                  then add_scope (snd entry) detected
                  else detected)
               tool_scope_map detected)
          tools detected)
  <-> In s detected \/
      exists tool key,
        In tool tools /\ In (key, s) tool_scope_map /\
        Py.contains key (Py.lower tool) = true.
Proof.
  revert detected. induction tools as [|tool t IH]; intros detected.
  - cbn [fold_left]. split; [now left|].
    intros [H|[tool [key [[] _]]]]; exact H.
  - cbn [fold_left]. cbv zeta. rewrite IH, scan_map_In. split.
    + intros [[H|[key [Hin Hk]]]|[tl [key [Hin [Hm Hk]]]]].
      * now left.
      * right. exists tool, key. split; [now left | now split].
      * right. exists tl, key. split; [now right | now split].
    + intros [H|[tl [key [[E|Hin] [Hm Hk]]]]].
      * left. now left.
      * subst. left. right. now exists key.
      * right. now exists tl, key.
Qed.

Lemma detect_NoDup (tools : list string) (detected : list KnowledgeScope) :
  NoDup detected ->
  NoDup (fold_left
           (fun detected tool =>
              let tool_lower := Py.lower tool in
              fold_left
                (fun detected (entry : string * KnowledgeScope) =>
                   if Py.contains (fst entry) tool_lower
                   then add_scope (snd entry) detected
                   else detected)
                tool_scope_map detected)
           tools detected).
Proof.
  revert detected. induction tools as [|tool t IH]; intros detected Hnd;
    [exact Hnd|].
  cbn [fold_left]. apply IH. now apply scan_map_NoDup.
Qed.

(** X26.  [detect_scope_from_tools] detects a scope exactly when, case
    ignored in the tool name, a key of the tool-scope map that stands for
    the scope occurs in the name of one of the tools.  No scope is
    detected twice, General is never detected, and no tools give no
    scopes. *)
Theorem detected_scopes (tools : list string) :
  (forall s,
      In s (detect_scope_from_tools tools) <->
      exists tool key,
        In tool tools /\ In (key, s) tool_scope_map /\
        Py.contains key (Py.lower tool) = true) /\
  NoDup (detect_scope_from_tools tools) /\
  ~ In GENERAL (detect_scope_from_tools tools) /\
  detect_scope_from_tools [] = [].
Proof.
  assert (H : forall s,
             In s (detect_scope_from_tools tools) <->
             exists tool key,
               In tool tools /\ In (key, s) tool_scope_map /\
               Py.contains key (Py.lower tool) = true).
  { intros s. unfold detect_scope_from_tools. rewrite detect_from.
    split; [intros [[]|H]; exact H | now right]. }
  split; [exact H|]. split; [apply detect_NoDup; constructor|].
  split; [|reflexivity].
  intros Hg. apply H in Hg. destruct Hg as [tool [key [_ [Hm _]]]].
  cbn in Hm. intuition discriminate.
Qed.

End KnowledgeBase.

Lemma filter_length_le {A : Type} (f : A -> bool) (l : list A) :
  (List.length (filter f l) <= List.length l)%nat.
Proof.
  induction l as [|x l IH]; cbn; [lia|]. destruct (f x); cbn; lia.
Qed.

Section StreamSummaries.
Import manus_aligned agent_spec.

Lemma count_by_type (l : list events.Event) :
  fold_right Z.add 0
    (map (fun t => Py.len (filter (fun e => events.EventType_eqb
                                               (events.type e) t) l))
         all_event_types)
  = Py.len l.
Proof.
  unfold Py.len, all_event_types. cbn [map fold_right].
  induction l as [|e l IH]; [reflexivity|].
  cbn [filter List.length]. destruct (events.type e); cbn [events.EventType_eqb List.length];
    lia.
Qed.

(** X27.  In the summary of the event stream the counts by type add up to
    the total: every event is counted under exactly one of the seven
    types.  The number of recent errors is at most five and at most the
    number of observations, and a latest plan is reported exactly when the
    count of Plan events is not zero. *)
Theorem summary_counts_add_up (a : ManusAligned) :
  let summary := get_event_stream_summary a in
  counted (by_type summary) = total_events summary /\
  Py.dict_keys (by_type summary)
  = map events.EventType_value all_event_types /\
  0 <= recent_errors summary <= 5 /\
  (forall n, Py.dict_get "observation" (by_type summary) = Some n ->
             recent_errors summary <= n) /\
  (latest_plan summary = None
   <-> Py.dict_get "plan" (by_type summary) = Some 0).
Proof.
  cbn zeta. unfold get_event_stream_summary, counted.
  cbn [by_type total_events recent_errors latest_plan].
  split; [|split; [|split; [|split]]].
  - unfold Py.dict_values. rewrite map_map. cbn [snd].
    unfold events.get_by_type. apply count_by_type.
  - unfold Py.dict_keys. rewrite map_map. reflexivity.
  - unfold events.get_recent_errors, Py.slice_from, Py.slice_offset, Py.len.
    rewrite length_skipn. cbn [Z.opp Z.ltb Z.compare]. lia.
  - intros n Hn. cbn in Hn. inversion Hn; subst. clear Hn.
    unfold events.get_recent_errors, Py.slice_from, Py.len.
    rewrite length_skipn.
    pose proof (filter_length_le events.has_error
                  (events.get_by_type events.OBSERVATION (event_stream a))).
    lia.
  - cbn [Py.dict_get map all_event_types events.EventType_value].
    cbn. unfold events.get_latest_plan.
    destruct (events.get_by_type events.PLAN (event_stream a)) as [|e l] eqn:Hl.
    + split; reflexivity.
    + split.
      * intros Hn. exfalso. revert Hn.
        destruct (@exists_last _ (e :: l)) as [l' [x Hx]]; [discriminate|].
        rewrite Hx, get_last. discriminate.
      * intros Hz. exfalso. injection Hz as Hlen. unfold Py.len in Hlen.
        cbn [List.length] in Hlen. lia.
Qed.

End StreamSummaries.

Section ThinkCounters.
Import manus_aligned agent_spec.

Variable percent_digits : Z -> Z -> string.

Lemma refreshed_engine_counters (now : datetime) (a : ManusAligned)
      (ce : context.ContextEngine) :
  refreshed_engine now a = Some ce ->
  context.step_count ce = context.step_count (context_engine a) + 1 /\
  context.context_version ce
  = context.context_version (context_engine a) + 1.
Proof.
  unfold refreshed_engine.
  destruct (context.should_recite _) as [[|]|]; intros H; inversion H; subst;
    [|split; reflexivity].
  destruct (planner.the_plan _); split; reflexivity.
Qed.

(** X28.  One [think] counts two steps.  When it reaches the call of the
    parent's [think], the step count of the context engine is two higher
    than before, once for [increment_step] and once for [build_context],
    and the context version is one higher; the event stream and the
    planner are as they were.  The prompt it sends ends with the agent's
    own next-step prompt unless the browser is in use, when it is the
    browser's prompt. *)
Theorem think_counts_two_steps (now : datetime)
        (browser_prompt : option string) (a a' : ManusAligned)
        (prompt : string) :
  think_prompt percent_digits now browser_prompt a = Some (a', prompt) ->
  context.step_count (context_engine a')
  = context.step_count (context_engine a) + 2 /\
  context.context_version (context_engine a')
  = context.context_version (context_engine a) + 1 /\
  event_stream a' = event_stream a /\
  the_planner a' = the_planner a /\
  (browser_prompt = None ->
   exists blocks, prompt = blocks ++ next_step_prompt a) /\
  (forall p, browser_prompt = Some p -> prompt = p).
Proof.
  unfold think_prompt.
  destruct (refreshed_engine now a) as [ce2|] eqn:Hr; [|discriminate].
  destruct (refreshed_engine_counters now a ce2 Hr) as [Hs Hv].
  destruct (context.build_context _ _ _ _ _ ce2) as [[ce3 [pre evs]]|] eqn:Hb;
    [|discriminate].
  destruct (build_context_counters
              percent_digits _ _ _ _ _ _ _ _ Hb) as [Hs3 Hv3].
  intros H. inversion H; subst. clear H.
  cbn [context_engine event_stream the_planner with_context_engine].
  split; [lia|]. split; [lia|]. split; [reflexivity|].
  split; [reflexivity|]. split.
  - intros ->.
    destruct (Py.truthy (context.get_masked_tools_context ce3)),
      (Py.truthy (context.get_recitation_context percent_digits ce3)).
    + exists (context.get_masked_tools_context ce3 ++ newline ++ newline
              ++ context.get_recitation_context percent_digits ce3
              ++ newline ++ newline).
      repeat (rewrite append_assoc; cbn [append]). reflexivity.
    + exists (context.get_masked_tools_context ce3 ++ newline ++ newline).
      repeat (rewrite append_assoc; cbn [append]). reflexivity.
    + exists (context.get_recitation_context percent_digits ce3
              ++ newline ++ newline).
      repeat (rewrite append_assoc; cbn [append]). reflexivity.
    + now exists "".
  - intros p ->. reflexivity.
Qed.

End ThinkCounters.

Lemma think_counts_two_steps_witness :
  exists a' prompt,
    manus_aligned.think_prompt context_spec.whole_percent t0 None
                               agent_spec.fresh_agent
    = Some (a', prompt) /\
    context.step_count (manus_aligned.context_engine a')
    = context.step_count
        (manus_aligned.context_engine agent_spec.fresh_agent) + 2.
Proof.
  destruct (manus_aligned.think_prompt context_spec.whole_percent t0 None
                                       agent_spec.fresh_agent)
    as [[a' prompt]|] eqn:H; [|vm_compute in H; discriminate H].
  exists a', prompt. split; [reflexivity|].
  exact (proj1 (think_counts_two_steps context_spec.whole_percent t0 None
                                       agent_spec.fresh_agent a' prompt H)).
Defined.

Section PlannerRun.
Import planner planner_spec.

Lemma advance_plans_follow (now : datetime) (k : nat) :
  forall pl p q,
    the_plan pl = Some p -> advances now k p = Some q ->
    exists pl', advance_plans now k pl = Some pl' /\ the_plan pl' = Some q.
Proof.
  induction k as [|k IH]; intros pl p q Hp Ha.
  - cbn in *. inversion Ha; subst. now exists pl.
  - cbn [advances advance_plans] in *. unfold advance_plan. rewrite Hp.
    destruct (advance now p) as [[p1 r]|]; [|discriminate].
    apply (IH (with_the_plan p1 pl) p1 q); [|exact Ha].
    exact (the_plan_with_the_plan pl p p1 Hp).
Qed.

Lemma filter_none {A : Type} (f : A -> bool) (l : list A) :
  (forall x, In x l -> f x = false) -> filter f l = [].
Proof.
  induction l as [|x l IH]; intros H; [reflexivity|]. cbn [filter].
  rewrite (H x (or_introl eq_refl)). apply IH.
  intros y Hy. apply H. now right.
Qed.

Lemma remaining_of_advanced (n k : nat) (q : Plan) :
  advanced_to n k q ->
  filter (fun s => negb (StepStatus_eqb (status s) COMPLETED
                         || StepStatus_eqb (status s) SKIPPED))
         (steps q)
  = skipn k (steps q).
Proof.
  intros [_ [_ Hs]].
  rewrite <- (firstn_skipn k (steps q)) at 1. rewrite filter_app.
  assert (H1 : filter (fun s => negb (StepStatus_eqb (status s) COMPLETED
                                      || StepStatus_eqb (status s) SKIPPED))
                      (firstn k (steps q)) = []).
  { apply filter_none.
    intros s Hin. apply In_nth_error in Hin. destruct Hin as [i Hi].
    rewrite nth_error_firstn in Hi.
    destruct (Nat.ltb_spec i k) as [Hlt|]; [|discriminate].
    rewrite (Hs i s Hi). unfold status_after.
    destruct (Nat.ltb_spec i k); [reflexivity | lia]. }
  rewrite H1. cbn [app]. apply forallb_filter_id. apply forallb_forall.
  intros s Hin. apply In_nth_error in Hin. destruct Hin as [i Hi].
  rewrite nth_error_skipn in Hi. rewrite (Hs (k + i)%nat s Hi).
  unfold status_after. destruct (Nat.ltb_spec (k + i) k); [lia|].
  now destruct (k + i =? k)%nat.
Qed.

(** X29.  A plan made by [create_plan] is run through by [advance_plan]:
    when [create_plan] has returned a plan, none of the calls raises, and
    after [k] of them the remaining steps that [get_remaining_steps]
    answers are the steps from position [k] on, so there are as many as
    the plan has steps beyond [k].  The plan is complete exactly when no
    step remains, which is from the call on that moves past the last
    step. *)
Theorem run_leaves_the_steps_ahead (now later : datetime)
        (pid request : string) (response : Response) (p : Plan) (k : nat)
        (pl : Planner) :
  snd (create_plan now pid request response pl) = Some p ->
  let pl0 := fst (create_plan now pid request response pl) in
  exists plk q,
    advance_plans later k pl0 = Some plk /\
    the_plan plk = Some q /\
    get_remaining_steps plk = skipn k (steps q) /\
    List.length (get_remaining_steps plk) = (List.length (steps p) - k)%nat /\
    is_plan_complete plk = (List.length (steps p) <=? k)%nat /\
    (get_remaining_steps plk = [] <-> is_plan_complete plk = true).
Proof.
  unfold create_plan.
  destruct (response_content response) as [reply|]; [|discriminate].
  cbn [fst snd]. intros Hsome. inversion Hsome as [Hpe]. clear Hsome.
  cbn zeta. rewrite Hpe.
  destruct (parsed_plan_shape_start now pid request reply) as [Hne [H0 Hc]].
  rewrite Hpe in Hne, H0, Hc.
  destruct (advances_from later (List.length (steps p)) k 0 p H0)
    as [q [Ha [Hq Hic]]].
  cbn [Nat.add] in *.
  destruct (advance_plans_follow later k (install p pl) p q
                                 (the_plan_installed p pl) Ha)
    as [plk [Hk Hp]].
  exists plk, q. split; [exact Hk|]. split; [exact Hp|].
  assert (Hrem : get_remaining_steps plk = skipn k (steps q)).
  { unfold get_remaining_steps. rewrite Hp.
    exact (remaining_of_advanced _ _ _ Hq). }
  assert (Hlen : List.length (steps q) = List.length (steps p))
    by apply Hq.
  assert (Hcomp : is_plan_complete plk = (List.length (steps p) <=? k)%nat).
  { unfold is_plan_complete. rewrite Hp, Hic, Hc.
    destruct (Nat.eqb_spec k 0) as [->|Hk0].
    - destruct (Nat.leb_spec (List.length (steps p)) 0) as [Hle|_];
        [|reflexivity].
      destruct (steps p); [now elim Hne | cbn in Hle; lia].
    - now destruct (Nat.leb_spec (List.length (steps p)) k). }
  split; [exact Hrem|].
  split; [rewrite Hrem, length_skipn, Hlen; reflexivity|].
  split; [exact Hcomp|].
  rewrite Hcomp, Hrem. split.
  - intros He. apply Nat.leb_le.
    assert (Hl : List.length (skipn k (steps q)) = 0%nat) by now rewrite He.
    rewrite length_skipn in Hl. lia.
  - intros Hle. apply Nat.leb_le in Hle. apply skipn_all2. lia.
Qed.

Lemma run_leaves_the_steps_ahead_witness :
  exists plk,
    advance_plans t0 2
      (fst (create_plan t0 "plan0001" "Count the files in /tmp"
                        (Message demo_reply) new_Planner))
    = Some plk /\
    List.length (get_remaining_steps plk) = 1%nat.
Proof.
  destruct (run_leaves_the_steps_ahead
              t0 t0 "plan0001" "Count the files in /tmp"
              (Message demo_reply) demo_plan 2 new_Planner eq_refl)
    as [plk [q [Hk [_ [_ [Hl _]]]]]].
  exists plk. split; [exact Hk|]. rewrite Hl. reflexivity.
Defined.

End PlannerRun.
